(* ===== verification/_CoqProject ===== *)
-Q . S2P
Prelude.v
JsString.v
JsLiteral.v
Classifier.v
UsageHtml.v
History.v
Render.v
Onclick.v
Json.v
Controller.v
Bootstrap.v
