(* ===== verification/Prelude.v ===== *)
(** * A verification development for the EasyFilter barcode scanner

    The program under study is [src/script.js], one browser script that
    declares the class [EasyFilter] and instantiates it once on
    [DOMContentLoaded].  The class wires DOM buttons to a handful of
    methods:

    - [processBarcode] cleans a decoded string with
      [replace(/[^0-9]/g, '')] and rejects it below 8 digits;
    - [searchManualBarcode] trims the text field and rejects it when it is
      empty or shorter than 8 code units (it does NOT strip non-digits);
    - [generateUsageInfo] maps a barcode to usage information: six
      hard-coded Cuckoo filter codes, then a classification by length
      (13 / 12 / 8 / other) and, for 13 digits, by the leading character;
    - the script level (lines 401-409) declares [let easyFilter] and
      registers two [DOMContentLoaded] listeners: the first constructs the
      object, the second copies it to [window.easyFilter];
    - [loadRecentScans] writes the history into the page, each item with
      an [onclick] attribute [easyFilter.selectRecentScan('<barcode>')]
      that the browser parses as HTML and then runs as JavaScript when the
      item is clicked;
    - [displayResult] shows a barcode and its usage information;
    - [addToRecentScans] removes the records with the same barcode, puts
      the new record first, keeps at most 10 and writes the list to
      [localStorage] under the key ['recentScans'];
    - [startScan] / [stopScan] / [scanLoop] drive the camera: an
      asynchronous [getUserMedia], a [requestAnimationFrame] polling loop
      that hands each frame to the [jsQR] decoder, and the stream release;
    - [showMessage] shows one toast and removes it 3 s later;
    - [copyBarcode] writes the shown barcode to the clipboard.

    ** Files and what they model

    - [Prelude] (this file): JavaScript strings as lists of UTF-16 code
      units ([jsstr], a [list N] whose elements are below [2^16]), the
      decoder that turns the UTF-8 text of a Rocq string literal into the
      code units of the corresponding JS literal ([lit]), the boolean
      string equality [===], and the generic list lemmas the components
      share, with the hint database [easyfilter].
    - [JsString]: the string primitives the script calls:
      [replace(/[^0-9]/g, '')] as [clean_barcode], [String.prototype.trim]
      as [trim] (the exact ECMAScript WhiteSpace and LineTerminator sets),
      [charAt].  Theorems: the cleaned string holds only digits, cleaning
      is idempotent and keeps every digit in order, trim removes exactly
      the surrounding white space and is idempotent.
    - [JsLiteral]: the value of a single-quoted JavaScript string literal
      (ECMA-262 12.9.4 and the sloppy-mode escapes of B.1.2), the reader
      the [onclick] handler of the recent list meets: [string_char] and
      [literal_chars] are the grammar productions, one constructor per
      production with its lookahead, and [string_chars] is the lexer, a
      structural pass with an explicit state for [\u{...}].  Theorems:
      the lexer is sound and complete for the grammar, and what follows
      the point where a quote would close a body does not change how the
      body is read.
    - [Classifier]: [generateUsageInfo] as a total function from a
      barcode to a structured [usage_info] (the content that the method
      writes to [innerHTML]: models, part names and numbers, image URLs,
      the note, or a product category with its static copy).  The six
      [if (barcode === ...)] branches are written both as the source's
      chain ([generateUsageInfo_chain]) and as the table [filter_table]
      looked up first-match in source order, and the two are proved equal.
      Theorems: each table code returns its entry, the codes are distinct
      13-digit codes, the heuristic branches are characterised exactly,
      and the heuristic depends only on the length and the first code
      unit.
    - [UsageHtml]: the HTML string [generateUsageInfo] returns, with its
      twelve template literals written out line by line ([template]
      rebuilds the new lines and the indentation of the source) and the
      substitution [`${barcodeLength}`] as [decimal].  Theorems: the
      string is the markup of the structured [Classifier] value on every
      branch (a refinement, so the theorems on [usage_info] speak of what
      is shown), no character of the barcode reaches [innerHTML], and
      [decimal] is the decimal text of the length.
    - [History]: the record type of a scan and [addToRecentScans] on the
      list [this.recentScans].  Theorems: the cap of 10, the new record
      first, at most one record per barcode (an invariant every add
      preserves), and a refinement theorem: after any sequence of adds
      from the empty history, the list is the 10 newest distinct barcodes
      of the sequence, newest first (the abstract specification
      [recent_spec]).
    - [Json]: the storage format.  [JSON.stringify] of the history
      (line 353) as [stringify], with the string escapes of ECMA-262
      (QuoteJSONString: the short escapes, [\u00XX] for the other control
      characters, [\uXXXX] for lone surrogates), and [JSON.parse] (line 8)
      as a parser of the JSON grammar on code units ([parse_value], with
      fuel).  [json_codec] is the instance of the [HistoryCodec] interface
      that [History] declares and [json_codec_laws] discharges its laws.
      Theorems: decode after encode gives back every history, whatever
      its strings hold; the fuel of [JSON_parse] loses no text the
      grammar accepts; a truncated text is a [SyntaxError]; JSON that is
      not an array of records is rejected.
    - [Render]: the markup [loadRecentScans] writes to
      [recentScansList.innerHTML] (lines 357-369), code unit for code
      unit.  Lemma: the barcode and time are pasted without escaping.
    - [Onclick]: a click on a recent item.  The HTML tokenizer on the
      [onclick] attribute of the item's markup (CR LF and CR become LF,
      the value ends at the first double quote, NUL becomes U+FFFD, [&]
      before a letter, digit or [#] starts a character reference) and the
      handler [easyFilter.selectRecentScan('...')] read with [JsLiteral]:
      [click_outcome] is the call with its argument, a SyntaxError, code
      after a literal the barcode closed, or markup not followed.
      Theorems: a barcode without quote, backslash, ampersand, line break
      or NUL reaches [selectRecentScan] unchanged; for any barcode
      without double quote or reference start, the click calls
      [selectRecentScan(x)] exactly when the grammar reads the barcode as
      a literal of value [x], and is a SyntaxError exactly when it reads
      none; a barcode ending in a backslash makes the handler a
      SyntaxError.
    - [Controller]: the whole [EasyFilter] object as a state record (the
      camera stream and the set of live camera tracks, [isScanning], the
      pending animation-frame callbacks, the pending [getUserMedia]
      promises, the result panel, the text field, [recentScans], the
      [localStorage] item and the toast with its timers).  Each method is
      a computation of a state monad ([st app], in the order of the
      source), and [step] delivers one browser event (a click, a resolved
      or rejected promise, an animation frame with what [jsQR] found, a
      timer, a click on a recent item read by [Onclick.click_outcome]) to
      the handlers.  [reachable] is the set of states from the
      constructor ([init], lines 2-13) by steps.  The handlers are proved
      against any codec that satisfies [HistoryCodecLaws] (a Section
      [Context]); the witnesses instantiate the JSON codec.  Theorems: the
      three invariants of the reachable states (camera, storage, toast),
      what each handler does on every branch, the round trip of the
      history through a reload, the cancellation of the loop by
      [stopScan], that a stop is always possible, that a leaked camera
      stream is never stopped by any later event ([leaked], [run_leaked]),
      what a click on a recent item does, and reachable states that
      expose the defects below.
    - [Bootstrap]: the script-level bindings ([easyFilter] and
      [window.easyFilter]) and the two [DOMContentLoaded] listeners run in
      their order of registration, an exception of the constructor being
      reported without stopping the next listener.  Theorems: with a
      readable store both names hold the same reachable controller; with
      a corrupt store the exception is reported and [window.easyFilter]
      is [undefined]; the other order of registration would leave
      [window.easyFilter] undefined, while the [onclick] handlers, whose
      [easyFilter] is the [let] binding ([handler_easyFilter]), would
      still reach the controller.

    ** Not modelled

    - A click on a recent item whose barcode holds a double quote (the
      rest of the start tag is then read from the barcode, and may not
      end before the markup does), a character reference (the table of
      named references is not modelled), or a single quote that closes
      the literal (the code after it is arbitrary JavaScript, the
      injection of [onclick_injection_reachable]), and a click after an
      earlier item whose barcode or time opens a tag ([markup_intact]):
      the step has no successor there.  A click is on the item's element
      itself, not on elements a barcode may inject inside it.
    - The DOM, the camera and [jsQR]: a frame is an input of the
      animation-frame event that says whether the video was ready and what
      [jsQR] decoded.  Clock readings ([toISOString], [toLocaleString])
      are the input of a [Tick] event; both calls of line 338-339 read the
      same clock.  The scrolling of [displayResult] is not modelled.
    - JSON numbers are kept as their lexeme: the history never holds one.
    - A stored item that parses as JSON but is not an array of records
      makes the constructor keep a foreign value whose later use depends
      on what it holds; [Bootstrap] records it as [Unknown] and follows
      it no further.
    - [decimal] is the ECMAScript [Number::toString] of a length, modelled
      from that specification: lengths are natural numbers, so only the
      decimal digits arise.

    ** Fuel

    [parse_value] recurses on nested arrays and objects with a fuel
    argument; [JSON_parse] gives it the length of the text plus one.  Every
    nesting level consumes at least one code unit, so this is enough:
    [parse_fuel_consumed] shows that a parse succeeds with as much fuel as
    it consumes code units, and [JSON_parse_fuel] that [JSON_parse]
    accepts exactly what the grammar accepts with any fuel.  Every other
    function but [decimal_aux] (see Bounds) is structural; the literal
    lexer [string_chars] keeps its one unbounded escape, [\u{...}], in an
    explicit state so as to stay structural.

    ** Findings (see PROJECT.json)

    An invalid QR payload ends the scan loop while the camera stays on
    ([scan_invalid_code], [stalled_until_stop], [stalled_reachable]); a
    second click on the start button before the permission prompt is
    answered leaks a camera stream that no later event stops
    ([double_start_leaks_camera], [camera_never_released]); a stopped scan loop is revived by a new
    [startScan], leaving two polling loops ([restart_runs_two_loops]); the
    manual search records text that is not a barcode
    ([manual_search_accepts_letters]) and pastes it unescaped into the
    [onclick] attribute of the recent list, so a crafted entry runs
    script ([onclick_injection_reachable]), passes the value of the
    literal rather than the recorded barcode to [selectRecentScan]
    ([click_shows_other_barcode]) and makes the item of a barcode ending
    in a backslash dead ([click_backslash_dead]); corrupt storage makes the
    constructor throw instead of starting from an empty history
    ([decode_truncated], [init], [bootstrap_corrupt]).

    ** Bounds

    [decimal_aux] takes [n + 1] steps for [n]: each step divides by ten,
    and [n] has at most [n + 1] digits, so the fuel never runs out
    ([decimal_roundtrip]). *)

From stdpp Require Export base list decidable strings sets.
From Stdlib Require Export ZArith NArith.

Local Open Scope N_scope.

Declare Scope js_scope.
Delimit Scope js_scope with js.

(** A JavaScript string value: its sequence of UTF-16 code units. *)
Abbreviation jsstr := (list N).

(** ** Decoding the UTF-8 text of a literal into UTF-16 code units *)

Definition byte_val (a : Ascii.ascii) : N := Ascii.N_of_ascii a.

Fixpoint bytes_of (s : string) : list N :=
  match s with
  | EmptyString => []
  | String a s' => byte_val a :: bytes_of s'
  end.

(** A code point above the BMP becomes a surrogate pair. *)
Definition utf16_units (cp : N) : list N :=
  if cp <? 65536 then [cp]
  else [55296 + N.shiftr (cp - 65536) 10; 56320 + N.land (cp - 65536) 1023].

Fixpoint utf8_decode (bs : list N) : list N :=
  match bs with
  | [] => []
  | b0 :: r0 =>
      if b0 <? 128 then b0 :: utf8_decode r0
      else match r0 with
           | [] => []
           | b1 :: r1 =>
               if b0 <? 224 then (b0 - 192) * 64 + (b1 - 128) :: utf8_decode r1
               else match r1 with
                    | [] => []
                    | b2 :: r2 =>
                        if b0 <? 240 then
                          (b0 - 224) * 4096 + (b1 - 128) * 64 + (b2 - 128)
                            :: utf8_decode r2
                        else match r2 with
                             | [] => []
                             | b3 :: r3 =>
                                 utf16_units ((b0 - 240) * 262144 + (b1 - 128) * 4096
                                              + (b2 - 128) * 64 + (b3 - 128))
                                   ++ utf8_decode r3
                             end
                    end
           end
  end.

(** [lit "..."] is the JS string denoted by the literal ['...']. *)
Definition lit (s : string) : jsstr := utf8_decode (bytes_of s).

(** Strict equality [===] on strings. *)
Definition js_eqb (s t : jsstr) : bool := bool_decide (s = t).

Infix "===" := js_eqb (at level 70, no associativity) : js_scope.

(** ** Shared automation *)

Create HintDb easyfilter discriminated.
Create Rewrite HintDb easyfilter.

Lemma js_eqb_true s t : (s === t)%js = true <-> s = t.
Proof. unfold js_eqb. apply bool_decide_eq_true. Qed.

Lemma js_eqb_false s t : (s === t)%js = false <-> s <> t.
Proof. unfold js_eqb. apply bool_decide_eq_false. Qed.

Lemma js_eqb_refl s : (s === s)%js = true.
Proof. by apply js_eqb_true. Qed.

#[export] Hint Rewrite js_eqb_refl : easyfilter.

(** Turn the boolean tests of the code into propositions. *)
Ltac js_bool :=
  repeat match goal with
  | H : (_ === _)%js = true |- _ => apply js_eqb_true in H; subst
  | H : (_ === _)%js = false |- _ => apply js_eqb_false in H
  | H : (_ && _)%bool = true |- _ => apply andb_true_iff in H as [? ?]
  | H : (_ && _)%bool = false |- _ => apply andb_false_iff in H as [?|?]
  | H : (_ || _)%bool = true |- _ => apply orb_true_iff in H as [?|?]
  | H : (_ || _)%bool = false |- _ => apply orb_false_iff in H as [? ?]
  | H : (_ <=? _)%N = true |- _ => apply N.leb_le in H
  | H : (_ <=? _)%N = false |- _ => apply N.leb_gt in H
  | H : (_ <? _)%N = true |- _ => apply N.ltb_lt in H
  | H : (_ <? _)%N = false |- _ => apply N.ltb_ge in H
  | H : (_ =? _)%N = true |- _ => apply N.eqb_eq in H
  | H : (_ =? _)%N = false |- _ => apply N.eqb_neq in H
  | H : (_ <? _)%nat = true |- _ => apply Nat.ltb_lt in H
  | H : (_ <? _)%nat = false |- _ => apply Nat.ltb_ge in H
  | H : (_ =? _)%nat = true |- _ => apply Nat.eqb_eq in H
  | H : (_ =? _)%nat = false |- _ => apply Nat.eqb_neq in H
  | H : bool_decide _ = true |- _ => apply bool_decide_eq_true in H
  | H : bool_decide _ = false |- _ => apply bool_decide_eq_false in H
  end.

(** ** A state monad for the methods of a stateful object

    A method of the script reads and writes the fields of [this] in
    sequence; it is modelled as a function of the object state, written
    with stdpp's [x ← m; k] and [m ;; k] notations. *)

Definition st (S A : Type) := S -> A * S.

#[export] Instance st_ret {S} : MRet (st S) := fun A x s => (x, s).
#[export] Instance st_bind {S} : MBind (st S) :=
  fun A B k m s => let '(x, s') := m s in k x s'.

Definition st_get {S} : st S S := fun s => (s, s).
Definition st_modify {S} (f : S -> S) : st S unit := fun s => (tt, f s).

(** Run a method for its effect on the state. *)
Definition exec {S A} (m : st S A) (s : S) : S := snd (m s).

Lemma exec_seq {S A} (m : st S unit) (k : st S A) (s : S) :
  exec (m ;; k) s = exec k (exec m s).
Proof. unfold exec, mbind, st_bind. by destruct (m s) as [[] s']. Qed.

Lemma exec_get {S A} (k : S -> st S A) (s : S) : exec (st_get ≫= k) s = exec (k s) s.
Proof. done. Qed.

Lemma exec_modify {S} (f : S -> S) (s : S) : exec (st_modify f) s = f s.
Proof. done. Qed.

Lemma exec_ret {S} (s : S) : exec (mret tt : st S unit) s = s.
Proof. done. Qed.

#[export] Hint Rewrite @exec_seq @exec_get @exec_modify @exec_ret : easyfilter.

(** ** Generic list lemmas shared by the components *)

Section ListFacts.
Context {A : Type}.

Lemma filter_all_true (f : A -> bool) (l : list A) :
  Forall (fun x => f x = true) l -> List.filter f l = l.
Proof. induction 1 as [|x l Hx _ IH]; simpl; [done|]. by rewrite Hx, IH. Qed.

Lemma filter_all_false (f : A -> bool) (l : list A) :
  Forall (fun x => f x = false) l -> List.filter f l = [].
Proof. induction 1 as [|x l Hx _ IH]; simpl; [done|]. by rewrite Hx, IH. Qed.

Lemma NoDup_rev_std (l : list A) : NoDup l -> NoDup (rev l).
Proof. rewrite !NoDup_ListNoDup. apply List.NoDup_rev. Qed.

Lemma forall_filter (f : A -> bool) (l : list A) :
  Forall (fun x => f x = true) (List.filter f l).
Proof.
  induction l as [|x l IH]; simpl; [constructor|].
  destruct (f x) eqn:E; auto.
Qed.

Lemma filter_idem (f : A -> bool) (l : list A) :
  List.filter f (List.filter f l) = List.filter f l.
Proof. apply filter_all_true, forall_filter. Qed.

Lemma filter_length_le (f : A -> bool) (l : list A) :
  (length (List.filter f l) <= length l)%nat.
Proof.
  induction l as [|x l IH]; simpl; [lia|]. destruct (f x); simpl; lia.
Qed.

(** Taking a prefix commutes with filtering when the prefix already
    covers the [n] first kept elements. *)
Lemma take_filter_take (f : A -> bool) (n : nat) (l : list A) :
  (n <= length (List.filter f (take (S n) l)))%nat \/ (length l <= S n)%nat ->
  take n (List.filter f (take (S n) l)) = take n (List.filter f l).
Proof.
  intros H. rewrite <- (take_drop (S n) l) at 2.
  rewrite List.filter_app. rewrite take_app.
  destruct H as [H | H].
  - replace (n - length (List.filter f (take (S n) l)))%nat with 0%nat by lia.
    rewrite take_0. symmetry. apply List.app_nil_r.
  - rewrite (drop_ge l (S n)) by lia. simpl. by rewrite take_nil, List.app_nil_r.
Qed.
End ListFacts.

#[export] Hint Resolve forall_filter filter_length_le : easyfilter.
