(* ===== verification/JsString.v ===== *)
(** * The string primitives of [src/script.js]

    [processBarcode] cleans a decoded payload with
    [barcodeData.replace(/[^0-9]/g, '')]; [searchManualBarcode] reads the
    text field through [String.prototype.trim]; [generateUsageInfo] reads
    [barcode.charAt(0)].  The regular expression has no [u] flag, so it
    works on UTF-16 code units, as does [trim]; both are modelled on
    [jsstr]. *)

From S2P Require Import Prelude.

Local Open Scope N_scope.

Module JsString.

(** The character class [[0-9]]: one code unit between '0' and '9'. *)
Definition is_ascii_digit (c : N) : bool := (48 <=? c) && (c <=? 57).

(** [barcodeData.replace(/[^0-9]/g, '')]: every code unit outside the
    class is replaced by the empty string. *)
Definition clean_barcode (barcodeData : jsstr) : jsstr :=
  List.filter is_ascii_digit barcodeData.

(** ECMAScript WhiteSpace (TAB, VT, FF, ZWNBSP and the Zs category) and
    LineTerminator (LF, CR, LS, PS): the code units [trim] removes. *)
Definition is_js_space (c : N) : bool :=
  (c =? 9) || (c =? 10) || (c =? 11) || (c =? 12) || (c =? 13) || (c =? 32)
  || (c =? 160) || (c =? 5760) || ((8192 <=? c) && (c <=? 8202))
  || (c =? 8232) || (c =? 8233) || (c =? 8239) || (c =? 8287)
  || (c =? 12288) || (c =? 65279).

Fixpoint trim_start (s : jsstr) : jsstr :=
  match s with
  | [] => []
  | c :: s' => if is_js_space c then trim_start s' else s
  end.

Definition trim_end (s : jsstr) : jsstr := rev (trim_start (rev s)).

(** [String.prototype.trim]. *)
Definition trim (s : jsstr) : jsstr := trim_end (trim_start s).

(** [s.charAt(i)]: the code unit at [i] as a string, or [''] out of range. *)
Definition charAt (s : jsstr) (i : nat) : jsstr :=
  match s !! i with
  | Some c => [c]
  | None => []
  end.

(** A string is a digit string when all of its code units are digits. *)
Definition all_digits (s : jsstr) : Prop := Forall (fun c => is_ascii_digit c = true) s.

#[export] Instance all_digits_dec s : Decision (all_digits s).
Proof. unfold all_digits. apply _. Defined.

(** ** Lemmas *)

Lemma trim_start_spaces s :
  exists p, s = p ++ trim_start s /\ Forall (fun c => is_js_space c = true) p.
Proof.
  induction s as [|c s [p [Hp Hsp]]]; simpl.
  - by exists [].
  - destruct (is_js_space c) eqn:E.
    + exists (c :: p). rewrite <- app_comm_cons, <- Hp. auto.
    + by exists [].
Qed.

Lemma trim_start_head s :
  match trim_start s with [] => True | c :: _ => is_js_space c = false end.
Proof.
  induction s as [|c s IH]; simpl; [done|].
  destruct (is_js_space c) eqn:E; [done|]. done.
Qed.

Lemma trim_start_idem s : trim_start (trim_start s) = trim_start s.
Proof.
  pose proof (trim_start_head s) as H.
  destruct (trim_start s) as [|c t]; simpl; [done|]. by rewrite H.
Qed.

Lemma trim_start_app_l s t :
  Forall (fun c => is_js_space c = true) s -> trim_start (s ++ t) = trim_start t.
Proof. induction 1 as [|c s Hc _ IH]; simpl; [done|]. by rewrite Hc. Qed.

Lemma trim_start_keep s :
  match s with [] => True | c :: _ => is_js_space c = false end -> trim_start s = s.
Proof. destruct s as [|c s]; simpl; [done|]. by intros ->. Qed.

Lemma trim_start_nil_spaces s :
  trim_start s = [] -> Forall (fun c => is_js_space c = true) s.
Proof.
  destruct (trim_start_spaces s) as [p [Hp Hsp]]. intros E.
  rewrite E, app_nil_r in Hp. by subst.
Qed.

Lemma trim_start_app_r s t : trim_start s <> [] -> trim_start (s ++ t) = trim_start s ++ t.
Proof.
  induction s as [|c s IH]; simpl; [done|].
  destruct (is_js_space c); auto.
Qed.

Lemma trim_end_cons c u :
  is_js_space c = false -> trim_end (c :: u) = c :: trim_end u.
Proof.
  intros Hc. unfold trim_end. simpl.
  destruct (trim_start (rev u)) eqn:E.
  - apply trim_start_nil_spaces in E.
    rewrite trim_start_app_l by done. simpl. by rewrite Hc.
  - rewrite trim_start_app_r by (rewrite E; done). rewrite E.
    by rewrite rev_app_distr.
Qed.

Lemma trim_end_spaces t :
  exists q, t = trim_end t ++ q /\ Forall (fun c => is_js_space c = true) q.
Proof.
  destruct (trim_start_spaces (rev t)) as [p [Hp Hsp]].
  exists (rev p). split.
  - unfold trim_end. rewrite <- rev_app_distr, <- Hp. by rewrite rev_involutive.
  - by apply Forall_rev.
Qed.

Lemma trim_end_last t :
  match rev (trim_end t) with [] => True | d :: _ => is_js_space d = false end.
Proof. unfold trim_end. rewrite rev_involutive. apply trim_start_head. Qed.

Lemma trim_end_idem t : trim_end (trim_end t) = trim_end t.
Proof. unfold trim_end. rewrite rev_involutive. by rewrite trim_start_idem. Qed.

Lemma trim_head_last s :
  match trim s with
  | [] => True
  | c :: _ => is_js_space c = false /\
              match rev (trim s) with [] => True | d :: _ => is_js_space d = false end
  end.
Proof.
  pose proof (trim_end_last (trim_start s)) as Hl. unfold trim in *.
  pose proof (trim_start_head s) as Hh.
  destruct (trim_start s) as [|c u] eqn:E; [done|].
  rewrite trim_end_cons in * by done. auto.
Qed.

Abbreviation spaces := (Forall (fun c => is_js_space c = true)).

(** ** Properties of the cleaning regex *)


(** Cleaning twice is cleaning once. *)
Theorem clean_barcode_idempotent (s : jsstr) :
  clean_barcode (clean_barcode s) = clean_barcode s.
Proof. apply filter_idem. Qed.

(** The replacement is applied position by position: it distributes over
    concatenation, so every digit is kept, in order. *)
Theorem clean_barcode_app (s t : jsstr) :
  clean_barcode (s ++ t) = clean_barcode s ++ clean_barcode t.
Proof. apply List.filter_app. Qed.

(** A payload that is already a digit string is left unchanged. *)
Theorem clean_barcode_id (s : jsstr) : all_digits s -> clean_barcode s = s.
Proof. apply filter_all_true. Qed.

(** ** Properties of [trim] *)


(** Trimming a trimmed text changes nothing. *)
Theorem trim_idempotent (s : jsstr) : trim (trim s) = trim s.
Proof.
  unfold trim at 1. pose proof (trim_head_last s) as H.
  destruct (trim s) as [|c u] eqn:E; [done|].
  rewrite trim_start_keep by apply H. rewrite <- E. unfold trim.
  by rewrite trim_end_idem.
Qed.

End JsString.
