(* ===== verification/JsLiteral.v ===== *)
(** * JavaScript string literals: the value of ['...']

    A click on an item of the recent list runs the [onclick] attribute
    that [loadRecentScans] writes (src/script.js, line 364), the program
    [easyFilter.selectRecentScan('<barcode>')]: the argument is the string
    value of a single-quoted literal whose body is the barcode.  ECMA-262
    defines that value by the grammar of SingleStringCharacters and its
    SV semantics (12.9.4), with the productions of B.1.2 that sloppy code
    adds (legacy octal escapes, [\8] and [\9]); an event-handler attribute
    is sloppy code.

    - [literal_chars s v r]: the productions, one constructor each: the
      text [s] is a literal body, its closing quote, and the rest [r]; its
      string value is [v].
    - [string_chars]: the lexer, one structural pass over the code units;
      the only escape of unbounded length, [\u{...}], is read in an
      explicit state [Some (mv, n)] (the value and the number of its hex
      digits so far).
    - [string_chars_sound], [string_chars_complete]: the lexer returns
      exactly the derivations of the grammar.
    - [string_chars_app]: once a body has been read up to a point where a
      quote would close it, what comes next does not change how that
      body is read (the only lookaheads of the grammar are an octal digit
      and the LF of CR LF). *)

From S2P Require Import Prelude.

Module JsLiteral.

Local Open Scope N_scope.

(** ** Character classes *)

Definition is_octal (c : N) : bool := (48 <=? c) && (c <=? 55).
Definition is_zero_to_three (c : N) : bool := (48 <=? c) && (c <=? 51).
Definition is_decimal (c : N) : bool := (48 <=? c) && (c <=? 57).
Definition is_hex (c : N) : bool :=
  is_decimal c || ((65 <=? c) && (c <=? 70)) || ((97 <=? c) && (c <=? 102)).

(** LineTerminator: LF, CR, LINE SEPARATOR, PARAGRAPH SEPARATOR. *)
Definition is_line_terminator (c : N) : bool :=
  (c =? 10) || (c =? 13) || (c =? 8232) || (c =? 8233).

Definition hex_value (c : N) : N :=
  if c <=? 57 then c - 48 else if c <=? 70 then c - 55 else c - 87.

(** The MV of a sequence of hex digits, after the digits of value [acc]. *)
Fixpoint hex_digits_value (acc : N) (ds : jsstr) : N :=
  match ds with
  | [] => acc
  | d :: ds' => hex_digits_value (acc * 16 + hex_value d) ds'
  end.

(** SingleEscapeCharacter and the code unit it stands for (Table 39). *)
Definition single_escape (e : N) : option N :=
  if e =? 39 then Some 39
  else if e =? 34 then Some 34
  else if e =? 92 then Some 92
  else if e =? 98 then Some 8
  else if e =? 102 then Some 12
  else if e =? 110 then Some 10
  else if e =? 114 then Some 13
  else if e =? 116 then Some 9
  else if e =? 118 then Some 11
  else None.

(** The next code unit is an octal digit (a lookahead of B.1.2). *)
Definition head_octal (s : jsstr) : bool :=
  match s with d :: _ => is_octal d | [] => false end.

(** ** The grammar *)

(** [string_char p x s]: the code units [p] are one SingleStringCharacter
    whose SV is [x], when the text [s] follows it (the lookahead
    restrictions of the productions are conditions on [s]). *)
Inductive string_char : jsstr -> jsstr -> jsstr -> Prop :=
  (** SourceCharacter but not one of ' or \ or LineTerminator; <LS>; <PS> *)
  | sc_source c s :
      c <> 39 -> c <> 92 -> c <> 10 -> c <> 13 -> string_char [c] [c] s
  (** \ SingleEscapeCharacter *)
  | sc_single e x s :
      single_escape e = Some x -> string_char [92; e] [x] s
  (** \ NonEscapeCharacter *)
  | sc_nonescape e s :
      single_escape e = None -> is_decimal e = false -> e <> 120 -> e <> 117 ->
      is_line_terminator e = false -> string_char [92; e] [e] s
  (** \ NonOctalDecimalEscapeSequence: [\8], [\9] *)
  | sc_non_octal_decimal e s :
      e = 56 \/ e = 57 -> string_char [92; e] [e] s
  (** \ x HexDigit HexDigit *)
  | sc_hex h1 h2 s :
      is_hex h1 = true -> is_hex h2 = true ->
      string_char [92; 120; h1; h2] [hex_value h1 * 16 + hex_value h2] s
  (** \ u Hex4Digits *)
  | sc_unicode4 h1 h2 h3 h4 s :
      forallb is_hex [h1; h2; h3; h4] = true ->
      string_char [92; 117; h1; h2; h3; h4] [hex_digits_value 0 [h1; h2; h3; h4]] s
  (** \ u { CodePoint }, the code point encoded in UTF-16 *)
  | sc_unicode_braced ds s :
      ds <> [] -> forallb is_hex ds = true -> hex_digits_value 0 ds <= 1114111 ->
      string_char (92 :: 117 :: 123 :: ds ++ [125]) (utf16_units (hex_digits_value 0 ds)) s
  (** LineContinuation: \ LF, \ LS, \ PS *)
  | sc_continuation e s :
      e = 10 \/ e = 8232 \/ e = 8233 -> string_char [92; e] [] s
  (** LineContinuation: \ CR [lookahead <> LF] *)
  | sc_continuation_cr s :
      head s <> Some 10 -> string_char [92; 13] [] s
  (** LineContinuation: \ CR LF *)
  | sc_continuation_crlf s :
      string_char [92; 13; 10] [] s
  (** [\0 [lookahead not a DecimalDigit]], [\0 [lookahead in {8, 9}]],
      \ NonZeroOctalDigit [lookahead not an OctalDigit] *)
  | sc_octal1 e s :
      is_octal e = true -> head_octal s = false -> string_char [92; e] [e - 48] s
  (** \ ZeroToThree OctalDigit [lookahead not an OctalDigit],
      \ FourToSeven OctalDigit *)
  | sc_octal2 e d s :
      is_octal e = true -> is_octal d = true ->
      (is_zero_to_three e = true -> head_octal s = false) ->
      string_char [92; e; d] [(e - 48) * 8 + (d - 48)] s
  (** \ ZeroToThree OctalDigit OctalDigit *)
  | sc_octal3 e d1 d2 s :
      is_zero_to_three e = true -> is_octal d1 = true -> is_octal d2 = true ->
      string_char [92; e; d1; d2] [(e - 48) * 64 + (d1 - 48) * 8 + (d2 - 48)] s.

(** [literal_chars s v r]: [s] is SingleStringCharacters, the closing
    quote, then [r]; the SV of the characters is [v]. *)
Inductive literal_chars : jsstr -> jsstr -> jsstr -> Prop :=
  | lit_close r : literal_chars (39 :: r) [] r
  | lit_char p x s v r :
      string_char p x s -> literal_chars s v r -> literal_chars (p ++ s) (x ++ v) r.

(** ** The lexer *)

Definition push (c : N) (o : option (jsstr * jsstr)) : option (jsstr * jsstr) :=
  option_map (fun '(v, r) => (c :: v, r)) o.

Definition push_all (u : jsstr) (o : option (jsstr * jsstr)) : option (jsstr * jsstr) :=
  option_map (fun '(v, r) => (u ++ v, r)) o.

(** The body of a literal up to its closing quote: [Some (v, r)] with
    the string value [v] and the text [r] after the quote, or [None] for
    a SyntaxError (no closing quote, a line break, a malformed escape). *)
Fixpoint string_chars (br : option (N * nat)) (s : jsstr) : option (jsstr * jsstr) :=
  match br with
  | Some (mv, n) =>
      match s with
      | [] => None
      | d :: r =>
          if d =? 125 then
            if (0 <? n)%nat && (mv <=? 1114111)
            then push_all (utf16_units mv) (string_chars None r) else None
          else if is_hex d then string_chars (Some (mv * 16 + hex_value d, S n)) r
          else None
      end
  | None =>
      match s with
      | [] => None
      | c :: r =>
          if c =? 39 then Some ([], r)
          else if c =? 92 then
            match r with
            | [] => None
            | e :: r1 =>
                match single_escape e with
                | Some x => push x (string_chars None r1)
                | None =>
                    if e =? 13 then
                      match r1 with
                      | f :: r2 => if f =? 10 then string_chars None r2 else string_chars None r1
                      | [] => string_chars None r1
                      end
                    else if is_line_terminator e then string_chars None r1
                    else if e =? 120 then
                      match r1 with
                      | h1 :: h2 :: r2 =>
                          if is_hex h1 && is_hex h2
                          then push (hex_value h1 * 16 + hex_value h2) (string_chars None r2)
                          else None
                      | _ => None
                      end
                    else if e =? 117 then
                      match r1 with
                      | h1 :: r2 =>
                          if h1 =? 123 then string_chars (Some (0, 0%nat)) r2
                          else match r2 with
                               | h2 :: h3 :: h4 :: r3 =>
                                   if forallb is_hex [h1; h2; h3; h4]
                                   then push (hex_digits_value 0 [h1; h2; h3; h4]) (string_chars None r3)
                                   else None
                               | _ => None
                               end
                      | [] => None
                      end
                    else if is_octal e then
                      match r1 with
                      | d :: r2 =>
                          if is_octal d then
                            if is_zero_to_three e then
                              match r2 with
                              | d2 :: r3 =>
                                  if is_octal d2
                                  then push ((e - 48) * 64 + (d - 48) * 8 + (d2 - 48)) (string_chars None r3)
                                  else push ((e - 48) * 8 + (d - 48)) (string_chars None r2)
                              | [] => push ((e - 48) * 8 + (d - 48)) (string_chars None r2)
                              end
                            else push ((e - 48) * 8 + (d - 48)) (string_chars None r2)
                          else push (e - 48) (string_chars None r1)
                      | [] => push (e - 48) (string_chars None r1)
                      end
                    else push e (string_chars None r1)
                end
            end
          else if (c =? 10) || (c =? 13) then None
          else push c (string_chars None r)
      end
  end.

(** ** Lemmas on the character classes *)

Lemma hex_not_brace (d : N) : is_hex d = true -> (d =? 125) = false /\ (d =? 123) = false.
Proof.
  unfold is_hex, is_decimal. intros H. js_bool; split; apply N.eqb_neq; lia.
Qed.

Lemma decimal_not_octal (e : N) : is_decimal e = true -> is_octal e = false -> e = 56 \/ e = 57.
Proof. unfold is_decimal, is_octal. intros H1 H2. js_bool; lia. Qed.

Lemma not_decimal_not_octal (e : N) : is_decimal e = false -> is_octal e = false.
Proof. unfold is_decimal, is_octal. intros H. js_bool; apply andb_false_iff; [left|right]; apply N.leb_gt; lia. Qed.

Lemma zero_to_three_octal (e : N) : is_zero_to_three e = true -> is_octal e = true.
Proof. unfold is_zero_to_three, is_octal. intros H. js_bool. apply andb_true_iff; split; apply N.leb_le; lia. Qed.

Lemma line_terminator_cases (e : N) :
  is_line_terminator e = true -> e <> 13 -> e = 10 \/ e = 8232 \/ e = 8233.
Proof. unfold is_line_terminator. intros H ?. js_bool; auto; congruence. Qed.

Lemma line_terminator_false (e : N) :
  is_line_terminator e = false -> e <> 10 /\ e <> 13.
Proof. unfold is_line_terminator. intros H. by js_bool. Qed.

Lemma push_some (c : N) (o : option (jsstr * jsstr)) (v r : jsstr) :
  push c o = Some (v, r) -> exists v', o = Some (v', r) /\ v = c :: v'.
Proof. destruct o as [[v' r']|]; simpl; [|done]. intros [= <- <-]. by eexists. Qed.

Lemma push_all_some (u : jsstr) (o : option (jsstr * jsstr)) (v r : jsstr) :
  push_all u o = Some (v, r) -> exists v', o = Some (v', r) /\ v = u ++ v'.
Proof. destruct o as [[v' r']|]; simpl; [|done]. intros [= <- <-]. by eexists. Qed.

(** ** The [\u{...}] state *)

Lemma braced_sound (t : jsstr) (mv : N) (n : nat) (v r : jsstr) :
  string_chars (Some (mv, n)) t = Some (v, r) ->
  exists ds s, t = ds ++ 125 :: s /\ forallb is_hex ds = true /\ (0 < n + length ds)%nat /\
    hex_digits_value mv ds <= 1114111 /\
    exists v', string_chars None s = Some (v', r) /\ v = utf16_units (hex_digits_value mv ds) ++ v'.
Proof.
  revert mv n. induction t as [|d t IH]; intros mv n H; simpl in H; [done|].
  destruct (d =? 125) eqn:Ed.
  - apply N.eqb_eq in Ed as ->. destruct ((0 <? n)%nat && (mv <=? 1114111)) eqn:Eb; [|done].
    js_bool. apply push_all_some in H as (v' & Hs & ->).
    exists [], t. simpl. rewrite Nat.add_0_r. split_and!; eauto.
  - destruct (is_hex d) eqn:Eh; [|done].
    apply IH in H as (ds & s & -> & Hh & Hn & Hv & Hs). exists (d :: ds), s.
    simpl. rewrite Eh. split_and!; auto. lia.
Qed.

Lemma braced_complete (ds s : jsstr) (mv : N) (n : nat) :
  forallb is_hex ds = true ->
  string_chars (Some (mv, n)) (ds ++ 125 :: s) =
    if (0 <? n + length ds)%nat && (hex_digits_value mv ds <=? 1114111)
    then push_all (utf16_units (hex_digits_value mv ds)) (string_chars None s) else None.
Proof.
  revert mv n. induction ds as [|d ds IH]; intros mv n H; simpl.
  - by rewrite Nat.add_0_r.
  - apply andb_true_iff in H as [Hd H]. destruct (hex_not_brace d Hd) as [-> _].
    rewrite Hd, IH by done. by rewrite Nat.add_succ_r.
Qed.

(** ** The lexer against the grammar *)

Lemma lit_char' (p x s v r w y : jsstr) :
  w = p ++ s -> string_char p x s -> literal_chars s v r -> y = x ++ v -> literal_chars w y r.
Proof. intros -> ? ? ->. by apply lit_char. Qed.

(** Peel the results of the recursive calls, and apply the induction
    hypothesis to the rest. *)
Ltac lex_rest IH :=
  repeat match goal with
  | H : push _ _ = Some _ |- _ => apply push_some in H as (? & ? & ->)
  | H : push_all _ _ = Some _ |- _ => apply push_all_some in H as (? & ? & ->)
  end;
  match goal with
  | H : string_chars None ?s = Some _ |- _ => apply IH in H; [|simpl in *; rewrite ?length_app in *; simpl in *; lia]
  end.

(** Apply the production of the prefix [k] the lexer consumed, leaving
    the premises of the production. *)
Ltac prod k := eapply (lit_char' k); [reflexivity | | by eauto | ].

Ltac lit_finish :=
  first
  [ prod uconstr:([_]); [eapply sc_source; by eauto | reflexivity]
  | prod uconstr:([_; _]); [eapply sc_single; by eauto | reflexivity]
  | prod uconstr:([_; _; _]); [eapply sc_continuation_crlf | reflexivity]
  | prod uconstr:([_; _]); [eapply sc_continuation_cr; simpl; congruence | reflexivity]
  | prod uconstr:([_; _]); [eapply sc_continuation; by apply line_terminator_cases | reflexivity]
  | prod uconstr:([_; _; _; _]); [eapply sc_hex; by eauto | reflexivity]
  | prod uconstr:([_; _; _; _; _; _]); [eapply sc_unicode4; by eauto | reflexivity]
  | match goal with
    | |- literal_chars (92 :: 117 :: 123 :: ?ds ++ 125 :: ?s) _ _ =>
        eapply (lit_char' (92 :: 117 :: 123 :: ds ++ [125]) _ s);
        [by simpl; rewrite <- app_assoc
        | eapply sc_unicode_braced; [intros ->; simpl in *; lia | by eauto | by eauto]
        | by eauto | reflexivity]
    end
  | prod uconstr:([_; _; _; _]); [eapply sc_octal3; by eauto | reflexivity]
  | prod uconstr:([_; _; _]); [eapply sc_octal2; [by eauto | by eauto | intros; simpl; first [congruence | done]] | reflexivity]
  | prod uconstr:([_; _]); [eapply sc_octal1; [by eauto | simpl; by eauto] | reflexivity]
  | match goal with
    | |- literal_chars (92 :: ?e :: _) (?e :: _) _ =>
        destruct (is_decimal e) eqn:?;
        [prod uconstr:([_; _]); [eapply sc_non_octal_decimal; by apply decimal_not_octal | reflexivity]
        | prod uconstr:([_; _]); [eapply sc_nonescape; by eauto | reflexivity]]
    end ].

Lemma string_chars_sound_len (k : nat) :
  forall s v r, (length s <= k)%nat -> string_chars None s = Some (v, r) -> literal_chars s v r.
Proof.
  induction k as [|k IH]; intros s v r Hl Hs; [by destruct s; [|simpl in Hl; lia]|].
  destruct s as [|c s]; [done|]. cbn [string_chars] in Hs.
  repeat case_match; js_bool; subst; simplify_eq; try discriminate.
  all: try (constructor; done).
  all: try (match goal with H : string_chars (Some _) _ = Some _ |- _ =>
              apply braced_sound in H as (? & ? & -> & ? & ? & ? & ? & ? & ->) end).
  all: lex_rest IH; lit_finish.
Qed.

Lemma string_chars_sound (s v r : jsstr) :
  string_chars None s = Some (v, r) -> literal_chars s v r.
Proof. apply (string_chars_sound_len (length s)). lia. Qed.

Lemma octal_tests (e : N) :
  is_octal e = true ->
  single_escape e = None /\ e <> 13 /\ is_line_terminator e = false /\ e <> 120 /\ e <> 117.
Proof.
  unfold is_octal, single_escape, is_line_terminator. intros H. js_bool.
  repeat match goal with |- context [?a =? ?b] => destruct (N.eqb_spec a b); [lia|] end.
  split_and!; done || lia.
Qed.

(** Rewrite the tests of the lexer with the premises of a production. *)
Ltac lex_tests :=
  repeat match goal with
  | H : ?c <> ?d |- context [?c =? ?d] => rewrite (proj2 (N.eqb_neq c d) H)
  | H : ?b = _ |- context [?b] => progress rewrite H
  end.

(** One production is one step of the lexer, whatever follows it. *)
Lemma push_all_nil (o : option (jsstr * jsstr)) : push_all [] o = o.
Proof. by destruct o as [[]|]. Qed.

Lemma string_chars_braced_open (t : jsstr) :
  string_chars None (92 :: 117 :: 123 :: t) = string_chars (Some (0, 0%nat)) t.
Proof. reflexivity. Qed.

Lemma string_char_step (p x s : jsstr) :
  string_char p x s -> string_chars None (p ++ s) = push_all x (string_chars None s).
Proof.
  induction 1 as [c s H39 H92 H10 H13 | e x s He | e s He Hd H120 H117 Hlt | e s He
    | h1 h2 s Hh1 Hh2 | h1 h2 h3 h4 s Hh | ds s Hne Hh Hv | e s He | s Hhd | s
    | e s He Hhd | e d s He Hd Hhd | e d1 d2 s He Hd1 Hd2].
  6: { transitivity (if h1 =? 123 then string_chars (Some (0, 0%nat)) (h2 :: h3 :: h4 :: s)
                     else if forallb is_hex [h1; h2; h3; h4]
                     then push (hex_digits_value 0 [h1; h2; h3; h4]) (string_chars None s)
                     else None); [reflexivity|].
       pose proof Hh as Hh'. cbn [forallb] in Hh'. js_bool.
       destruct (hex_not_brace h1) as [_ ->]; [done|]. by rewrite Hh. }
  6: { cbn [app]. rewrite <- app_assoc. cbn [app]. rewrite string_chars_braced_open, braced_complete by done.
       destruct ds as [|d ds]; [done|]. apply N.leb_le in Hv. by lex_tests. }
  all: cbn [string_chars app].
  - by lex_tests.
  - by lex_tests.
  - destruct (line_terminator_false e Hlt) as [_ H13].
    pose proof (not_decimal_not_octal e Hd). by lex_tests.
  - by destruct He as [-> | ->].
  - by lex_tests.
  - rewrite push_all_nil. by destruct He as [-> | [-> | ->]].
  - rewrite push_all_nil. destruct s as [|f s]; [done|].
    assert (f <> 10) by (intros ->; by apply Hhd). by lex_tests.
  - by rewrite push_all_nil.
  - destruct (octal_tests e He) as (? & ? & ? & ? & ?).
    destruct s as [|d s]; simpl in Hhd; by lex_tests.
  - destruct (octal_tests e He) as (? & ? & ? & ? & ?).
    destruct (is_zero_to_three e) eqn:Ez; [destruct s as [|d2 s]|]; simpl in Hhd;
      try specialize (Hhd eq_refl); by lex_tests.
  - pose proof (zero_to_three_octal e He) as Ho.
    destruct (octal_tests e Ho) as (? & ? & ? & ? & ?). by lex_tests.
Qed.

Lemma push_all_app (x y : jsstr) (o : option (jsstr * jsstr)) :
  push_all x (push_all y o) = push_all (x ++ y) o.
Proof. destruct o as [[]|]; simpl; by rewrite ?app_assoc. Qed.

Lemma string_chars_complete (s v r : jsstr) :
  literal_chars s v r -> string_chars None s = Some (v, r).
Proof.
  induction 1 as [r | p x s v r Hp _ IH]; [done|].
  by rewrite (string_char_step p x s Hp), IH.
Qed.


(** ** What follows a body *)

Lemma string_char_nonempty (p x s : jsstr) : string_char p x s -> p <> [].
Proof. by destruct 1. Qed.

Lemma literal_chars_nonempty (s v r : jsstr) : literal_chars s v r -> s <> [].
Proof.
  destruct 1 as [|p x s v r Hp _]; [done|].
  apply string_char_nonempty in Hp. by destruct p.
Qed.

(** A production whose lookahead saw a closing quote keeps its meaning
    before any text that starts with neither an octal digit nor LF. *)
Lemma string_char_retail (p x t u : jsstr) (c : N) :
  string_char p x (t ++ [39]) -> is_octal c = false -> c <> 10 ->
  string_char p x (t ++ c :: u).
Proof.
  intros Hp Hc H10. remember (t ++ [39]) as w eqn:Ew.
  destruct Hp; subst; try (econstructor; done).
  - apply sc_continuation_cr. destruct t; simpl in *; congruence.
  - apply sc_octal1; [done|]. destruct t; simpl in *; done.
  - apply sc_octal2; [done|done|]. intros Hz. specialize (H1 Hz). destruct t; simpl in *; done.
Qed.

(** Once a body has been read up to a point where a closing quote would
    end it, the lexer reads what follows from that point on as if the
    body were not there. *)
Lemma string_chars_app (t x u : jsstr) (c : N) :
  literal_chars (t ++ [39]) x [] -> is_octal c = false -> c <> 10 ->
  string_chars None (t ++ c :: u) = push_all x (string_chars None (c :: u)).
Proof.
  intros H Hc H10. remember (t ++ [39]) as w eqn:Ew. remember [] as r eqn:Er.
  revert t Ew. induction H as [r | p x1 s v r Hp Hs IH]; intros t Ew; subst r.
  - destruct t as [|a t]; simpl in Ew; [by rewrite push_all_nil|].
    injection Ew as -> Ew. by destruct t.
  - specialize (IH eq_refl).
    destruct (exists_last (literal_chars_nonempty _ _ _ Hs)) as (s' & l & ->).
    rewrite app_assoc in Ew. apply app_inj_tail in Ew as [<- ->].
    rewrite <- app_assoc, (string_char_step p x1 (s' ++ c :: u)).
    + by rewrite (IH s' eq_refl), push_all_app.
    + by apply string_char_retail.
Qed.

End JsLiteral.
