(* ===== verification/Classifier.v ===== *)
(** * [generateUsageInfo]: the barcode classifier

    [generateUsageInfo(barcode)] (src/script.js, lines 126-306) returns the
    HTML that [displayResult] writes into [usageDetails].  The model
    returns the structured value that HTML is built from: for the six
    hard-coded Cuckoo filter codes, the filter's models, part names and
    numbers, image URLs and optional note; otherwise a product category
    chosen by [barcode.length] and [barcode.charAt(0)], whose static copy
    ([category_copy]) is kept verbatim.  The six [if (barcode === ...)]
    tests become the table [filter_table], read first-match in the order
    of the source. *)

From S2P Require Import Prelude JsString.
From stdpp Require Import pretty.

Module Classifier.
Import JsString.

Local Open Scope string_scope.

(** ** Data *)

Record part := mk_part { part_name : string; part_number : string }.

(** One hard-coded filter block.  [fi_parts] has one element, or several
    for the block rendered as "버전 1", "버전 2", ... *)
Record filter_info := mk_filter {
  fi_models : string;
  fi_parts : list part;
  fi_images : list string;
  fi_note : option string
}.

(** The branches of the length / first-digit classification. *)
Inductive category :=
  | Domestic          (** 13 code units, first '8' *)
  | International     (** 13 code units, first '9' *)
  | General13         (** 13 code units, any other first code unit *)
  | UPCA              (** 12 code units *)
  | EAN8              (** 8 code units *)
  | Special (n : nat) (** any other length, [n] printed in the text *).

#[export] Instance category_eq_dec : EqDecision category.
Proof. solve_decision. Defined.

Inductive usage_info :=
  | FilterUsage (f : filter_info)
  | ProductUsage (c : category).

(** The static copy of a product category. *)
Record product_copy := mk_copy {
  pc_info : string;        (** "제품 정보:" *)
  pc_uses : list string;   (** the bullet list under "사용 분야:" *)
  pc_check : string        (** "확인 방법:" *)
}.

Definition category_copy (c : category) : product_copy :=
  match c with
  | Domestic =>
      mk_copy "국내 상품 (EAN-13)"
        ["소매점 상품 관리"; "재고 관리 시스템"; "POS 시스템"; "온라인 쇼핑몰"]
        "제품 포장지나 라벨에서 바코드 번호를 확인할 수 있습니다."
  | International =>
      mk_copy "국제 상품 (EAN-13)"
        ["국제 무역"; "해외 상품 관리"; "통관 시스템"; "글로벌 유통"]
        "제품의 원산지 표시와 함께 확인하세요."
  | General13 =>
      mk_copy "일반 상품 (EAN-13)"
        ["일반 소매점"; "대형마트"; "편의점"; "온라인 쇼핑"]
        "제품 포장지의 바코드를 스캔하거나 수동으로 입력하세요."
  | UPCA =>
      mk_copy "미국 표준 상품 (UPC-A)"
        ["미국 시장 상품"; "북미 지역 유통"; "해외 직구 상품"; "국제 상품 관리"]
        "미국에서 제조된 상품의 경우 주로 사용됩니다."
  | EAN8 =>
      mk_copy "소형 상품 (EAN-8)"
        ["작은 포장 상품"; "편의점 상품"; "자판기 상품"; "소형 제품 관리"]
        "작은 제품의 경우 공간 제약으로 짧은 바코드를 사용합니다."
  | Special n =>
      mk_copy ("특수 바코드 (" +:+ pretty n +:+ "자리)")
        ["내부 관리 시스템"; "특수 용도 상품"; "기업 내부 코드"; "맞춤형 관리 시스템"]
        "해당 기업이나 조직의 내부 시스템을 확인하세요."
  end.

(** ** The knowledge base: the six [barcode === '...'] branches *)

Definition cdn (file : string) : string :=
  "https://cdn.cuckoo.co.kr/upload_cuckoo/_bo_rental/product/" +:+ file.

Definition images_aas : list string :=
  [cdn "ea64591f-6f68-48ce-b318-5a748fac7d20.jpg";
   cdn "5079ad3c-7fe5-4280-b654-edfb6e1c13a7.jpg";
   cdn "7a5e10c7-d312-408c-b6ee-a1bf30b2e87d.jpg"].

Definition images_m : list string :=
  [cdn "b0ca930a-dc26-4f85-bf67-af9827d0b005.jpg";
   cdn "38fe1de0-7052-4247-be77-60a53f51e7a1.jpg";
   cdn "9cc1372f-ccf0-4036-89a2-9a5794de8553.jpg"].

Definition note_m : option string := Some "M 모델 사진은 제공되지 않습니다.".

(** The six blocks of lines 128-217, in source order. *)
Definition filter_8809841630962 : filter_info :=
  mk_filter "AAS, ABS, AHS"
    [mk_part "SVC_METAL-BLOCK20_FTASM_08_CP-ALL_KR" "10420-0191J0"]
    images_aas None.

Definition filter_8809591513836 : filter_info :=
  mk_filter "AAS, ABS, AHS"
    [mk_part "SVC_NANOPOSITIVEPLUS30_FTASM_08_CP-ALL_KR" "Z0420-0210U0"]
    images_aas None.

Definition filter_8809591517872 : filter_info :=
  mk_filter "M, U, AK, SS100(일부)"
    [mk_part "SVC_DS-CARBON-COMPOSITE_FTASM_08_CP-ALL_KR" "00420-0367S0"]
    images_m note_m.

Definition filter_8809591519135 : filter_info :=
  mk_filter "M, U, AK, SS100(일부)"
    [mk_part "SVC_NATURALPLUS20_FTASM_08_CP-ALL_KR" "00420-0383Y0"]
    images_m note_m.

Definition filter_8809591519128 : filter_info :=
  mk_filter "M, U, AK, SS100(일부)"
    [mk_part "SVC_NANOPOSITIVE30C_FTASM_08_3FILTER_KR" "Z0420-0209C2"]
    images_m note_m.

Definition filter_8809591514628 : filter_info :=
  mk_filter "TS, SS(일부)"
    [mk_part "SVC_CARBON-COMPOSITE_FTASM_08_130,HAYCABB_CP-ALL_KR" "10420-0043A1";
     mk_part "SVC_CARBON-COMPOSITE_FTASM_08_50,130,HAYCABB_CP-ALL_KR" "10420-0043C1"]
    [cdn "553f469b-11da-4aa7-81c8-368da7c365f9.jpg";
     cdn "b0ca930a-dc26-4f85-bf67-af9827d0b005.jpg"]
    None.

(** The knowledge base as the lookup table of spec section 9. *)
Definition filter_table : list (jsstr * filter_info) :=
  [ (lit "8809841630962", filter_8809841630962);
    (lit "8809591513836", filter_8809591513836);
    (lit "8809591517872", filter_8809591517872);
    (lit "8809591519135", filter_8809591519135);
    (lit "8809591519128", filter_8809591519128);
    (lit "8809591514628", filter_8809591514628) ].

(** The first branch whose literal is [===] to the barcode. *)
Definition lookup_filter (barcode : jsstr) : option filter_info :=
  snd <$> List.find (fun e => (barcode === fst e)%js) filter_table.

(** The pattern-based part of [generateUsageInfo] (lines 219-305). *)
Definition classify_pattern (barcode : jsstr) : category :=
  let barcodeLength := length barcode in
  let firstDigit := charAt barcode 0 in
  if (barcodeLength =? 13)%nat then
    if (firstDigit === lit "8")%js then Domestic
    else if (firstDigit === lit "9")%js then International
    else General13
  else if (barcodeLength =? 12)%nat then UPCA
  else if (barcodeLength =? 8)%nat then EAN8
  else Special barcodeLength.

Definition generateUsageInfo (barcode : jsstr) : usage_info :=
  match lookup_filter barcode with
  | Some f => FilterUsage f
  | None => ProductUsage (classify_pattern barcode)
  end.

Definition filter_codes : list jsstr := map fst filter_table.

(** [generateUsageInfo] as the source writes it (lines 126-305): six
    [if (barcode === '...') return ...] tests in a row, then the pattern. *)
Definition generateUsageInfo_chain (barcode : jsstr) : usage_info :=
  if (barcode === lit "8809841630962")%js then FilterUsage filter_8809841630962
  else if (barcode === lit "8809591513836")%js then FilterUsage filter_8809591513836
  else if (barcode === lit "8809591517872")%js then FilterUsage filter_8809591517872
  else if (barcode === lit "8809591519135")%js then FilterUsage filter_8809591519135
  else if (barcode === lit "8809591519128")%js then FilterUsage filter_8809591519128
  else if (barcode === lit "8809591514628")%js then FilterUsage filter_8809591514628
  else ProductUsage (classify_pattern barcode).

(** The GS1 check-digit rule of EAN-13 (weights 1, 3, 1, 3, ...): the
    source never checks it; it is used to state that the table holds
    genuine EAN-13 codes. *)
Fixpoint ean_sum (odd : bool) (ds : list N) : N :=
  match ds with
  | [] => 0
  | d :: r => (if odd then d else 3 * d) + ean_sum (negb odd) r
  end.

Definition ean13_valid (k : jsstr) : bool :=
  (length k =? 13)%nat && forallb is_ascii_digit k
  && (ean_sum true (map (fun c => c - 48) k) mod 10 =? 0)%N.

(** ** Lemmas *)

Lemma charAt0_eq (b : jsstr) (c : N) : charAt b 0 = [c] <-> head b = Some c.
Proof. unfold charAt. destruct b; simpl; split; congruence. Qed.

Lemma lookup_filter_None (b : jsstr) : lookup_filter b = None <-> b ∉ filter_codes.
Proof.
  unfold lookup_filter, filter_codes. rewrite fmap_None.
  induction filter_table as [|[k f] t IH]; simpl.
  - split; [intros _; apply not_elem_of_nil|done].
  - destruct (b === k)%js eqn:E; js_bool.
    + split; [discriminate|]. intros Hn. exfalso. apply Hn. left.
    + rewrite IH, elem_of_cons. naive_solver.
Qed.

Lemma lookup_filter_Some (b : jsstr) (f : filter_info) :
  NoDup filter_codes -> (b, f) ∈ filter_table -> lookup_filter b = Some f.
Proof.
  unfold lookup_filter, filter_codes.
  induction filter_table as [|[k g] t IH]; simpl; intros Hnd Hin.
  - by apply not_elem_of_nil in Hin.
  - apply NoDup_cons in Hnd as [Hk Hnd].
    apply elem_of_cons in Hin as [Heq | Hin].
    + simplify_eq. by rewrite js_eqb_refl.
    + destruct (b === k)%js eqn:E; js_bool; [|by apply IH].
      exfalso. apply Hk. apply list_elem_of_fmap. eexists (_, f). by split.
Qed.

Lemma generateUsageInfo_not_code (b : jsstr) :
  b ∉ filter_codes -> generateUsageInfo b = ProductUsage (classify_pattern b).
Proof. intros Hn. unfold generateUsageInfo. by rewrite (proj2 (lookup_filter_None b) Hn). Qed.

Lemma generateUsageInfo_product_inv (b : jsstr) (c : category) :
  generateUsageInfo b = ProductUsage c -> (b ∉ filter_codes) /\ classify_pattern b = c.
Proof.
  unfold generateUsageInfo. destruct (lookup_filter b) eqn:E; [discriminate|].
  intros [= <-]. by apply lookup_filter_None in E.
Qed.

(** [charAt(0) === 'd'] tests the first code unit. *)
Lemma charAt0_js (b : jsstr) (c : N) :
  js_eqb (charAt b 0) [c] = bool_decide (head b = Some c).
Proof.
  unfold js_eqb. apply bool_decide_ext. rewrite <- charAt0_eq. done.
Qed.

(** The case analysis of [classify_pattern] on the shape of the barcode. *)
Ltac classify_cases :=
  unfold classify_pattern;
  change (lit "8") with [56%N]; change (lit "9") with [57%N];
  rewrite ?charAt0_js;
  repeat case_match; js_bool; simplify_eq; try naive_solver lia.

Lemma classify_pattern_length (b : jsstr) :
  (length b = 13 /\ (classify_pattern b = Domestic \/ classify_pattern b = International
                      \/ classify_pattern b = General13))%nat
  \/ (length b = 12 /\ classify_pattern b = UPCA)%nat
  \/ (length b = 8 /\ classify_pattern b = EAN8)%nat
  \/ (length b <> 8 /\ length b <> 12 /\ length b <> 13
      /\ classify_pattern b = Special (length b))%nat.
Proof. classify_cases. Qed.

Lemma filter_codes_length (k : jsstr) : k ∈ filter_codes -> length k = 13%nat.
Proof. intros Hk. repeat (apply elem_of_cons in Hk as [-> | Hk]; [done|]). by apply not_elem_of_nil in Hk. Qed.

Lemma lookup_filter_Some_inv (b : jsstr) (f : filter_info) :
  lookup_filter b = Some f -> (b, f) ∈ filter_table.
Proof.
  unfold lookup_filter. intros H. apply fmap_Some in H as [[k g] [Hf ->]].
  apply List.find_some in Hf as [Hin Hb]. simpl in Hb. js_bool.
  by apply list_elem_of_In.
Qed.

Lemma filter_codes_NoDup : NoDup filter_codes.
Proof. apply (bool_decide_unpack _). vm_compute. reflexivity. Qed.

Lemma generateUsageInfo_product_iff (b : jsstr) (c : category) :
  generateUsageInfo b = ProductUsage c <-> (b ∉ filter_codes) /\ classify_pattern b = c.
Proof.
  split; [apply generateUsageInfo_product_inv|].
  intros [Hn <-]. by apply generateUsageInfo_not_code.
Qed.

(** ** Theorems *)

(** C34: a barcode gets a filter block exactly when it is one of the six
    hard-coded codes, and then it gets that code's block. *)
Theorem generateUsageInfo_filter (b : jsstr) (f : filter_info) :
  generateUsageInfo b = FilterUsage f <-> (b, f) ∈ filter_table.
Proof.
  unfold generateUsageInfo. split.
  - destruct (lookup_filter b) eqn:E; [|discriminate]. intros [= ->].
    by apply lookup_filter_Some_inv.
  - intros Hin. by rewrite (lookup_filter_Some b f filter_codes_NoDup Hin).
Qed.

(** The knowledge base is well formed: its six codes are distinct,
    so the order of the [if] branches does not matter, and each is a
    13-digit EAN-13 code with a correct check digit and first digit '8',
    so each shadows the "국내 상품" branch it would otherwise reach. *)
Theorem filter_codes_wf :
  NoDup filter_codes /\
  Forall (fun k => ean13_valid k = true /\ head k = Some 56%N) filter_codes.
Proof.
  split; [apply filter_codes_NoDup|].
  vm_compute. repeat constructor.
Qed.


(** C35: the "국내 상품 (EAN-13)" copy is chosen exactly for the 13-unit
    strings starting with '8' that are not hard-coded. *)
Theorem generateUsageInfo_domestic (b : jsstr) :
  generateUsageInfo b = ProductUsage Domestic <->
  (b ∉ filter_codes) /\ length b = 13%nat /\ head b = Some 56%N.
Proof.
  rewrite generateUsageInfo_product_iff.
  split; intros [Hn Hc]; (split; [done|]); revert Hc; classify_cases.
Qed.

(** Any length other than 8, 12 and 13 gives the "특수 바코드" copy,
    which prints that length. *)
Theorem generateUsageInfo_special (b : jsstr) (n : nat) :
  generateUsageInfo b = ProductUsage (Special n) <->
  n = length b /\ n <> 8%nat /\ n <> 12%nat /\ n <> 13%nat.
Proof.
  rewrite generateUsageInfo_product_iff. split.
  - intros [_ Hc]. revert Hc. classify_cases.
  - intros (-> & H8 & H12 & H13). split.
    + intros Hk. by apply filter_codes_length in Hk.
    + classify_cases.
Qed.

(** Outside the table, the category depends only on the length and
    on the first code unit. *)
Theorem classify_pattern_shape (b1 b2 : jsstr) :
  length b1 = length b2 -> head b1 = head b2 ->
  classify_pattern b1 = classify_pattern b2.
Proof.
  intros Hl Hh. unfold classify_pattern. rewrite Hl.
  change (lit "8") with [56%N]; change (lit "9") with [57%N].
  by rewrite !charAt0_js, Hh.
Qed.

(** The code 8809841630962 shows the single part 10420-0191J0, three
    photos and no note. *)
Example generateUsageInfo_8809841630962 :
  exists f, generateUsageInfo (lit "8809841630962") = FilterUsage f /\
    map part_number (fi_parts f) = ["10420-0191J0"] /\
    length (fi_images f) = 3%nat /\ fi_note f = None.
Proof. vm_compute. eexists. split; [reflexivity|]. auto. Qed.

(** The code 8809591517872 carries the note that no photo of the M
    model is available. *)
Example generateUsageInfo_8809591517872 :
  exists f, generateUsageInfo (lit "8809591517872") = FilterUsage f /\
    map part_number (fi_parts f) = ["00420-0367S0"] /\
    fi_note f = Some "M 모델 사진은 제공되지 않습니다.".
Proof. vm_compute. eexists. split; [reflexivity|]. auto. Qed.

(** The code 8809591514628 is the only block with two part versions. *)
Example generateUsageInfo_8809591514628 :
  exists f, generateUsageInfo (lit "8809591514628") = FilterUsage f /\
    map part_number (fi_parts f) = ["10420-0043A1"; "10420-0043C1"].
Proof. vm_compute. eexists. split; [reflexivity|]. auto. Qed.

(** ** Witnesses *)

Lemma classify_pattern_shape_witness :
  classify_pattern (lit "8801234567890") = classify_pattern (lit "8809999999999").
Proof. apply classify_pattern_shape; vm_compute; reflexivity. Defined.

End Classifier.
