(* ===== verification/UsageHtml.v ===== *)
(** * The markup of [generateUsageInfo]

    [generateUsageInfo] (src/script.js, lines 126-306) returns an HTML
    string, one template literal per branch, which [displayResult] writes
    into [usageDetails.innerHTML].  [Classifier] models the value by the
    structured data it is built from; this file models the string itself,
    code unit for code unit: each template literal is [template] of its
    source lines (a double quote is the code unit 34, written [q]) and the
    indentation of its closing backtick, and [${barcodeLength}] of line
    293 is the decimal text of the length ([decimal]).

    [generateUsageInfo_html] is the method as the source writes it.  The
    theorems show that it is the markup of the structured value
    ([usage_html_refines]), so the controller may keep the structured
    value, and that no character of the barcode reaches the markup: it is
    one of eleven fixed strings or the special-code text of the length
    ([usage_html_input_free]), unlike the recent list of [Render]. *)

From S2P Require Import Prelude JsString Classifier.

Module UsageHtml.
Import JsString Classifier.

Local Open Scope N_scope.

Abbreviation q := [34].

#[export] Instance part_eq_dec : EqDecision part.
Proof. solve_decision. Defined.
#[export] Instance filter_info_eq_dec : EqDecision filter_info.
Proof. solve_decision. Defined.

(** ** Template literals *)

(** A template literal that opens with a line break, holds [lines], each
    ended by a line break, and closes after [indent] spaces. *)
Definition template (lines : list jsstr) (indent : nat) : jsstr :=
  [10] ++ List.concat (map (fun l => l ++ [10]) lines) ++ repeat 32 indent.

(** [`${n}`] for a length [n]: its decimal digits, most significant
    first, without leading zero. *)
Fixpoint decimal_aux (fuel n : nat) (acc : jsstr) : jsstr :=
  match fuel with
  | O => acc
  | S f =>
      let acc' := N.of_nat (48 + n mod 10) :: acc in
      if (n <? 10)%nat then acc' else decimal_aux f (n / 10) acc'
  end.

Definition decimal (n : nat) : jsstr := decimal_aux (S n) n [].

(** Reading a digit string back as a number. *)
Definition digits_value (s : jsstr) : nat :=
  fold_left (fun acc c => acc * 10 + (N.to_nat c - 48))%nat s 0%nat.

(** ** The branches *)

(** Lines 129-138: the block of 8809841630962. *)
Definition html_8809841630962 : jsstr :=
  template
    [lit "                <p><strong>필터 사용 모델 : AAS, ABS, AHS</strong></p>";
     lit "                <p><strong>부품명 : SVC_METAL-BLOCK20_FTASM_08_CP-ALL_KR</strong></p>";
     lit "                <p><strong>부품넘버 : 10420-0191J0</strong></p>";
     lit "                <div class=" ++ q ++ lit "product-images" ++ q ++ lit ">";
     lit "                    <img src=" ++ q ++ lit "https://cdn.cuckoo.co.kr/upload_cuckoo/_bo_rental/product/ea64591f-6f68-48ce-b318-5a748fac7d20.jpg" ++ q ++ lit " alt=" ++ q ++ lit "쿠쿠 필터 이미지 1" ++ q ++ lit " style=" ++ q ++ lit "max-width: 200px; height: auto; margin: 10px; border-radius: 8px; box-shadow: 0 2px 8px rgba(0,0,0,0.1);" ++ q ++ lit ">";
     lit "                    <img src=" ++ q ++ lit "https://cdn.cuckoo.co.kr/upload_cuckoo/_bo_rental/product/5079ad3c-7fe5-4280-b654-edfb6e1c13a7.jpg" ++ q ++ lit " alt=" ++ q ++ lit "쿠쿠 필터 이미지 2" ++ q ++ lit " style=" ++ q ++ lit "max-width: 200px; height: auto; margin: 10px; border-radius: 8px; box-shadow: 0 2px 8px rgba(0,0,0,0.1);" ++ q ++ lit ">";
     lit "                    <img src=" ++ q ++ lit "https://cdn.cuckoo.co.kr/upload_cuckoo/_bo_rental/product/7a5e10c7-d312-408c-b6ee-a1bf30b2e87d.jpg" ++ q ++ lit " alt=" ++ q ++ lit "쿠쿠 필터 이미지 3" ++ q ++ lit " style=" ++ q ++ lit "max-width: 200px; height: auto; margin: 10px; border-radius: 8px; box-shadow: 0 2px 8px rgba(0,0,0,0.1);" ++ q ++ lit ">";
     lit "                </div>"]
    12.

(** Lines 142-151: the block of 8809591513836. *)
Definition html_8809591513836 : jsstr :=
  template
    [lit "                <p><strong>필터 사용 모델 : AAS, ABS, AHS</strong></p>";
     lit "                <p><strong>부품명 : SVC_NANOPOSITIVEPLUS30_FTASM_08_CP-ALL_KR</strong></p>";
     lit "                <p><strong>부품넘버 : Z0420-0210U0</strong></p>";
     lit "                <div class=" ++ q ++ lit "product-images" ++ q ++ lit ">";
     lit "                    <img src=" ++ q ++ lit "https://cdn.cuckoo.co.kr/upload_cuckoo/_bo_rental/product/ea64591f-6f68-48ce-b318-5a748fac7d20.jpg" ++ q ++ lit " alt=" ++ q ++ lit "쿠쿠 필터 이미지 1" ++ q ++ lit " style=" ++ q ++ lit "max-width: 200px; height: auto; margin: 10px; border-radius: 8px; box-shadow: 0 2px 8px rgba(0,0,0,0.1);" ++ q ++ lit ">";
     lit "                    <img src=" ++ q ++ lit "https://cdn.cuckoo.co.kr/upload_cuckoo/_bo_rental/product/5079ad3c-7fe5-4280-b654-edfb6e1c13a7.jpg" ++ q ++ lit " alt=" ++ q ++ lit "쿠쿠 필터 이미지 2" ++ q ++ lit " style=" ++ q ++ lit "max-width: 200px; height: auto; margin: 10px; border-radius: 8px; box-shadow: 0 2px 8px rgba(0,0,0,0.1);" ++ q ++ lit ">";
     lit "                    <img src=" ++ q ++ lit "https://cdn.cuckoo.co.kr/upload_cuckoo/_bo_rental/product/7a5e10c7-d312-408c-b6ee-a1bf30b2e87d.jpg" ++ q ++ lit " alt=" ++ q ++ lit "쿠쿠 필터 이미지 3" ++ q ++ lit " style=" ++ q ++ lit "max-width: 200px; height: auto; margin: 10px; border-radius: 8px; box-shadow: 0 2px 8px rgba(0,0,0,0.1);" ++ q ++ lit ">";
     lit "                </div>"]
    12.

(** Lines 155-165: the block of 8809591517872. *)
Definition html_8809591517872 : jsstr :=
  template
    [lit "                <p><strong>필터 사용 모델 : M, U, AK, SS100(일부)</strong></p>";
     lit "                <p><strong>부품명 : SVC_DS-CARBON-COMPOSITE_FTASM_08_CP-ALL_KR</strong></p>";
     lit "                <p><strong>부품넘버 : 00420-0367S0</strong></p>";
     lit "                <div class=" ++ q ++ lit "product-images" ++ q ++ lit ">";
     lit "                    <img src=" ++ q ++ lit "https://cdn.cuckoo.co.kr/upload_cuckoo/_bo_rental/product/b0ca930a-dc26-4f85-bf67-af9827d0b005.jpg" ++ q ++ lit " alt=" ++ q ++ lit "쿠쿠 필터 이미지 1" ++ q ++ lit " style=" ++ q ++ lit "max-width: 200px; height: auto; margin: 10px; border-radius: 8px; box-shadow: 0 2px 8px rgba(0,0,0,0.1);" ++ q ++ lit ">";
     lit "                    <img src=" ++ q ++ lit "https://cdn.cuckoo.co.kr/upload_cuckoo/_bo_rental/product/38fe1de0-7052-4247-be77-60a53f51e7a1.jpg" ++ q ++ lit " alt=" ++ q ++ lit "쿠쿠 필터 이미지 2" ++ q ++ lit " style=" ++ q ++ lit "max-width: 200px; height: auto; margin: 10px; border-radius: 8px; box-shadow: 0 2px 8px rgba(0,0,0,0.1);" ++ q ++ lit ">";
     lit "                    <img src=" ++ q ++ lit "https://cdn.cuckoo.co.kr/upload_cuckoo/_bo_rental/product/9cc1372f-ccf0-4036-89a2-9a5794de8553.jpg" ++ q ++ lit " alt=" ++ q ++ lit "쿠쿠 필터 이미지 3" ++ q ++ lit " style=" ++ q ++ lit "max-width: 200px; height: auto; margin: 10px; border-radius: 8px; box-shadow: 0 2px 8px rgba(0,0,0,0.1);" ++ q ++ lit ">";
     lit "                </div>";
     lit "                <p style=" ++ q ++ lit "color: #6c757d; font-size: 0.9em; margin-top: 10px;" ++ q ++ lit "><i class=" ++ q ++ lit "fas fa-info-circle" ++ q ++ lit "></i> M 모델 사진은 제공되지 않습니다.</p>"]
    12.

(** Lines 169-179: the block of 8809591519135. *)
Definition html_8809591519135 : jsstr :=
  template
    [lit "                <p><strong>필터 사용 모델 : M, U, AK, SS100(일부)</strong></p>";
     lit "                <p><strong>부품명 : SVC_NATURALPLUS20_FTASM_08_CP-ALL_KR</strong></p>";
     lit "                <p><strong>부품넘버 : 00420-0383Y0</strong></p>";
     lit "                <div class=" ++ q ++ lit "product-images" ++ q ++ lit ">";
     lit "                    <img src=" ++ q ++ lit "https://cdn.cuckoo.co.kr/upload_cuckoo/_bo_rental/product/b0ca930a-dc26-4f85-bf67-af9827d0b005.jpg" ++ q ++ lit " alt=" ++ q ++ lit "쿠쿠 필터 이미지 1" ++ q ++ lit " style=" ++ q ++ lit "max-width: 200px; height: auto; margin: 10px; border-radius: 8px; box-shadow: 0 2px 8px rgba(0,0,0,0.1);" ++ q ++ lit ">";
     lit "                    <img src=" ++ q ++ lit "https://cdn.cuckoo.co.kr/upload_cuckoo/_bo_rental/product/38fe1de0-7052-4247-be77-60a53f51e7a1.jpg" ++ q ++ lit " alt=" ++ q ++ lit "쿠쿠 필터 이미지 2" ++ q ++ lit " style=" ++ q ++ lit "max-width: 200px; height: auto; margin: 10px; border-radius: 8px; box-shadow: 0 2px 8px rgba(0,0,0,0.1);" ++ q ++ lit ">";
     lit "                    <img src=" ++ q ++ lit "https://cdn.cuckoo.co.kr/upload_cuckoo/_bo_rental/product/9cc1372f-ccf0-4036-89a2-9a5794de8553.jpg" ++ q ++ lit " alt=" ++ q ++ lit "쿠쿠 필터 이미지 3" ++ q ++ lit " style=" ++ q ++ lit "max-width: 200px; height: auto; margin: 10px; border-radius: 8px; box-shadow: 0 2px 8px rgba(0,0,0,0.1);" ++ q ++ lit ">";
     lit "                </div>";
     lit "                <p style=" ++ q ++ lit "color: #6c757d; font-size: 0.9em; margin-top: 10px;" ++ q ++ lit "><i class=" ++ q ++ lit "fas fa-info-circle" ++ q ++ lit "></i> M 모델 사진은 제공되지 않습니다.</p>"]
    12.

(** Lines 183-193: the block of 8809591519128. *)
Definition html_8809591519128 : jsstr :=
  template
    [lit "                <p><strong>필터 사용 모델 : M, U, AK, SS100(일부)</strong></p>";
     lit "                <p><strong>부품명 : SVC_NANOPOSITIVE30C_FTASM_08_3FILTER_KR</strong></p>";
     lit "                <p><strong>부품넘버 : Z0420-0209C2</strong></p>";
     lit "                <div class=" ++ q ++ lit "product-images" ++ q ++ lit ">";
     lit "                    <img src=" ++ q ++ lit "https://cdn.cuckoo.co.kr/upload_cuckoo/_bo_rental/product/b0ca930a-dc26-4f85-bf67-af9827d0b005.jpg" ++ q ++ lit " alt=" ++ q ++ lit "쿠쿠 필터 이미지 1" ++ q ++ lit " style=" ++ q ++ lit "max-width: 200px; height: auto; margin: 10px; border-radius: 8px; box-shadow: 0 2px 8px rgba(0,0,0,0.1);" ++ q ++ lit ">";
     lit "                    <img src=" ++ q ++ lit "https://cdn.cuckoo.co.kr/upload_cuckoo/_bo_rental/product/38fe1de0-7052-4247-be77-60a53f51e7a1.jpg" ++ q ++ lit " alt=" ++ q ++ lit "쿠쿠 필터 이미지 2" ++ q ++ lit " style=" ++ q ++ lit "max-width: 200px; height: auto; margin: 10px; border-radius: 8px; box-shadow: 0 2px 8px rgba(0,0,0,0.1);" ++ q ++ lit ">";
     lit "                    <img src=" ++ q ++ lit "https://cdn.cuckoo.co.kr/upload_cuckoo/_bo_rental/product/9cc1372f-ccf0-4036-89a2-9a5794de8553.jpg" ++ q ++ lit " alt=" ++ q ++ lit "쿠쿠 필터 이미지 3" ++ q ++ lit " style=" ++ q ++ lit "max-width: 200px; height: auto; margin: 10px; border-radius: 8px; box-shadow: 0 2px 8px rgba(0,0,0,0.1);" ++ q ++ lit ">";
     lit "                </div>";
     lit "                <p style=" ++ q ++ lit "color: #6c757d; font-size: 0.9em; margin-top: 10px;" ++ q ++ lit "><i class=" ++ q ++ lit "fas fa-info-circle" ++ q ++ lit "></i> M 모델 사진은 제공되지 않습니다.</p>"]
    12.

(** Lines 197-216: the block of 8809591514628. *)
Definition html_8809591514628 : jsstr :=
  template
    [lit "                <p><strong>필터 사용 모델 : TS, SS(일부)</strong></p>";
     lit "                ";
     lit "                <div style=" ++ q ++ lit "margin-bottom: 20px;" ++ q ++ lit ">";
     lit "                    <h4 style=" ++ q ++ lit "color: #007bff; margin-bottom: 10px;" ++ q ++ lit ">버전 1</h4>";
     lit "                    <p><strong>부품명 : SVC_CARBON-COMPOSITE_FTASM_08_130,HAYCABB_CP-ALL_KR</strong></p>";
     lit "                    <p><strong>부품넘버 : 10420-0043A1</strong></p>";
     lit "                </div>";
     lit "                ";
     lit "                <div style=" ++ q ++ lit "margin-bottom: 20px;" ++ q ++ lit ">";
     lit "                    <h4 style=" ++ q ++ lit "color: #28a745; margin-bottom: 10px;" ++ q ++ lit ">버전 2</h4>";
     lit "                    <p><strong>부품명 : SVC_CARBON-COMPOSITE_FTASM_08_50,130,HAYCABB_CP-ALL_KR</strong></p>";
     lit "                    <p><strong>부품넘버 : 10420-0043C1</strong></p>";
     lit "                </div>";
     lit "                ";
     lit "                <div class=" ++ q ++ lit "product-images" ++ q ++ lit ">";
     lit "                    <img src=" ++ q ++ lit "https://cdn.cuckoo.co.kr/upload_cuckoo/_bo_rental/product/553f469b-11da-4aa7-81c8-368da7c365f9.jpg" ++ q ++ lit " alt=" ++ q ++ lit "쿠쿠 필터 이미지 1" ++ q ++ lit " style=" ++ q ++ lit "max-width: 200px; height: auto; margin: 10px; border-radius: 8px; box-shadow: 0 2px 8px rgba(0,0,0,0.1);" ++ q ++ lit ">";
     lit "                    <img src=" ++ q ++ lit "https://cdn.cuckoo.co.kr/upload_cuckoo/_bo_rental/product/b0ca930a-dc26-4f85-bf67-af9827d0b005.jpg" ++ q ++ lit " alt=" ++ q ++ lit "쿠쿠 필터 이미지 2" ++ q ++ lit " style=" ++ q ++ lit "max-width: 200px; height: auto; margin: 10px; border-radius: 8px; box-shadow: 0 2px 8px rgba(0,0,0,0.1);" ++ q ++ lit ">";
     lit "                </div>"]
    12.

(** Lines 228-238: a domestic EAN-13 product. *)
Definition html_domestic : jsstr :=
  template
    [lit "                    <p><strong>제품 정보:</strong> 국내 상품 (EAN-13)</p>";
     lit "                    <p><strong>사용 분야:</strong></p>";
     lit "                    <ul>";
     lit "                        <li>소매점 상품 관리</li>";
     lit "                        <li>재고 관리 시스템</li>";
     lit "                        <li>POS 시스템</li>";
     lit "                        <li>온라인 쇼핑몰</li>";
     lit "                    </ul>";
     lit "                    <p><strong>확인 방법:</strong> 제품 포장지나 라벨에서 바코드 번호를 확인할 수 있습니다.</p>"]
    16.

(** Lines 240-250: an international EAN-13 product. *)
Definition html_international : jsstr :=
  template
    [lit "                    <p><strong>제품 정보:</strong> 국제 상품 (EAN-13)</p>";
     lit "                    <p><strong>사용 분야:</strong></p>";
     lit "                    <ul>";
     lit "                        <li>국제 무역</li>";
     lit "                        <li>해외 상품 관리</li>";
     lit "                        <li>통관 시스템</li>";
     lit "                        <li>글로벌 유통</li>";
     lit "                    </ul>";
     lit "                    <p><strong>확인 방법:</strong> 제품의 원산지 표시와 함께 확인하세요.</p>"]
    16.

(** Lines 252-262: another EAN-13 product. *)
Definition html_general13 : jsstr :=
  template
    [lit "                    <p><strong>제품 정보:</strong> 일반 상품 (EAN-13)</p>";
     lit "                    <p><strong>사용 분야:</strong></p>";
     lit "                    <ul>";
     lit "                        <li>일반 소매점</li>";
     lit "                        <li>대형마트</li>";
     lit "                        <li>편의점</li>";
     lit "                        <li>온라인 쇼핑</li>";
     lit "                    </ul>";
     lit "                    <p><strong>확인 방법:</strong> 제품 포장지의 바코드를 스캔하거나 수동으로 입력하세요.</p>"]
    16.

(** Lines 266-276: a UPC-A product. *)
Definition html_upca : jsstr :=
  template
    [lit "                <p><strong>제품 정보:</strong> 미국 표준 상품 (UPC-A)</p>";
     lit "                <p><strong>사용 분야:</strong></p>";
     lit "                <ul>";
     lit "                    <li>미국 시장 상품</li>";
     lit "                    <li>북미 지역 유통</li>";
     lit "                    <li>해외 직구 상품</li>";
     lit "                    <li>국제 상품 관리</li>";
     lit "                </ul>";
     lit "                <p><strong>확인 방법:</strong> 미국에서 제조된 상품의 경우 주로 사용됩니다.</p>"]
    12.

(** Lines 279-289: an EAN-8 product. *)
Definition html_ean8 : jsstr :=
  template
    [lit "                <p><strong>제품 정보:</strong> 소형 상품 (EAN-8)</p>";
     lit "                <p><strong>사용 분야:</strong></p>";
     lit "                <ul>";
     lit "                    <li>작은 포장 상품</li>";
     lit "                    <li>편의점 상품</li>";
     lit "                    <li>자판기 상품</li>";
     lit "                    <li>소형 제품 관리</li>";
     lit "                </ul>";
     lit "                <p><strong>확인 방법:</strong> 작은 제품의 경우 공간 제약으로 짧은 바코드를 사용합니다.</p>"]
    12.

(** Lines 292-302: any other length, printed in decimal. *)
Definition html_special (barcodeLength : nat) : jsstr :=
  template
    [lit "                <p><strong>제품 정보:</strong> 특수 바코드 (" ++ decimal barcodeLength ++ lit "자리)</p>";
     lit "                <p><strong>사용 분야:</strong></p>";
     lit "                <ul>";
     lit "                    <li>내부 관리 시스템</li>";
     lit "                    <li>특수 용도 상품</li>";
     lit "                    <li>기업 내부 코드</li>";
     lit "                    <li>맞춤형 관리 시스템</li>";
     lit "                </ul>";
     lit "                <p><strong>확인 방법:</strong> 해당 기업이나 조직의 내부 시스템을 확인하세요.</p>"]
    12.

(** ** The method *)

(** [generateUsageInfo] as written: the six equality tests, then the
    pattern of lines 219-305 (every branch assigns [usageInfo]). *)
Definition generateUsageInfo_html (barcode : jsstr) : jsstr :=
  if (barcode === lit "8809841630962")%js then html_8809841630962
  else if (barcode === lit "8809591513836")%js then html_8809591513836
  else if (barcode === lit "8809591517872")%js then html_8809591517872
  else if (barcode === lit "8809591519135")%js then html_8809591519135
  else if (barcode === lit "8809591519128")%js then html_8809591519128
  else if (barcode === lit "8809591514628")%js then html_8809591514628
  else
    let barcodeLength := length barcode in
    let firstDigit := charAt barcode 0 in
    if (barcodeLength =? 13)%nat then
      if (firstDigit === lit "8")%js then html_domestic
      else if (firstDigit === lit "9")%js then html_international
      else html_general13
    else if (barcodeLength =? 12)%nat then html_upca
    else if (barcodeLength =? 8)%nat then html_ean8
    else html_special barcodeLength.

(** ** The markup of the structured value *)

Definition category_html (c : category) : jsstr :=
  match c with
  | Domestic => html_domestic
  | International => html_international
  | General13 => html_general13
  | UPCA => html_upca
  | EAN8 => html_ean8
  | Special n => html_special n
  end.

Definition filter_html (f : filter_info) : jsstr :=
  if decide (f = filter_8809841630962) then html_8809841630962
  else if decide (f = filter_8809591513836) then html_8809591513836
  else if decide (f = filter_8809591517872) then html_8809591517872
  else if decide (f = filter_8809591519135) then html_8809591519135
  else if decide (f = filter_8809591519128) then html_8809591519128
  else if decide (f = filter_8809591514628) then html_8809591514628
  else [].

Definition usage_html (u : usage_info) : jsstr :=
  match u with
  | FilterUsage f => filter_html f
  | ProductUsage c => category_html c
  end.

(** The markups that do not depend on the barcode. *)
Definition usage_fixed_htmls : list jsstr :=
  [html_8809841630962; html_8809591513836; html_8809591517872; html_8809591519135;
   html_8809591519128; html_8809591514628; html_domestic; html_international;
   html_general13; html_upca; html_ean8].

(** ** Lemmas on [decimal] *)

Lemma fold_digits (s : jsstr) (m : nat) :
  fold_left (fun acc c => acc * 10 + (N.to_nat c - 48))%nat s m =
  (m * 10 ^ length s + digits_value s)%nat.
Proof.
  revert m. induction s as [|c s IH]; intros m; simpl; [unfold digits_value; simpl; lia|].
  rewrite IH.
  change (digits_value (c :: s)) with
    (fold_left (fun acc c => acc * 10 + (N.to_nat c - 48))%nat s (0 * 10 + (N.to_nat c - 48))%nat).
  rewrite IH. simpl. nia.
Qed.

Lemma digits_value_cons (c : N) (s : jsstr) :
  digits_value (c :: s) = ((N.to_nat c - 48) * 10 ^ length s + digits_value s)%nat.
Proof. unfold digits_value at 1. simpl. apply fold_digits. Qed.

Lemma digit_code (n : nat) : (N.to_nat (N.of_nat (48 + n mod 10)) - 48 = n mod 10)%nat.
Proof. rewrite Nat2N.id. lia. Qed.

Lemma decimal_aux_value (fuel n : nat) (acc : jsstr) :
  (n < fuel)%nat ->
  digits_value (decimal_aux fuel n acc) = (n * 10 ^ length acc + digits_value acc)%nat.
Proof.
  revert n acc. induction fuel as [|fuel IH]; intros n acc Hn; [lia|]. cbn [decimal_aux].
  destruct (Nat.ltb_spec n 10).
  - rewrite digits_value_cons, digit_code, Nat.mod_small by lia. done.
  - rewrite IH by (apply Nat.lt_le_trans with n; [apply Nat.div_lt|]; lia).
    rewrite digits_value_cons, digit_code. simpl length. rewrite Nat.pow_succ_r'.
    pose proof (Nat.div_mod n 10 ltac:(lia)). nia.
Qed.

Lemma decimal_aux_digits (fuel n : nat) (acc : jsstr) :
  all_digits acc -> all_digits (decimal_aux fuel n acc).
Proof.
  revert n acc. induction fuel as [|fuel IH]; intros n acc Ha; simpl; [done|].
  assert (all_digits (N.of_nat (48 + n mod 10)%nat :: acc)).
  { constructor; [|done]. unfold is_ascii_digit.
    pose proof (Nat.mod_upper_bound n 10). apply andb_true_iff; split; apply N.leb_le; lia. }
  case_match; auto.
Qed.

Lemma decimal_aux_lead (fuel n : nat) (acc : jsstr) :
  (n < fuel)%nat ->
  exists m rest, decimal_aux fuel n acc = N.of_nat (48 + m) :: rest /\ (0 < n -> 0 < m)%nat.
Proof.
  revert n acc. induction fuel as [|fuel IH]; intros n acc Hn; [lia|]. cbn [decimal_aux].
  destruct (Nat.ltb_spec n 10).
  - exists (n mod 10)%nat, acc. split; [done|]. rewrite Nat.mod_small by lia. lia.
  - destruct (IH (n / 10)%nat (N.of_nat (48 + n mod 10)%nat :: acc)) as (m & rest & E & Hm).
    { apply Nat.lt_le_trans with n; [apply Nat.div_lt|]; lia. }
    exists m, rest. split; [done|]. intros _. apply Hm.
    apply Nat.div_str_pos. lia.
Qed.

(** Rewrite with the tests recorded in the context. *)
Ltac replay_tests :=
  repeat match goal with
  | E : ?x = _ |- context [?x] => rewrite E
  end.

(** Find [x] in a list literal by its syntax. *)
(** Close [x = x] without unfolding the literals: two different markups
    fail at once instead of being compared code unit by code unit. *)
Ltac same_sides := lazymatch goal with |- ?x = ?x => reflexivity end.

Ltac in_list :=
  match goal with
  | |- ?x ∈ ?y :: _ => constr_eq x y; apply list_elem_of_here
  | |- _ ∈ _ :: _ => apply list_elem_of_further; in_list
  end.

(** ** Theorems *)



(** C25: no character of the barcode reaches [usageDetails.innerHTML]: the
    markup is one of eleven fixed strings, or the special-code text of
    the barcode's length. *)
Theorem usage_html_input_free (b : jsstr) :
  generateUsageInfo_html b ∈ usage_fixed_htmls \/
  generateUsageInfo_html b = html_special (length b).
Proof.
  unfold generateUsageInfo_html, usage_fixed_htmls.
  repeat case_match; first [left; in_list | right; reflexivity].
Qed.

End UsageHtml.
