(* ===== verification/History.v ===== *)
(** * The recent-scan history: [addToRecentScans]

    [this.recentScans] is an array of records [{barcode, timestamp, time}]
    (src/script.js, lines 335-355).  [add_recent] is the list
    transformation of lines 342-351: drop the records with the same
    barcode ([filter]), put the new record first ([unshift]) and keep the
    first 10 ([slice(0, 10)] when the length exceeds 10).  Writing the
    list to [localStorage] and re-rendering it are part of the
    [Controller] model.

    The abstract specification [recent_spec] says what the list is after a
    sequence of scans: the newest record of each of the 10 most recently
    scanned distinct barcodes, newest first.  It is written with an
    accumulator of barcodes already seen, not with [filter], and
    [add_recent_refines] proves that the code computes it. *)

From S2P Require Import Prelude.

Module History.

(** ** Data and operations *)

Record scan_record := mk_scan {
  barcode : jsstr;
  timestamp : jsstr;   (** [new Date().toISOString()] *)
  time : jsstr         (** [new Date().toLocaleString('ko-KR')] *)
}.

#[export] Instance scan_record_eq_dec : EqDecision scan_record.
Proof. solve_decision. Defined.

(** The literal [10] of lines 349-350. *)
Definition MAX_RECENT : nat := 10.

(** Lines 336-340: the record built from the barcode and two clock
    readings (the code calls [new Date()] twice). *)
Definition make_scan_record (barcode iso locale : jsstr) : scan_record :=
  mk_scan barcode iso locale.

(** Lines 342-351. *)
Definition add_recent (recentScans : list scan_record) (scanRecord : scan_record)
  : list scan_record :=
  let recentScans := List.filter
      (fun scan => negb (barcode scan === barcode scanRecord)%js) recentScans in
  let recentScans := scanRecord :: recentScans in
  if (MAX_RECENT <? length recentScans)%nat
  then firstn MAX_RECENT recentScans
  else recentScans.

(** The history after the records [rs] were added in this order (oldest
    first) to the history [h]. *)
Definition replay (h : list scan_record) (rs : list scan_record) : list scan_record :=
  fold_left add_recent rs h.

(** ** Abstract specification *)

(** Keep the first record of each barcode, with the barcodes already
    seen in an accumulator. *)
Fixpoint first_of_each (seen : list jsstr) (l : list scan_record) : list scan_record :=
  match l with
  | [] => []
  | r :: t =>
      if decide (barcode r ∈ seen) then first_of_each seen t
      else r :: first_of_each (barcode r :: seen) t
  end.

(** After the records [rs] (oldest first) were scanned from an empty
    history: the newest record of each barcode, newest first, at most
    [MAX_RECENT] of them. *)
Definition recent_spec (rs : list scan_record) : list scan_record :=
  take MAX_RECENT (first_of_each [] (rev rs)).

(** The invariant of [this.recentScans]. *)
Definition history_wf (h : list scan_record) : Prop :=
  NoDup (map barcode h) /\ (length h <= MAX_RECENT)%nat.

(** ** The storage interface

    [addToRecentScans] writes [JSON.stringify(this.recentScans)] to
    [localStorage]; the constructor reads it back with
    [JSON.parse(localStorage.getItem('recentScans') || '[]')].  The
    controller is proved against this interface; the [Json] component
    implements it.  A stored text either fails to parse (the constructor
    throws), or parses to a list of scan records, or parses to some other
    JSON value ([Foreign]), on which the script works on values this
    model does not represent. *)
Inductive load_result :=
  | Loaded (h : list scan_record)
  | ParseError
  | Foreign.

Class HistoryCodec := {
  encode_history : list scan_record -> jsstr;
  decode_history : jsstr -> load_result
}.

Class HistoryCodecLaws `{HistoryCodec} := {
  decode_encode : forall h, decode_history (encode_history h) = Loaded h;
  decode_empty : decode_history (lit "[]") = Loaded [];
  encode_nonempty : forall h, encode_history h <> []
}.

(** ** Lemmas *)

Abbreviation other_than b := (fun scan => negb (barcode scan === b)%js).

Lemma add_recent_eq (h : list scan_record) (r : scan_record) :
  add_recent h r = take MAX_RECENT (r :: List.filter (other_than (barcode r)) h).
Proof.
  unfold add_recent. case_match; js_bool; [done|].
  symmetry. apply take_ge. simpl in *. lia.
Qed.

Lemma in_filter_other (b : jsstr) (l : list scan_record) (x : jsstr) :
  x ∈ map barcode (List.filter (other_than b) l) <-> x ∈ map barcode l /\ x <> b.
Proof.
  induction l as [|s l IH]; simpl.
  - set_solver.
  - destruct (barcode s === b)%js eqn:E; js_bool; simpl;
      rewrite ?elem_of_cons, IH; naive_solver.
Qed.

Lemma NoDup_filter_other (b : jsstr) (l : list scan_record) :
  NoDup (map barcode l) -> NoDup (map barcode (List.filter (other_than b) l)).
Proof.
  induction l as [|s l IH]; simpl; [done|].
  rewrite NoDup_cons. intros [Hs Hnd].
  destruct (barcode s === b)%js; simpl; auto.
  rewrite NoDup_cons, in_filter_other. naive_solver.
Qed.

(** In a list with one record per barcode, removing one barcode removes
    at most one record. *)
Lemma filter_other_length (b : jsstr) (l : list scan_record) :
  NoDup (map barcode l) -> (length l <= S (length (List.filter (other_than b) l)))%nat.
Proof.
  induction l as [|s l IH]; simpl; [lia|].
  rewrite NoDup_cons. intros [Hs Hnd].
  destruct (barcode s === b)%js eqn:E; js_bool; simpl; [|specialize (IH Hnd); lia].
  rewrite filter_all_true; [lia|].
  apply Forall_forall. intros x Hx. apply negb_true_iff, js_eqb_false.
  intros Heq. apply Hs. rewrite <- Heq. apply list_elem_of_fmap. eauto.
Qed.

Lemma NoDup_take_map (l : list scan_record) (n : nat) :
  NoDup (map barcode l) -> NoDup (map barcode (take n l)).
Proof.
  intros H. rewrite <- firstn_map.
  rewrite <- (take_drop n (map barcode l)) in H. by apply NoDup_app in H as [? _].
Qed.

Lemma first_of_each_ext (s1 s2 : list jsstr) (l : list scan_record) :
  (forall y, y ∈ s1 <-> y ∈ s2) -> first_of_each s1 l = first_of_each s2 l.
Proof.
  revert s1 s2. induction l as [|r t IH]; intros s1 s2 Hs; simpl; [done|].
  destruct (decide (barcode r ∈ s1)) as [H1|H1], (decide (barcode r ∈ s2)) as [H2|H2];
    try naive_solver.
  f_equal. apply IH. intros y. rewrite !elem_of_cons. naive_solver.
Qed.

Lemma first_of_each_fresh (seen : list jsstr) (l : list scan_record) :
  Forall (fun s => barcode s ∉ seen) (first_of_each seen l).
Proof.
  revert seen. induction l as [|r t IH]; intros seen; simpl; [constructor|].
  destruct (decide (barcode r ∈ seen)); [apply IH|].
  constructor; [done|]. eapply Forall_impl; [apply IH|].
  intros s Hs. set_solver.
Qed.

Lemma first_of_each_seen (x : jsstr) (seen : list jsstr) (l : list scan_record) :
  first_of_each (x :: seen) l = List.filter (other_than x) (first_of_each seen l).
Proof.
  revert seen. induction l as [|r t IH]; intros seen; simpl; [done|].
  destruct (decide (barcode r ∈ seen)) as [Hs|Hs].
  { rewrite decide_True by (by apply elem_of_cons; right). apply IH. }
  destruct (decide (barcode r = x)) as [Hx|Hx].
  - rewrite decide_True by (apply elem_of_cons; auto). simpl.
    rewrite Hx, js_eqb_refl. simpl. symmetry. apply filter_all_true.
    eapply Forall_impl; [apply (first_of_each_fresh (x :: seen))|].
    intros s Hsx. apply negb_true_iff, js_eqb_false. intros Heq. apply Hsx. rewrite Heq. left.
  - rewrite decide_False by (rewrite elem_of_cons; naive_solver). simpl.
    rewrite (proj2 (js_eqb_false _ _) Hx). simpl. f_equal.
    rewrite <- IH. apply first_of_each_ext. intros y. rewrite !elem_of_cons. naive_solver.
Qed.

Lemma first_of_each_NoDup (seen : list jsstr) (l : list scan_record) :
  NoDup (map barcode (first_of_each seen l)).
Proof.
  revert seen. induction l as [|r t IH]; intros seen; simpl; [constructor|].
  destruct (decide (barcode r ∈ seen)); [apply IH|].
  simpl. constructor; [|apply IH].
  intros Hin. apply list_elem_of_fmap in Hin as [s [Hs Hin]].
  pose proof (first_of_each_fresh (barcode r :: seen) t) as Hf.
  rewrite Forall_forall in Hf. apply (Hf s Hin). rewrite <- Hs. left.
Qed.

Lemma first_of_each_NoDup_id (seen : list jsstr) (l : list scan_record) :
  NoDup (map barcode l) -> Forall (fun s => barcode s ∉ seen) l ->
  first_of_each seen l = l.
Proof.
  revert seen. induction l as [|r t IH]; intros seen Hnd Hf; simpl; [done|].
  apply NoDup_cons in Hnd as [Hr Hnd]. apply Forall_cons in Hf as [Hr' Hf].
  rewrite decide_False by done. f_equal. apply IH; [done|].
  apply Forall_forall. intros s Hs. rewrite elem_of_cons. intros [Heq|Hin].
  - apply Hr. rewrite <- Heq. apply list_elem_of_fmap. eauto.
  - rewrite Forall_forall in Hf. by apply (Hf s).
Qed.

Lemma filter_other_take (b : jsstr) (D : list scan_record) :
  NoDup (map barcode D) ->
  take (pred MAX_RECENT) (List.filter (other_than b) (take MAX_RECENT D)) =
  take (pred MAX_RECENT) (List.filter (other_than b) D).
Proof.
  intros Hnd. apply take_filter_take.
  destruct (Nat.le_gt_cases (length D) MAX_RECENT) as [Hle|Hgt]; [by right|left].
  pose proof (filter_other_length b (take MAX_RECENT D) (NoDup_take_map D _ Hnd)) as H.
  rewrite length_take in H. unfold MAX_RECENT in *. simpl. lia.
Qed.

(** Adding to a truncated duplicate-free history is truncating after the
    add. *)
Lemma add_recent_take (D : list scan_record) (r : scan_record) :
  NoDup (map barcode D) ->
  add_recent (take MAX_RECENT D) r = take MAX_RECENT (r :: List.filter (other_than (barcode r)) D).
Proof.
  intros Hnd. rewrite add_recent_eq. unfold MAX_RECENT. simpl. f_equal.
  apply (filter_other_take (barcode r) D Hnd).
Qed.

Lemma first_of_each_snoc (rs : list scan_record) (r : scan_record) :
  first_of_each [] (rev (rs ++ [r])) =
  r :: List.filter (other_than (barcode r)) (first_of_each [] (rev rs)).
Proof.
  rewrite rev_app_distr. simpl. by rewrite first_of_each_seen.
Qed.

(** ** Theorems *)

(** C10: whatever [this.recentScans] held (even a longer list loaded from
    storage), after one add it holds at most 10 records. *)
Theorem add_recent_length (h : list scan_record) (r : scan_record) :
  (length (add_recent h r) <= MAX_RECENT)%nat.
Proof. rewrite add_recent_eq, length_take. lia. Qed.

(** C8: the new record is first, and it is the only record with its
    barcode: older records of the same barcode are gone. *)
Theorem add_recent_newest (h : list scan_record) (r : scan_record) :
  head (add_recent h r) = Some r /\
  List.filter (fun s => barcode s === barcode r)%js (add_recent h r) = [r].
Proof.
  rewrite add_recent_eq. unfold MAX_RECENT. simpl. rewrite js_eqb_refl. split; [done|].
  f_equal. apply filter_all_false, Forall_take.
  eapply Forall_impl; [apply forall_filter|]. simpl. intros x. apply negb_true_iff.
Qed.

(** C9: the invariant of [this.recentScans] (one record per barcode, at
    most 10 records) holds after an add whenever the list had one record
    per barcode before. *)
Theorem add_recent_wf (h : list scan_record) (r : scan_record) :
  NoDup (map barcode h) -> history_wf (add_recent h r).
Proof.
  intros Hnd. split; [|apply add_recent_length].
  rewrite add_recent_eq. apply NoDup_take_map. simpl. constructor.
  - rewrite in_filter_other. naive_solver.
  - by apply NoDup_filter_other.
Qed.

Lemma replay_recent_spec (rs : list scan_record) : replay [] rs = recent_spec rs.
Proof.
  induction rs as [|r rs IH] using rev_ind; [done|].
  unfold replay in *. rewrite fold_left_app. simpl. rewrite IH.
  unfold recent_spec. rewrite first_of_each_snoc.
  apply add_recent_take, first_of_each_NoDup.
Qed.

(** C7: refinement.  After any sequence [rs] of scans from an empty
    history, [this.recentScans] is [recent_spec rs]: the newest record of
    each barcode, for the 10 most recently scanned distinct barcodes,
    newest first. *)
Theorem add_recent_refines (rs : list scan_record) :
  replay [] rs = recent_spec rs.
Proof. apply replay_recent_spec. Qed.

(** Eviction.  Scanning distinct barcodes keeps the 10 newest,
    newest first: after 11 distinct scans the first one is gone. *)
Theorem replay_distinct (rs : list scan_record) :
  NoDup (map barcode rs) -> replay [] rs = take MAX_RECENT (rev rs).
Proof.
  intros Hnd. rewrite replay_recent_spec. unfold recent_spec.
  rewrite first_of_each_NoDup_id; [done| |].
  - rewrite map_rev. apply NoDup_rev_std, Hnd.
  - apply Forall_forall. intros s _. apply not_elem_of_nil.
Qed.

(** ** Witnesses *)

Definition scan_of (n : nat) : scan_record := mk_scan [N.of_nat (48 + n)] [] [].

Lemma add_recent_wf_witness :
  history_wf (add_recent [scan_of 1; scan_of 2] (scan_of 2)).
Proof. apply add_recent_wf. apply (bool_decide_unpack _). vm_compute. reflexivity. Defined.

Lemma replay_distinct_witness :
  replay [] (map scan_of (seq 0 11)) = take MAX_RECENT (rev (map scan_of (seq 0 11))).
Proof. apply replay_distinct. apply (bool_decide_unpack _). vm_compute. reflexivity. Defined.

End History.
