(* ===== verification/Render.v ===== *)
(** * The markup of the recent list: [loadRecentScans]

    [loadRecentScans] (src/script.js, lines 357-369) writes to
    [recentScansList.innerHTML] either a fixed paragraph (empty history)
    or, for each record, a template literal in which [scan.barcode] is
    pasted twice, once inside the JavaScript string literal of an
    [onclick] attribute and once as element content, and [scan.time] once;
    the items are joined with [''].  [recent_list_html] is that string,
    code unit for code unit (the double quote is the code unit 34, written
    [q] below).

    What the browser does with the markup when an item is clicked is in
    [Onclick]; this file gives the markup, the helpers that read it
    ([strip_prefix], [after_first]) and [onclick_plain], the barcodes
    that reach [selectRecentScan] unchanged. *)

From S2P Require Import Prelude History.

Module Render.
Import History.

Local Open Scope N_scope.

(** ** The markup *)

Abbreviation q := [34].

Definition spaces_n (n : nat) : jsstr := repeat 32 n.

(** Line 359: the paragraph shown for an empty history. *)
Definition empty_html : jsstr :=
  lit "<p style=" ++ q ++ lit "text-align: center; color: #6c757d;" ++ q ++
  lit ">최근 스캔 기록이 없습니다.</p>".

(** The attribute name, the start and the end of the call in it. *)
Definition onclick_key : jsstr := Eval vm_compute in lit " onclick=" ++ q.
Definition call_open : jsstr := Eval vm_compute in lit "easyFilter.selectRecentScan('".
Definition call_close : jsstr := Eval vm_compute in lit "')".

(** The opening of an item up to the barcode in its [onclick] literal. *)
Definition item_open : jsstr :=
  [10] ++ spaces_n 12 ++ lit "<div class=" ++ q ++ lit "recent-item" ++ q ++
  onclick_key ++ call_open.

(** Lines 363-368: the template literal of one record. *)
Definition recent_item_html (scan : scan_record) : jsstr :=
  item_open ++ barcode scan ++ call_close ++ q ++ lit ">" ++
  [10] ++ spaces_n 16 ++ lit "<span class=" ++ q ++ lit "recent-barcode" ++ q ++
  lit ">" ++ barcode scan ++ lit "</span>" ++
  [10] ++ spaces_n 16 ++ lit "<span class=" ++ q ++ lit "recent-time" ++ q ++
  lit ">" ++ time scan ++ lit "</span>" ++
  [10] ++ spaces_n 12 ++ lit "</div>" ++ [10] ++ spaces_n 8.

(** Lines 358-368: the value given to [recentScansList.innerHTML]. *)
Definition recent_list_html (recentScans : list scan_record) : jsstr :=
  if (length recentScans =? 0)%nat then empty_html
  else List.concat (map recent_item_html recentScans).

(** ** Reading the markup back *)

Fixpoint strip_prefix (p s : jsstr) : option jsstr :=
  match p, s with
  | [], _ => Some s
  | c :: p', d :: s' => if c =? d then strip_prefix p' s' else None
  | _ :: _, [] => None
  end.

(** The text after the first occurrence of [p] in [s]. *)
Fixpoint after_first (p s : jsstr) : option jsstr :=
  match strip_prefix p s with
  | Some r => Some r
  | None => match s with [] => None | _ :: s' => after_first p s' end
  end.

(** The code units that would end the string literal or start an escape
    in it, or that the HTML parser changes or reads specially in the
    attribute: single and double quote, backslash, ampersand, LF, CR and
    NUL. *)
Definition special_unit (c : N) : bool :=
  bool_decide (c ∈ [39; 34; 92; 38; 10; 13; 0]).

(** A barcode that reaches [selectRecentScan] unchanged. *)
Definition onclick_plain (b : jsstr) : bool := forallb (fun c => negb (special_unit c)) b.

(** [x] occurs in [s] as a block of consecutive code units. *)
Definition occurs_in (x s : jsstr) : Prop := exists k m, s = k ++ x ++ m.

(** ** Lemmas *)

Lemma onclick_plain_units (b : jsstr) (c : N) :
  onclick_plain b = true -> special_unit c = true -> Forall (fun d => d <> c) b.
Proof.
  unfold onclick_plain. rewrite forallb_forall. intros Hb Hc.
  apply Forall_forall. intros d Hd ->. apply list_elem_of_In, Hb in Hd.
  by rewrite Hc in Hd.
Qed.

Lemma after_first_item (t : jsstr) :
  after_first onclick_key (item_open ++ t) = Some (call_open ++ t).
Proof. vm_compute. reflexivity. Qed.

Lemma strip_prefix_app (p t : jsstr) : strip_prefix p (p ++ t) = Some t.
Proof. induction p as [|c p IH]; simpl; [done|]. by rewrite N.eqb_refl. Qed.

Lemma occurs_in_concat (x : jsstr) (ls : list jsstr) (l : jsstr) :
  l ∈ ls -> occurs_in x l -> occurs_in x (List.concat ls).
Proof.
  induction 1 as [l ls|l y ls _ IH]; intros Hx; simpl.
  - destruct Hx as (k & m & ->). exists k, (m ++ List.concat ls). by rewrite <- !app_assoc.
  - destruct (IH Hx) as (k & m & E). exists (y ++ k), m. rewrite E. by rewrite <- !app_assoc.
Qed.

Lemma occurs_in_here (x t : jsstr) : occurs_in x (x ++ t).
Proof. by exists [], t. Qed.

Lemma occurs_in_app_r (x p t : jsstr) : occurs_in x t -> occurs_in x (p ++ t).
Proof. intros (k & m & ->). exists (p ++ k), m. by rewrite <- app_assoc. Qed.

(** Find [x] among the blocks of a right-nested concatenation. *)
Ltac find_block :=
  match goal with
  | |- occurs_in ?x (?x ++ _) => apply occurs_in_here
  | |- occurs_in ?x (_ ++ _) => apply occurs_in_app_r; find_block
  end.

(** ** Theorems *)

(** The barcode and the time of every record are pasted verbatim
    into the markup: no character of them is escaped. *)
Theorem render_verbatim (h : list scan_record) (r : scan_record) :
  r ∈ h -> occurs_in (barcode r) (recent_list_html h) /\ occurs_in (time r) (recent_list_html h).
Proof.
  intros Hr. unfold recent_list_html.
  destruct (Nat.eqb_spec (length h) 0) as [E|_].
  { apply nil_length_inv in E. subst. by apply not_elem_of_nil in Hr. }
  split; (eapply occurs_in_concat; [by apply list_elem_of_fmap_2|]);
    unfold recent_item_html; find_block.
Qed.

(** ** Witnesses *)

Definition sample_scan : scan_record := mk_scan (lit "8801234567890") [] [].

Lemma render_verbatim_witness :
  occurs_in (barcode sample_scan) (recent_list_html [sample_scan]) /\
  occurs_in (time sample_scan) (recent_list_html [sample_scan]).
Proof. apply (render_verbatim [sample_scan] sample_scan). apply (bool_decide_unpack _). vm_compute. reflexivity. Defined.

End Render.
