(* ===== verification/Onclick.v ===== *)
(** * A click on a recent item: what the browser runs

    [loadRecentScans] (src/script.js, lines 362-368) writes for each
    record the markup [recent_item_html] of [Render], whose start tag
    holds [onclick="easyFilter.selectRecentScan('${scan.barcode}')"].
    A click on the item runs that attribute as the body of an event
    handler.  This file follows the text of the barcode through the two
    readers it meets:

    - the HTML parser (WHATWG HTML, 13.2): the input stream turns CR LF
      and CR into LF ([normalize_newlines]); the attribute value
      (double-quoted) state ends the value at the first double quote,
      turns NUL into U+FFFD, and reads [&] followed by an ASCII letter or
      digit or by [#] as the start of a character reference
      ([attr_value_dq]);
    - the JavaScript lexer (ECMA-262, [JsLiteral]): the value is the
      program [easyFilter.selectRecentScan('...')], and the argument is
      the string value of the literal, when the literal ends at the quote
      the template put before [)] ([handler_outcome]).

    [click_outcome] is the result for one record: the call with its
    argument, a SyntaxError (the handler does not compile and the click
    does nothing), other code after the literal (the barcode closed the
    literal), or markup this model does not follow (a double quote in
    the barcode ends the attribute and the rest of the start tag is read
    from the barcode; a character reference needs the table of named
    references).  [markup_intact] is the condition under which the
    element of item [i] is the one the template writes: no earlier
    barcode or time opens a tag and no earlier barcode ends its own
    attribute early. *)

From S2P Require Import Prelude History Render JsLiteral.

Module Onclick.
Import History Render JsLiteral.

Local Open Scope N_scope.

(** ** The HTML side *)

(** Input stream preprocessing: CR LF and a lone CR become LF. *)
Fixpoint normalize_newlines (s : jsstr) : jsstr :=
  match s with
  | [] => []
  | c :: r =>
      if c =? 13 then
        10 :: match r with
              | d :: r' => if d =? 10 then normalize_newlines r' else normalize_newlines r
              | [] => []
              end
      else c :: normalize_newlines r
  end.

Inductive attr_read :=
  | AttrValue (v rest : jsstr)  (** the value, and the input after its closing quote *)
  | AttrCharRef                 (** a named or numeric character reference starts *)
  | AttrEof.                    (** no value: the input ends inside it, or there is no attribute *)

Definition attr_push (c : N) (a : attr_read) : attr_read :=
  match a with AttrValue v rest => AttrValue (c :: v) rest | _ => a end.

Definition is_ascii_alnum (c : N) : bool :=
  ((48 <=? c) && (c <=? 57)) || ((65 <=? c) && (c <=? 90)) || ((97 <=? c) && (c <=? 122)).

(** The attribute value (double-quoted) state, from the code unit after
    the opening quote; the character reference state on [&] reads one
    code unit ahead and, when it is neither alphanumeric nor [#], gives
    back the [&] as it is. *)
Fixpoint attr_value_dq (s : jsstr) : attr_read :=
  match s with
  | [] => AttrEof
  | c :: r =>
      if c =? 34 then AttrValue [] r
      else if c =? 38 then
        match r with
        | d :: _ => if is_ascii_alnum d || (d =? 35) then AttrCharRef else attr_push 38 (attr_value_dq r)
        | [] => attr_push 38 (attr_value_dq r)
        end
      else if c =? 0 then attr_push 65533 (attr_value_dq r)
      else attr_push c (attr_value_dq r)
  end.

(** The value of the first [onclick] attribute of a markup. *)
Definition onclick_attribute (html : jsstr) : attr_read :=
  match after_first onclick_key (normalize_newlines html) with
  | Some r => attr_value_dq r
  | None => AttrEof
  end.

(** ** The text of a barcode in the attribute *)

(** The attribute value holds U+FFFD for each NUL. *)
Definition decode_nul (x : jsstr) : jsstr := map (fun c => if c =? 0 then 65533 else c) x.

(** What the attribute value holds for a barcode the parser reads as text. *)
Definition attr_chars (b : jsstr) : jsstr := decode_nul (normalize_newlines b).

(** No [&] of the text starts a character reference: each is followed by
    a code unit that is neither an ASCII letter or digit nor [#], or ends
    the text (the template puts a quote after the barcode). *)
Fixpoint amp_free (s : jsstr) : bool :=
  match s with
  | [] => true
  | c :: r =>
      (negb (c =? 38) || match r with d :: _ => negb (is_ascii_alnum d || (d =? 35)) | [] => true end)
      && amp_free r
  end.

Definition attr_push_all (u : jsstr) (a : attr_read) : attr_read := fold_right attr_push a u.

(** ** The JavaScript side *)

Inductive click :=
  | ClickCall (x : jsstr)   (** [easyFilter.selectRecentScan(x)] runs *)
  | ClickSyntaxError        (** the handler does not compile: nothing runs *)
  | ClickOtherCode          (** code follows the literal: not modelled *)
  | ClickUnknown.           (** markup this model does not follow *)

(** The handler body of line 364, [easyFilter.selectRecentScan('...')]. *)
Definition handler_outcome (v : jsstr) : click :=
  match strip_prefix call_open v with
  | Some t =>
      match string_chars None t with
      | Some (x, rest) => if bool_decide (rest = [41]) then ClickCall x else ClickOtherCode
      | None => ClickSyntaxError
      end
  | None => ClickOtherCode
  end.

(** A click on the item of record [s]. *)
Definition click_outcome (s : scan_record) : click :=
  if bool_decide (34 ∈ barcode s) then ClickUnknown
  else match onclick_attribute (recent_item_html s) with
       | AttrValue v _ => handler_outcome v
       | _ => ClickUnknown
       end.

(** The element of item [i] is the one the template writes for it. *)
Definition markup_intact (h : list scan_record) (i : nat) : bool :=
  forallb (fun s => negb (bool_decide (60 ∈ barcode s)) && negb (bool_decide (60 ∈ time s))
                    && negb (bool_decide (34 ∈ barcode s)))
          (take i h).

(** ** Lemmas on the HTML side *)

Lemma normalize_newlines_app_len (k : nat) :
  forall x y, (length x <= k)%nat -> last x <> Some 13 \/ head y <> Some 10 ->
  normalize_newlines (x ++ y) = normalize_newlines x ++ normalize_newlines y.
Proof.
  induction k as [|k IH]; intros x y Hl Hx; [by destruct x; [|simpl in Hl; lia]|].
  destruct x as [|c x]; [done|]. cbn [app normalize_newlines].
  destruct (N.eqb_spec c 13) as [->|Hc].
  - destruct x as [|d x].
    + destruct Hx as [Hx|Hy]; [done|]. cbn [app].
      destruct y as [|d y]; [done|]. by destruct (N.eqb_spec d 10) as [->|].
    + cbn [app]. destruct (N.eqb_spec d 10) as [->|Hd].
      * destruct x as [|e x]; [done|].
        change (e :: x ++ y) with ((e :: x) ++ y).
        rewrite (IH (e :: x)) by (simpl in *; lia || done). done.
      * change (d :: x ++ y) with ((d :: x) ++ y).
        rewrite (IH (d :: x)) by (simpl in *; lia || done). done.
  - destruct x as [|d x]; [done|].
    change (d :: x ++ y) with ((d :: x) ++ y).
    rewrite (IH (d :: x)) by (simpl in *; lia || done). done.
Qed.

Lemma normalize_newlines_app (x y : jsstr) :
  last x <> Some 13 \/ head y <> Some 10 ->
  normalize_newlines (x ++ y) = normalize_newlines x ++ normalize_newlines y.
Proof. apply (normalize_newlines_app_len (length x)). lia. Qed.

Lemma normalize_newlines_id (x : jsstr) : 13 ∉ x -> normalize_newlines x = x.
Proof.
  induction x as [|c x IH]; intros Hx; [done|]. cbn [normalize_newlines].
  rewrite elem_of_cons in Hx.
  destruct (N.eqb_spec c 13) as [->|_]; [by destruct Hx; left|].
  rewrite IH; [done|]. intros ?. apply Hx. by right.
Qed.

(** A code unit of the normalized text is one of the text, or LF. *)
Lemma normalize_newlines_elem_len (k : nat) :
  forall x c, (length x <= k)%nat -> c ∈ normalize_newlines x -> c ∈ x \/ c = 10.
Proof.
  induction k as [|k IH]; intros x c Hl Hc;
    (destruct x as [|d x]; [by apply elem_of_nil in Hc|]); [simpl in Hl; lia|].
  cbn [normalize_newlines] in Hc.
  rewrite elem_of_cons.
  destruct (d =? 13); rewrite elem_of_cons in Hc; destruct Hc as [->|Hc]; auto.
  - destruct x as [|e x]; [by apply not_elem_of_nil in Hc|].
    destruct (e =? 10); apply IH in Hc; simpl in *; try lia;
      rewrite ?elem_of_cons in *; tauto.
  - apply IH in Hc; [|simpl in *; lia]. tauto.
Qed.

Lemma normalize_newlines_elem (x : jsstr) (c : N) :
  c ∈ normalize_newlines x -> c ∈ x \/ c = 10.
Proof. apply (normalize_newlines_elem_len (length x)). lia. Qed.

(** The first code unit of the normalized text is the first of the text,
    or LF for a CR. *)
Lemma normalize_newlines_head (x : jsstr) :
  head (normalize_newlines x) = head x \/
  (head x = Some 13 /\ head (normalize_newlines x) = Some 10).
Proof.
  destruct x as [|c x]; [by left|]. cbn [normalize_newlines].
  destruct (N.eqb_spec c 13) as [->|_]; [by right|by left].
Qed.

Lemma amp_free_cons (c : N) (r : jsstr) :
  amp_free (c :: r) = true ->
  amp_free r = true /\ (c = 38 -> forall d, head r = Some d -> is_ascii_alnum d || (d =? 35) = false).
Proof.
  cbn [amp_free]. intros H. apply andb_true_iff in H as [H Hr]. split; [done|].
  intros -> d Hd. rewrite N.eqb_refl in H. simpl in H.
  destruct r as [|d' r]; simpl in Hd; simplify_eq. by apply negb_true_iff.
Qed.

Lemma amp_free_lf (r : jsstr) : amp_free (10 :: r) = amp_free r.
Proof. reflexivity. Qed.

Lemma amp_free_normalize_len (k : nat) :
  forall x, (length x <= k)%nat -> amp_free x = true -> amp_free (normalize_newlines x) = true.
Proof.
  induction k as [|k IH]; intros x Hl Hx; [by destruct x; [|simpl in Hl; lia]|].
  destruct x as [|c x]; [done|]. apply amp_free_cons in Hx as [Hx Hamp].
  cbn [normalize_newlines]. destruct (N.eqb_spec c 13) as [->|Hc].
  - destruct x as [|d x]; [done|]. pose proof (amp_free_cons _ _ Hx) as [Hx' _].
    rewrite amp_free_lf. simpl in Hl.
    destruct (d =? 10); apply IH; [lia | done | simpl; lia | done].
  - cbn [amp_free]. apply andb_true_iff. split; [|apply IH; simpl in *; auto; lia].
    destruct (N.eqb_spec c 38) as [->|]; [|done].
    destruct (normalize_newlines_head x) as [Eh | [Eh Eh']].
    + destruct (normalize_newlines x) as [|d r]; [done|]. simpl in Eh.
      by rewrite (Hamp eq_refl d (eq_sym Eh)).
    + destruct (normalize_newlines x) as [|d r]; [done|]. simpl in Eh'. by simplify_eq.
Qed.

Lemma amp_free_normalize (x : jsstr) :
  amp_free x = true -> amp_free (normalize_newlines x) = true.
Proof. apply (amp_free_normalize_len (length x)). lia. Qed.

(** A text without double quote and without a reference start is read
    as its code units, NUL becoming U+FFFD. *)
Lemma attr_value_dq_text (x y : jsstr) :
  34 ∉ x -> amp_free x = true ->
  attr_value_dq (x ++ 39 :: y) = attr_push_all (decode_nul x) (attr_value_dq (39 :: y)).
Proof.
  induction x as [|c x IH]; intros H34 Hamp; [done|].
  rewrite elem_of_cons in H34. apply amp_free_cons in Hamp as [Hamp Hc].
  cbn [app attr_value_dq decode_nul map attr_push_all fold_right].
  rewrite (proj2 (N.eqb_neq c 34)) by (intros ->; tauto).
  destruct (N.eqb_spec c 38) as [->|H38].
  - destruct x as [|d x]; cbn [app].
    + done.
    + rewrite (Hc eq_refl d eq_refl). change (d :: x ++ 39 :: y) with ((d :: x) ++ 39 :: y).
      rewrite IH by tauto. done.
  - rewrite IH by tauto. by destruct (N.eqb_spec c 0) as [->|].
Qed.

Lemma amp_free_app_l (x y : jsstr) : 38 ∉ x -> amp_free (x ++ y) = amp_free y.
Proof.
  induction x as [|c x IH]; intros Hx; [done|]. rewrite elem_of_cons in Hx.
  cbn [app amp_free]. rewrite (proj2 (N.eqb_neq c 38)) by (intros ->; tauto). rewrite IH by tauto. done.
Qed.

Lemma decode_nul_app (x y : jsstr) : decode_nul (x ++ y) = decode_nul x ++ decode_nul y.
Proof. apply map_app. Qed.

Lemma decode_nul_id (x : jsstr) : 0 ∉ x -> decode_nul x = x.
Proof.
  induction x as [|c x IH]; intros Hx; [done|]. rewrite elem_of_cons in Hx.
  cbn [decode_nul map]. fold (decode_nul x). rewrite IH by tauto.
  by rewrite (proj2 (N.eqb_neq c 0)) by (intros ->; tauto).
Qed.

Lemma attr_push_all_value (u v rest : jsstr) :
  attr_push_all u (AttrValue v rest) = AttrValue (u ++ v) rest.
Proof. induction u as [|c u IH]; [done|]. simpl. fold (attr_push_all u (AttrValue v rest)). by rewrite IH. Qed.

Lemma normalize_newlines_close (z : jsstr) :
  normalize_newlines (39 :: 41 :: 34 :: z) = 39 :: 41 :: 34 :: normalize_newlines z.
Proof. reflexivity. Qed.

Lemma attr_value_dq_close (z : jsstr) : attr_value_dq (39 :: 41 :: 34 :: z) = AttrValue [39; 41] z.
Proof. reflexivity. Qed.

Lemma item_open_facts :
  last item_open = Some 39 /\ normalize_newlines item_open = item_open /\
  (34 ∉ call_open) /\ (38 ∉ call_open) /\ decode_nul call_open = call_open.
Proof. split_and!; try (vm_compute; reflexivity); apply (bool_decide_unpack _); vm_compute; reflexivity. Qed.

(** The [onclick] value of the item of a record whose barcode holds no
    double quote and no reference start: the call around the barcode as
    the attribute holds it. *)
Lemma onclick_attribute_item (s : scan_record) :
  34 ∉ barcode s -> amp_free (barcode s) = true ->
  exists rest, onclick_attribute (recent_item_html s) =
    AttrValue (call_open ++ attr_chars (barcode s) ++ call_close) rest.
Proof.
  intros H34 Hamp. destruct item_open_facts as (Hlast & Hopen & Hq & Ha & Hd).
  unfold onclick_attribute, recent_item_html.
  rewrite normalize_newlines_app by (left; rewrite Hlast; congruence).
  rewrite Hopen, after_first_item. cbn beta iota.
  rewrite (normalize_newlines_app (barcode s)) by (right; cbn; congruence).
  change (call_close ++ q ++ ?z) with (39 :: 41 :: 34 :: z).
  rewrite normalize_newlines_close, app_assoc, attr_value_dq_text.
  - rewrite attr_value_dq_close, attr_push_all_value, decode_nul_app, Hd, <- app_assoc.
    by eexists.
  - rewrite elem_of_app. intros [?|H]; [done|].
    apply normalize_newlines_elem in H as [?|?]; done.
  - rewrite amp_free_app_l by done. by apply amp_free_normalize.
Qed.

Lemma amp_free_app (x y : jsstr) :
  amp_free x = true -> amp_free y = true ->
  (forall d, head y = Some d -> is_ascii_alnum d || (d =? 35) = false) ->
  amp_free (x ++ y) = true.
Proof.
  induction x as [|c x IH]; intros Hx Hy Hd; [done|].
  apply amp_free_cons in Hx as [Hx Hc]. cbn [app amp_free].
  apply andb_true_iff. split; [|by apply IH].
  destruct (N.eqb_spec c 38) as [->|]; [|done]. simpl.
  destruct x as [|e x]; simpl.
  - destruct y as [|e y]; [done|]. by rewrite (Hd e eq_refl).
  - by rewrite (Hc eq_refl e eq_refl).
Qed.

Lemma not_elem_of_Forall_neq (c : N) (b : jsstr) : Forall (fun d => d <> c) b -> c ∉ b.
Proof. rewrite Forall_forall. intros H Hc. by apply (H c Hc). Qed.

(** ** Lemmas on the handler *)

Lemma handler_outcome_body (t : jsstr) :
  handler_outcome (call_open ++ t) =
    match string_chars None t with
    | Some (x, rest) => if bool_decide (rest = [41]) then ClickCall x else ClickOtherCode
    | None => ClickSyntaxError
    end.
Proof. unfold handler_outcome. by rewrite strip_prefix_app. Qed.

Lemma handler_call_iff (t x : jsstr) :
  handler_outcome (call_open ++ t) = ClickCall x <-> literal_chars t x [41].
Proof.
  rewrite handler_outcome_body. split.
  - destruct (string_chars None t) as [[v r]|] eqn:E; [|done].
    case_bool_decide; [|done]. intros [= <-]. subst. by apply string_chars_sound.
  - intros H. by rewrite (string_chars_complete _ _ _ H), bool_decide_eq_true_2.
Qed.

Lemma handler_error_iff (t : jsstr) :
  handler_outcome (call_open ++ t) = ClickSyntaxError <-> forall v r, ~ literal_chars t v r.
Proof.
  rewrite handler_outcome_body. split.
  - destruct (string_chars None t) as [[v r]|] eqn:E; [by case_bool_decide|].
    intros _ v r H. apply string_chars_complete in H. congruence.
  - intros H. destruct (string_chars None t) as [[v r]|] eqn:E; [|done].
    exfalso. apply (H v r). by apply string_chars_sound.
Qed.

Lemma click_outcome_item (s : scan_record) :
  34 ∉ barcode s -> amp_free (barcode s) = true ->
  click_outcome s = handler_outcome (call_open ++ attr_chars (barcode s) ++ call_close).
Proof.
  intros H34 Hamp. unfold click_outcome. rewrite bool_decide_eq_false_2 by done.
  by destruct (onclick_attribute_item s H34 Hamp) as [rest ->].
Qed.

(** A body of code units that are not quote, backslash or line break is
    its own value. *)
Lemma string_chars_plain (b r : jsstr) :
  Forall (fun c => c <> 39 /\ c <> 92 /\ c <> 10 /\ c <> 13) b ->
  string_chars None (b ++ 39 :: r) = Some (b, r).
Proof.
  induction 1 as [|c b (? & ? & ? & ?) _ IH]; [done|].
  rewrite <- app_comm_cons. change (c :: b ++ 39 :: r) with ([c] ++ (b ++ 39 :: r)).
  rewrite (string_char_step [c] [c]) by (by constructor). by rewrite IH.
Qed.

(** A barcode that ends in a backslash after a complete body: the
    backslash escapes the quote the template puts after the barcode, the
    literal runs to the end of the attribute, and the handler is a
    SyntaxError. *)
Lemma click_backslash_syntax_error (s : scan_record) (p x : jsstr) :
  barcode s = p ++ [92] -> 34 ∉ p -> amp_free p = true ->
  literal_chars (attr_chars p ++ [39]) x [] -> click_outcome s = ClickSyntaxError.
Proof.
  intros Hb H34 Hamp Hlit.
  assert (H34' : 34 ∉ barcode s).
  { rewrite Hb, elem_of_app, list_elem_of_singleton. intros [?|?]; [done|lia]. }
  assert (Hamp' : amp_free (barcode s) = true).
  { rewrite Hb. apply amp_free_app; [done|done|]. by intros d [= <-]. }
  rewrite click_outcome_item by done. rewrite Hb, handler_outcome_body.
  unfold attr_chars in *. rewrite normalize_newlines_app by (right; simpl; congruence).
  rewrite decode_nul_app, <- app_assoc. change (decode_nul (normalize_newlines [92]) ++ call_close) with [92; 39; 41].
  by rewrite (string_chars_app _ x).
Qed.

(** ** Theorems *)

(** C21: a click on an item whose barcode holds no double quote and no
    reference start runs [easyFilter.selectRecentScan(x)] exactly when
    the ECMAScript grammar reads the barcode (as the attribute holds it)
    and the [')] of the template as a literal of value [x] followed by
    [)]; and the handler is a SyntaxError exactly when the grammar reads
    no literal there. *)
Theorem click_reads_literal (s : scan_record) (x : jsstr) :
  34 ∉ barcode s -> amp_free (barcode s) = true ->
  (click_outcome s = ClickCall x <-> literal_chars (attr_chars (barcode s) ++ call_close) x [41]) /\
  (click_outcome s = ClickSyntaxError <->
     forall v r, ~ literal_chars (attr_chars (barcode s) ++ call_close) v r).
Proof.
  intros H34 Hamp. rewrite click_outcome_item by done.
  split; [apply handler_call_iff | apply handler_error_iff].
Qed.

(** C20: a barcode without quote, backslash, ampersand, line break or
    NUL reaches [selectRecentScan] unchanged when its item is clicked. *)
Theorem click_plain (s : scan_record) :
  onclick_plain (barcode s) = true -> click_outcome s = ClickCall (barcode s).
Proof.
  intros Hp.
  assert (Hn : forall c, special_unit c = true -> c ∉ barcode s)
    by (intros c Hc; by apply not_elem_of_Forall_neq, onclick_plain_units).
  assert (Hamp : amp_free (barcode s) = true).
  { rewrite <- (app_nil_r (barcode s)), amp_free_app_l; [done|]. by apply Hn. }
  rewrite click_outcome_item by (done || by apply Hn).
  unfold attr_chars. rewrite normalize_newlines_id, decode_nul_id by (by apply Hn).
  apply handler_call_iff, string_chars_sound. apply string_chars_plain.
  apply Forall_forall. intros c Hc.
  split_and!; intros ->; revert Hc; by apply Hn.
Qed.

(** ** Witnesses *)

Lemma click_plain_witness : click_outcome sample_scan = ClickCall (lit "8801234567890").
Proof. apply click_plain. vm_compute. reflexivity. Defined.

(** A barcode typed with the escape [\x41]. *)
Definition escaped_scan : scan_record := mk_scan (lit "\x41BC") [] [].

Lemma click_reads_literal_witness :
  (click_outcome escaped_scan = ClickCall (lit "ABC") <->
     literal_chars (attr_chars (barcode escaped_scan) ++ call_close) (lit "ABC") [41]) /\
  (click_outcome escaped_scan = ClickSyntaxError <->
     forall v r, ~ literal_chars (attr_chars (barcode escaped_scan) ++ call_close) v r).
Proof.
  apply click_reads_literal; [apply (bool_decide_unpack _) | ]; vm_compute; reflexivity.
Defined.

End Onclick.
