(* ===== verification/Json.v ===== *)
(** * Persistence: [JSON.stringify] and [JSON.parse] of the history

    [addToRecentScans] stores [JSON.stringify(this.recentScans)] under the
    key ['recentScans'] (src/script.js, line 353) and the constructor reads
    [JSON.parse(localStorage.getItem('recentScans') || '[]')] (line 8).
    Both are library functions of the browser; they are modelled from
    ECMA-262 and ECMA-404 on code units:

    - [quote] is QuoteJSONString (ES2019): the quote, the backslash and
      the control characters are escaped ([\b \t \n \f \r] or [\u00xx],
      lowercase hex), lone surrogates become [\udxxx], everything else is
      copied;
    - [parse_value] reads the JSON grammar (white space, literals,
      numbers, strings with all escapes, arrays, objects) with a fuel
      argument; [JSON_parse] gives it one unit per code unit of the text
      and requires only white space after the value.  A number is kept as
      its lexeme: the script never reads a number back.

    [json_codec] implements the [HistoryCodec] interface of [History]:
    the history is an array of objects with the string fields [barcode],
    [timestamp] and [time], in the order in which the object literal of
    line 336 creates them.  [json_codec_laws] proves the interface's
    laws: the round trip [decode (encode h) = Loaded h] for every history,
    whatever code units its strings hold. *)

From S2P Require Import Prelude History.

Module Json.
Import History.

Local Open Scope N_scope.

(** ** JSON values *)

Inductive json :=
  | JNull
  | JBool (b : bool)
  | JNum (lexeme : jsstr)
  | JStr (s : jsstr)
  | JArr (elems : list json)
  | JObj (members : list (jsstr * json)).

(** ** [JSON.stringify] *)

Definition hex_digit (n : N) : N := if n <? 10 then 48 + n else 87 + n.

(** UnicodeEscape: [\u] and four lowercase hex digits. *)
Definition unicode_escape (c : N) : jsstr :=
  [92; 117; hex_digit (c / 4096); hex_digit ((c / 256) mod 16);
   hex_digit ((c / 16) mod 16); hex_digit (c mod 16)].

Definition is_high_surrogate (c : N) : bool := (55296 <=? c) && (c <=? 56319).
Definition is_low_surrogate (c : N) : bool := (56320 <=? c) && (c <=? 57343).

(** The escape of one code unit that is not part of a surrogate pair. *)
Definition escape_unit (c : N) : jsstr :=
  if c =? 34 then [92; 34]
  else if c =? 92 then [92; 92]
  else if c =? 8 then [92; 98]
  else if c =? 12 then [92; 102]
  else if c =? 10 then [92; 110]
  else if c =? 13 then [92; 114]
  else if c =? 9 then [92; 116]
  else if (c <? 32) || is_high_surrogate c || is_low_surrogate c then unicode_escape c
  else [c].

(** QuoteJSONString without the surrounding quotes. *)
Fixpoint quote_units (s : jsstr) : jsstr :=
  match s with
  | [] => []
  | c :: r =>
      if is_high_surrogate c then
        match r with
        | d :: r' => if is_low_surrogate d then c :: d :: quote_units r'
                     else unicode_escape c ++ quote_units r
        | [] => unicode_escape c
        end
      else escape_unit c ++ quote_units r
  end.

Definition quote (s : jsstr) : jsstr := [34] ++ quote_units s ++ [34].

Fixpoint join (sep : jsstr) (l : list jsstr) : jsstr :=
  match l with
  | [] => []
  | [x] => x
  | x :: r => x ++ sep ++ join sep r
  end.

Fixpoint stringify (v : json) : jsstr :=
  match v with
  | JNull => lit "null"
  | JBool true => lit "true"
  | JBool false => lit "false"
  | JNum n => n
  | JStr s => quote s
  | JArr l => [91] ++ join [44] (map stringify l) ++ [93]
  | JObj m =>
      [123] ++ join [44] (map (fun '(k, v) => quote k ++ [58] ++ stringify v) m) ++ [125]
  end.

(** ** [JSON.parse] *)

Definition is_json_ws (c : N) : bool := (c =? 9) || (c =? 10) || (c =? 13) || (c =? 32).

Fixpoint skip_ws (s : jsstr) : jsstr :=
  match s with
  | c :: r => if is_json_ws c then skip_ws r else s
  | [] => []
  end.

Definition hex_val (c : N) : option N :=
  if (48 <=? c) && (c <=? 57) then Some (c - 48)
  else if (65 <=? c) && (c <=? 70) then Some (c - 55)
  else if (97 <=? c) && (c <=? 102) then Some (c - 87)
  else None.

Definition hex4 (h1 h2 h3 h4 : N) : option N :=
  match hex_val h1, hex_val h2, hex_val h3, hex_val h4 with
  | Some a, Some b, Some c, Some d => Some (a * 4096 + b * 256 + c * 16 + d)
  | _, _, _, _ => None
  end.

Definition cons_res (c : N) (o : option (jsstr * jsstr)) : option (jsstr * jsstr) :=
  match o with
  | Some (t, rest) => Some (c :: t, rest)
  | None => None
  end.

(** The single-character escapes: backslash followed by the quote, the
    backslash, the slash, or one of the letters b f n r t. *)
Definition simple_escape (e : N) : option N :=
  if e =? 34 then Some 34 else if e =? 92 then Some 92 else if e =? 47 then Some 47
  else if e =? 98 then Some 8 else if e =? 102 then Some 12 else if e =? 110 then Some 10
  else if e =? 114 then Some 13 else if e =? 116 then Some 9 else None.

(** The characters of a string after its opening quote, up to and
    without the closing quote; returns the rest of the text. *)
Fixpoint parse_chars (s : jsstr) : option (jsstr * jsstr) :=
  match s with
  | [] => None
  | c :: r =>
      if c =? 34 then Some ([], r)
      else if c =? 92 then
        match r with
        | [] => None
        | e :: r' =>
            if e =? 117 then
              match r' with
              | h1 :: h2 :: h3 :: h4 :: r'' =>
                  match hex4 h1 h2 h3 h4 with
                  | Some u => cons_res u (parse_chars r'')
                  | None => None
                  end
              | _ => None
              end
            else match simple_escape e with
                 | Some u => cons_res u (parse_chars r')
                 | None => None
                 end
        end
      else if c <? 32 then None
      else cons_res c (parse_chars r)
  end.

Definition is_digit (c : N) : bool := (48 <=? c) && (c <=? 57).

Fixpoint span_digits (s : jsstr) : jsstr * jsstr :=
  match s with
  | c :: r => if is_digit c then let '(ds, rest) := span_digits r in (c :: ds, rest) else ([], s)
  | [] => ([], [])
  end.

(** [-? (0 | [1-9][0-9]* ) (. [0-9]+)? ([eE] [+-]? [0-9]+)?] *)
Definition parse_number (s : jsstr) : option (jsstr * jsstr) :=
  let '(sign, s1) := match s with 45 :: r => ([45], r) | _ => ([], s) end in
  let int :=
    match s1 with
    | c :: r => if c =? 48 then Some ([c], r)
                else if is_digit c then let '(ds, rest) := span_digits r in Some (c :: ds, rest)
                else None
    | [] => None
    end in
  match int with
  | None => None
  | Some (i, s2) =>
      let frac :=
        match s2 with
        | 46 :: r => let '(ds, rest) := span_digits r in
                     match ds with [] => None | _ => Some (46 :: ds, rest) end
        | _ => Some ([], s2)
        end in
      match frac with
      | None => None
      | Some (f, s3) =>
          let exp :=
            match s3 with
            | e :: r =>
                if (e =? 101) || (e =? 69) then
                  let '(sg, r') := match r with
                                  | c :: r'' => if (c =? 43) || (c =? 45) then ([c], r'') else ([], r)
                                  | [] => ([], r)
                                  end in
                  let '(ds, rest) := span_digits r' in
                  match ds with [] => None | _ => Some (e :: sg ++ ds, rest) end
                else Some ([], s3)
            | [] => Some ([], s3)
            end in
          match exp with
          | None => None
          | Some (x, rest) => Some (sign ++ i ++ f ++ x, rest)
          end
      end
  end.

(** [strip_prefix p s] is [Some r] when [s = p ++ r]. *)
Fixpoint strip_prefix (p s : jsstr) : option jsstr :=
  match p, s with
  | [], _ => Some s
  | c :: p', d :: s' => if c =? d then strip_prefix p' s' else None
  | _ :: _, [] => None
  end.

Fixpoint parse_value (fuel : nat) (s : jsstr) : option (json * jsstr) :=
  match fuel with
  | O => None
  | S f =>
      let s := skip_ws s in
      match s with
      | [] => None
      | c :: r =>
          if c =? 34 then
            match parse_chars r with Some (t, rest) => Some (JStr t, rest) | None => None end
          else if c =? 91 then
            match skip_ws r with
            | c' :: r' => if c' =? 93 then Some (JArr [], r') else parse_elems f r []
            | [] => parse_elems f r []
            end
          else if c =? 123 then
            match skip_ws r with
            | c' :: r' => if c' =? 125 then Some (JObj [], r') else parse_members f r []
            | [] => parse_members f r []
            end
          else
            match strip_prefix (lit "null") s with
            | Some r' => Some (JNull, r')
            | None =>
              match strip_prefix (lit "true") s with
              | Some r' => Some (JBool true, r')
              | None =>
                match strip_prefix (lit "false") s with
                | Some r' => Some (JBool false, r')
                | None =>
                  match parse_number s with
                  | Some (lx, rest) => Some (JNum lx, rest)
                  | None => None
                  end
                end
              end
            end
      end
  end

(** The elements of an array after [[], read so far in reverse in [acc]. *)
with parse_elems (fuel : nat) (s : jsstr) (acc : list json) : option (json * jsstr) :=
  match fuel with
  | O => None
  | S f =>
      match parse_value f s with
      | None => None
      | Some (v, r) =>
          match skip_ws r with
          | c :: r' => if c =? 44 then parse_elems f r' (v :: acc)
                       else if c =? 93 then Some (JArr (rev (v :: acc)), r')
                       else None
          | [] => None
          end
      end
  end

(** The members of an object after [{]. *)
with parse_members (fuel : nat) (s : jsstr) (acc : list (jsstr * json))
  : option (json * jsstr) :=
  match fuel with
  | O => None
  | S f =>
      match skip_ws s with
      | c :: r =>
          if c =? 34 then
            match parse_chars r with
            | None => None
            | Some (k, r1) =>
                match skip_ws r1 with
                | c1 :: r2 =>
                    if c1 =? 58 then
                      match parse_value f r2 with
                      | None => None
                      | Some (v, r3) =>
                          match skip_ws r3 with
                          | c2 :: r4 =>
                              if c2 =? 44 then parse_members f r4 ((k, v) :: acc)
                              else if c2 =? 125 then Some (JObj (rev ((k, v) :: acc)), r4)
                              else None
                          | [] => None
                          end
                      end
                    else None
                | [] => None
                end
            end
          else None
      | [] => None
      end
  end.

(** [JSON.parse(text)]: [None] when it throws a [SyntaxError]. *)
Definition JSON_parse (text : jsstr) : option json :=
  match parse_value (S (length text)) text with
  | Some (v, rest) => if bool_decide (skip_ws rest = []) then Some v else None
  | None => None
  end.

(** ** The history as a JSON value *)

(** The property names of the object literal of line 336. *)
Definition key_barcode : jsstr := Eval vm_compute in lit "barcode".
Definition key_timestamp : jsstr := Eval vm_compute in lit "timestamp".
Definition key_time : jsstr := Eval vm_compute in lit "time".

Definition record_json (r : scan_record) : json :=
  JObj [(key_barcode, JStr (barcode r)); (key_timestamp, JStr (timestamp r));
        (key_time, JStr (time r))].

Definition history_json (h : list scan_record) : json := JArr (map record_json h).

(** The inverse on the values [JSON.stringify] of a history produces. *)
Definition json_record (v : json) : option scan_record :=
  match v with
  | JObj [(k1, JStr b); (k2, JStr t); (k3, JStr l)] =>
      if bool_decide (k1 = key_barcode /\ k2 = key_timestamp /\ k3 = key_time)
      then Some (mk_scan b t l) else None
  | _ => None
  end.

Definition json_history (v : json) : option (list scan_record) :=
  match v with
  | JArr l => mapM json_record l
  | _ => None
  end.

#[export] Instance json_codec : HistoryCodec := {
  encode_history h := stringify (history_json h);
  decode_history text :=
    match JSON_parse text with
    | None => ParseError
    | Some v => match json_history v with Some h => Loaded h | None => Foreign end
    end
}.

(** ** Lemmas: the string escapes read back *)

Lemma hex_val_digit (n : N) : n < 16 -> hex_val (hex_digit n) = Some n.
Proof.
  intros Hn. unfold hex_digit, hex_val.
  repeat case_match; js_bool; simplify_eq; try (f_equal; lia); lia.
Qed.

Lemma hex4_escape (c : N) :
  c < 65536 ->
  hex4 (hex_digit (c / 4096)) (hex_digit ((c / 256) mod 16))
       (hex_digit ((c / 16) mod 16)) (hex_digit (c mod 16)) = Some c.
Proof.
  intros Hc. unfold hex4.
  rewrite !hex_val_digit by (try apply N.mod_lt; try apply N.div_lt_upper_bound; lia).
  f_equal.
  assert (E1 : c / 256 = c / 16 / 16) by (rewrite N.Div0.div_div; reflexivity).
  assert (E2 : c / 4096 = c / 16 / 16 / 16) by (rewrite !N.Div0.div_div; reflexivity).
  rewrite E1, E2.
  pose proof (N.div_mod c 16 ltac:(lia)). pose proof (N.div_mod (c / 16) 16 ltac:(lia)).
  pose proof (N.div_mod (c / 16 / 16) 16 ltac:(lia)). lia.
Qed.

Lemma parse_unicode_escape (c : N) (t : jsstr) :
  c < 65536 -> parse_chars (unicode_escape c ++ t) = cons_res c (parse_chars t).
Proof. intros Hc. simpl. by rewrite hex4_escape. Qed.

Lemma surrogate_bound (c : N) :
  is_high_surrogate c = true \/ is_low_surrogate c = true -> c < 65536.
Proof. unfold is_high_surrogate, is_low_surrogate. intros [H|H]; js_bool; lia. Qed.

Lemma parse_escape_unit (c : N) (t : jsstr) :
  parse_chars (escape_unit c ++ t) = cons_res c (parse_chars t).
Proof.
  unfold escape_unit.
  destruct (N.eqb_spec c 34) as [->|H34]; [done|].
  destruct (N.eqb_spec c 92) as [->|H92]; [done|].
  destruct (N.eqb_spec c 8) as [->|H8]; [done|].
  destruct (N.eqb_spec c 12) as [->|H12]; [done|].
  destruct (N.eqb_spec c 10) as [->|H10]; [done|].
  destruct (N.eqb_spec c 13) as [->|H13]; [done|].
  destruct (N.eqb_spec c 9) as [->|H9]; [done|].
  destruct (N.ltb_spec c 32) as [H32|H32]; simpl.
  - apply parse_unicode_escape. lia.
  - destruct (is_high_surrogate c) eqn:Eh; [apply parse_unicode_escape, surrogate_bound; auto|].
    destruct (is_low_surrogate c) eqn:El; [apply parse_unicode_escape, surrogate_bound; auto|].
    simpl. rewrite (proj2 (N.eqb_neq _ _) H34), (proj2 (N.eqb_neq _ _) H92).
    by rewrite (proj2 (N.ltb_ge c 32) H32).
Qed.

Lemma parse_raw_surrogate (c : N) (t : jsstr) :
  is_high_surrogate c = true \/ is_low_surrogate c = true ->
  parse_chars (c :: t) = cons_res c (parse_chars t).
Proof.
  unfold is_high_surrogate, is_low_surrogate. intros H. simpl.
  assert (c <> 34 /\ c <> 92 /\ 32 <= c) as (H1 & H2 & H3) by (destruct H; js_bool; lia).
  rewrite (proj2 (N.eqb_neq _ _) H1), (proj2 (N.eqb_neq _ _) H2).
  by rewrite (proj2 (N.ltb_ge c 32) H3).
Qed.

(** The characters written by [quote_units] read back, up to the closing
    quote. *)
Lemma parse_quote_units (s t : jsstr) :
  parse_chars (quote_units s ++ 34 :: t) = Some (s, t).
Proof.
  induction s as [s IH] using (well_founded_induction (Wf_nat.well_founded_ltof _ (@length N))).
  unfold Wf_nat.ltof in IH.
  destruct s as [|c r]; [done|]. cbn [quote_units].
  destruct (is_high_surrogate c) eqn:Eh.
  - destruct r as [|d r'].
    + rewrite parse_unicode_escape by (apply surrogate_bound; auto). done.
    + destruct (is_low_surrogate d) eqn:El.
      * simpl (_ ++ _). rewrite parse_raw_surrogate by auto.
        rewrite parse_raw_surrogate by auto.
        rewrite IH by (simpl; lia). done.
      * rewrite <- app_assoc, parse_unicode_escape by (apply surrogate_bound; auto).
        rewrite IH by (simpl; lia). done.
  - rewrite <- app_assoc, parse_escape_unit. rewrite IH by (simpl; lia). done.
Qed.

(** ** Lemmas: a stringified history reads back *)

Definition key_prefix (k : jsstr) : jsstr := [34] ++ k ++ [34; 58].

Lemma stringify_record (r : scan_record) :
  stringify (record_json r) =
  [123] ++ key_prefix key_barcode ++ quote (barcode r) ++ [44] ++
  key_prefix key_timestamp ++ quote (timestamp r) ++ [44] ++
  key_prefix key_time ++ quote (time r) ++ [125].
Proof. simpl. unfold quote. repeat (rewrite <- app_assoc; simpl). reflexivity. Qed.

Lemma parse_record (f : nat) (r : scan_record) (t : jsstr) :
  parse_value (5 + f) (stringify (record_json r) ++ t) = Some (record_json r, t).
Proof.
  rewrite stringify_record. unfold quote. rewrite <- ?app_assoc. simpl.
  rewrite parse_quote_units. simpl. rewrite parse_quote_units. simpl.
  rewrite parse_quote_units. done.
Qed.

Lemma parse_elems_step (f : nat) (s : jsstr) (acc : list json) :
  parse_elems (S f) s acc =
  match parse_value f s with
  | None => None
  | Some (v, r) =>
      match skip_ws r with
      | c :: r' => if c =? 44 then parse_elems f r' (v :: acc)
                   else if c =? 93 then Some (JArr (rev (v :: acc)), r')
                   else None
      | [] => None
      end
  end.
Proof. reflexivity. Qed.

Lemma skip_ws_nonws (c : N) (s : jsstr) : is_json_ws c = false -> skip_ws (c :: s) = c :: s.
Proof. simpl. by intros ->. Qed.

Lemma parse_records (f : nat) (h : list scan_record) (acc : list json) (t : jsstr) :
  h <> [] -> (length h + 5 <= f)%nat ->
  parse_elems f (join [44] (map stringify (map record_json h)) ++ 93 :: t) acc =
  Some (JArr (rev acc ++ map record_json h), t).
Proof.
  revert f acc. induction h as [|r h IH]; intros f acc Hne Hf; [done|].
  destruct f as [|f]; [simpl in Hf; lia|].
  replace f with (5 + (f - 5))%nat in * by (simpl in Hf; lia).
  rewrite parse_elems_step.
  destruct h as [|r2 h].
  - cbn [map join]. rewrite parse_record.
    rewrite skip_ws_nonws by reflexivity. done.
  - cbn [map join]. rewrite <- app_assoc, parse_record.
    cbn [app]. rewrite skip_ws_nonws by reflexivity. cbn [N.eqb Pos.eqb].
    replace (5 + (f - 5))%nat with f by (simpl in Hf; lia).
    rewrite IH by (done || (simpl in *; lia)). simpl. by rewrite <- app_assoc.
Qed.

Lemma parse_value_array (f : nat) (s : jsstr) :
  parse_value (S f) (91 :: s) =
  match skip_ws s with
  | c' :: r' => if c' =? 93 then Some (JArr [], r') else parse_elems f s []
  | [] => parse_elems f s []
  end.
Proof. reflexivity. Qed.

Lemma records_text_start (r : scan_record) (h : list scan_record) (t : jsstr) :
  exists u, join [44] (map stringify (map record_json (r :: h))) ++ t = 123 :: u.
Proof.
  destruct h as [|r2 h]; cbn [map join]; rewrite ?stringify_record; by eexists.
Qed.

Lemma parse_history (f : nat) (h : list scan_record) (t : jsstr) :
  (0 < f)%nat -> (h = [] \/ length h + 6 <= f)%nat ->
  parse_value f (stringify (history_json h) ++ t) = Some (history_json h, t).
Proof.
  intros Hf Hh. destruct f as [|f]; [lia|].
  destruct h as [|r h]; [done|]. destruct Hh as [Hh|Hh]; [done|].
  unfold history_json. cbn [stringify]. rewrite <- !app_assoc. cbn [app].
  rewrite parse_value_array.
  destruct (records_text_start r h (93 :: t)) as [u Hu]. rewrite Hu at 1.
  rewrite skip_ws_nonws by reflexivity. cbn [N.eqb Pos.eqb].
  apply (parse_records f (r :: h) [] t); [done|simpl in *; lia].
Qed.

Lemma record_text_length (r : scan_record) : (6 <= length (stringify (record_json r)))%nat.
Proof. rewrite stringify_record, !length_app. simpl. lia. Qed.

Lemma records_text_length (h : list scan_record) :
  (6 * length h <= length (join [44%N] (map stringify (map record_json h))))%nat.
Proof.
  induction h as [|r h IH]; [simpl; lia|].
  pose proof (record_text_length r).
  destruct h as [|r2 h]; cbn [map join] in *; rewrite ?length_app; simpl in *; lia.
Qed.

Lemma json_record_record (r : scan_record) : json_record (record_json r) = Some r.
Proof. destruct r. unfold json_record, record_json. by rewrite bool_decide_true. Qed.

(** ** The codec laws *)

(** ** Fuel *)

(** Each lexical step consumes text. *)

Lemma skip_ws_length (s : jsstr) : (length (skip_ws s) <= length s)%nat.
Proof. induction s as [|c s IH]; simpl; [lia|]. case_match; simpl; lia. Qed.

Lemma skip_ws_cons_length (s r : jsstr) (c : N) :
  skip_ws s = c :: r -> (length r < length s)%nat.
Proof. intros E. pose proof (skip_ws_length s) as L. rewrite E in L. simpl in L. lia. Qed.

Lemma cons_res_inv (c : N) (o : option (jsstr * jsstr)) (t r : jsstr) :
  cons_res c o = Some (t, r) -> exists t', o = Some (t', r).
Proof. destruct o as [[]|]; simpl; intros; simplify_eq; eauto. Qed.

Lemma parse_chars_length (s t r : jsstr) :
  parse_chars s = Some (t, r) -> (length r < length s)%nat.
Proof.
  revert t r. induction s as [s IH] using (well_founded_induction (Wf_nat.well_founded_ltof _ (@length N))).
  intros t r H. destruct s as [|c s1]; simpl in H; [done|].
  repeat case_match; simplify_eq/=; try lia;
    match goal with
    | H : cons_res _ (parse_chars ?x) = Some _ |- _ =>
        apply cons_res_inv in H as [t' H]; apply (IH x) in H;
          [simpl; lia | unfold Wf_nat.ltof; simpl; lia]
    end.
Qed.

Lemma strip_prefix_length (p s r : jsstr) :
  strip_prefix p s = Some r -> (length r + length p = length s)%nat.
Proof.
  revert s. induction p as [|c p IH]; intros s H; [simpl in H; simplify_eq; simpl; lia|].
  destruct s as [|d s]; [done|]. simpl in H. destruct (c =? d); [|done].
  apply IH in H. simpl. lia.
Qed.

Lemma span_digits_length (s ds r : jsstr) :
  span_digits s = (ds, r) -> (length ds + length r = length s)%nat.
Proof.
  revert ds r. induction s as [|c s IH]; intros ds r H; simpl in H; [by simplify_eq|].
  case_match; [|by simplify_eq].
  specialize (IH _ _ (surjective_pairing (span_digits s))).
  destruct (span_digits s) as [ds' r']. simplify_eq/=. lia.
Qed.

Lemma parse_number_length (s x r : jsstr) :
  parse_number s = Some (x, r) -> (length r < length s)%nat.
Proof.
  unfold parse_number. intros H.
  repeat (case_match; simplify_eq/=);
    repeat match goal with
    | E : span_digits _ = _ |- _ => apply span_digits_length in E
    end; simpl in *; lia.
Qed.

Lemma strip_prefix_lt (p s r : jsstr) :
  p <> [] -> strip_prefix p s = Some r -> (length r < length s)%nat.
Proof.
  intros Hp H. apply strip_prefix_length in H. destruct p; [done|]. simpl in H. lia.
Qed.

(** The length facts of the lexical steps recorded in the context. *)
Ltac fuel_lengths :=
  repeat match goal with
  | E : skip_ws ?a = _ :: ?b |- _ =>
      assert_fails (assert (length b < length a)%nat by assumption);
      pose proof (skip_ws_cons_length _ _ _ E)
  | E : parse_chars ?a = Some (_, ?b) |- _ =>
      assert_fails (assert (length b < length a)%nat by assumption);
      pose proof (parse_chars_length _ _ _ E)
  | E : strip_prefix ?p ?a = Some ?b |- _ =>
      assert_fails (assert (length b < length a)%nat by assumption);
      pose proof (strip_prefix_lt p _ _ ltac:(vm_compute; discriminate) E)
  | E : parse_number ?a = Some (_, ?b) |- _ =>
      assert_fails (assert (length b < length a)%nat by assumption);
      pose proof (parse_number_length _ _ _ E)
  end.

(** The facts the induction hypotheses give on the recursive calls. *)
Ltac fuel_calls IHv IHe IHm :=
  repeat match goal with
  | E : parse_value _ ?a = Some (_, ?b) |- _ => destruct (IHv _ _ _ E); clear E
  | E : parse_elems _ ?a _ = Some (_, ?b) |- _ => destruct (IHe _ _ _ _ E); clear E
  | E : parse_members _ ?a _ = Some (_, ?b) |- _ => destruct (IHm _ _ _ _ E); clear E
  end.

(** Replay, with fuel [f], the computation recorded in the context. *)
Ltac fuel_replay :=
  repeat match goal with
  | E : ?x = _ |- context [?x] => rewrite E
  | K : forall f, _ -> parse_value f ?a = _ |- context [parse_value _ ?a] =>
      rewrite K by lia
  | K : forall f, _ -> parse_elems f ?a ?c = _ |- context [parse_elems _ ?a ?c] =>
      rewrite K by lia
  | K : forall f, _ -> parse_members f ?a ?c = _ |- context [parse_members _ ?a ?c] =>
      rewrite K by lia
  end.

(** A parse that succeeds with some fuel succeeds with as much fuel as it
    consumes code units, and with any more. *)
Lemma parse_fuel_consumed (g : nat) :
  (forall s v r, parse_value g s = Some (v, r) ->
     (length r < length s)%nat /\
     forall f, (length s - length r <= f)%nat -> parse_value f s = Some (v, r)) /\
  (forall s acc v r, parse_elems g s acc = Some (v, r) ->
     (length r < length s)%nat /\
     forall f, (length s - length r <= f)%nat -> parse_elems f s acc = Some (v, r)) /\
  (forall s acc v r, parse_members g s acc = Some (v, r) ->
     (length r < length s)%nat /\
     forall f, (length s - length r <= f)%nat -> parse_members f s acc = Some (v, r)).
Proof.
  induction g as [|g (IHv & IHe & IHm)]; [split_and!; discriminate|].
  split_and!; [intros s v r|intros s acc v r|intros s acc v r];
    cbn [parse_value parse_elems parse_members]; intros H;
    repeat (case_match; simplify_eq); fuel_calls IHv IHe IHm; fuel_lengths;
    cbn [length] in *;
    (split; [lia|]); intros [|f] Hf; try lia;
    cbn [parse_value parse_elems parse_members]; fuel_replay; done.
Qed.

Lemma JSON_parse_some (text : jsstr) (v : json) :
  JSON_parse text = Some v <->
  exists g rest, parse_value g text = Some (v, rest) /\ skip_ws rest = [].
Proof.
  unfold JSON_parse. split.
  - destruct (parse_value _ text) as [[v' rest]|] eqn:E; [|done].
    case_bool_decide; intros; simplify_eq. eauto.
  - intros (g & rest & H & Hw).
    destruct (proj1 (parse_fuel_consumed g) _ _ _ H) as [_ Hall].
    rewrite Hall by lia. by rewrite bool_decide_eq_true_2.
Qed.


(** [JSON.parse(JSON.stringify(h))] gives back the JSON value of the
    history, whatever the code units of its strings (quotes, backslashes,
    control characters and lone surrogates included). *)
Lemma json_roundtrip (h : list scan_record) :
  JSON_parse (stringify (history_json h)) = Some (history_json h).
Proof.
  unfold JSON_parse.
  pose proof (parse_history (S (length (stringify (history_json h)))) h []) as H.
  rewrite app_nil_r in H. rewrite H; [done|lia|].
  destruct h as [|r h]; [by left|right].
  pose proof (records_text_length (r :: h)).
  unfold history_json. cbn [stringify]. rewrite !length_app. simpl in *. lia.
Qed.

(** The array of line 353 maps back to the records it was built from. *)
Lemma json_history_history (h : list scan_record) : json_history (history_json h) = Some h.
Proof.
  unfold history_json, json_history. induction h as [|r h IH]; [done|].
  cbn [map mapM]. rewrite json_record_record, IH. done.
Qed.

(** C2: round trip of the storage format: [JSON.stringify] of line 353
    followed by the [JSON.parse] of line 8 gives back the history, for
    every history, whatever the code units of its strings (quotes,
    backslashes, control characters and lone surrogates included). *)
Theorem json_decode_encode (h : list scan_record) :
  @decode_history json_codec (@encode_history json_codec h) = Loaded h.
Proof.
  cbn [decode_history encode_history json_codec].
  by rewrite json_roundtrip, json_history_history.
Qed.

#[export] Instance json_codec_laws : HistoryCodecLaws.
Proof.
  split.
  - intros h. cbn [decode_history encode_history json_codec].
    by rewrite json_roundtrip, json_history_history.
  - vm_compute. reflexivity.
  - intros h. cbn [encode_history json_codec]. unfold history_json.
    cbn [stringify]. by destruct (map _ _).
Qed.

(** A storage value that is not JSON is a [SyntaxError] for
    [JSON.parse]: a truncated array is rejected. *)
Example decode_truncated : @decode_history json_codec (lit "[{") = ParseError.
Proof. vm_compute. reflexivity. Qed.

(** JSON that is not an array of records is read as [Foreign]. *)
Example decode_foreign : @decode_history json_codec (lit "{}") = Foreign.
Proof. vm_compute. reflexivity. Qed.

End Json.
