(* ===== verification/Controller.v ===== *)
(** * The [EasyFilter] object: state, handlers and events

    The whole object of src/script.js as a state record [app] (the fields
    of [this] and the parts of the page and of the browser its methods
    touch), one definition per method, written in the state monad of the
    prelude in the order of the statements of the source, and one step
    per event the browser can deliver.  Asynchrony is explicit: a click
    on the start button only issues [getUserMedia]; its resolution
    ([MediaGranted]) or rejection ([MediaDenied]) is a later event, as is
    each animation frame, each timer of [showMessage] and each settled
    clipboard promise.  Between events, handlers run to completion, as in
    the browser's event loop.

    The storage format is the [HistoryCodec] interface of [History]; all
    theorems of this file hold for every codec that satisfies
    [HistoryCodecLaws].

    What the page looks like before the script runs (buttons, an empty
    result panel) comes from the HTML document, which is not part of the
    sources: [initial_app] takes the start button shown, the stop button
    hidden, the result panel hidden and empty text. *)

From S2P Require Import Prelude JsString JsLiteral Classifier History Render Onclick Json.

Module Controller.
Import JsString JsLiteral Classifier History Render Onclick.

(** ** Data *)

(** The second argument of [showMessage]: the class [success] or [error]. *)
Inductive msg_type := Success | Error.

(** A [.message] element: its creation number, text and type. *)
Record toast := mk_toast { toast_id : nat; toast_text : jsstr; toast_type : msg_type }.

(** What one iteration of [scanLoop] sees: the video is not ready
    ([readyState !== HAVE_ENOUGH_DATA]), or [jsQR] finds no code in the
    frame, or it returns a code whose [data] is given. *)
Inductive frame :=
  | NotReady
  | NoCode
  | Decoded (data : jsstr).

Record app := mk_app {
  (** [this.stream]: the current [MediaStream], by id *)
  stream : option nat;
  (** the streams whose camera tracks are still running *)
  live : list nat;
  (** the id of the next stream [getUserMedia] returns *)
  next_stream : nat;
  (** [this.isScanning] *)
  isScanning : bool;
  (** pending [requestAnimationFrame] callbacks of [scanLoop] *)
  raf : nat;
  (** pending [getUserMedia] promises *)
  media_pending : nat;
  (** [startScanBtn] displayed *)
  start_shown : bool;
  (** [stopScanBtn] displayed *)
  stop_shown : bool;
  (** [resultSection] displayed *)
  result_shown : bool;
  (** [barcodeValue.textContent] *)
  barcodeValue : jsstr;
  (** what [usageDetails.innerHTML] shows *)
  usageDetails : option usage_info;
  (** [manualBarcodeInput.value] *)
  manualInput : jsstr;
  (** [this.recentScans] *)
  recentScans : list scan_record;
  (** the records [recentScansList] shows *)
  rendered : list scan_record;
  (** [localStorage.getItem('recentScans')] *)
  stored : option jsstr;
  (** the [.message] element on the page *)
  message : option toast;
  (** pending [setTimeout] callbacks of [showMessage] *)
  timers : list nat;
  (** the id of the next toast element *)
  next_toast : nat;
  (** pending [clipboard.writeText] promises *)
  clipboard_pending : nat;
  (** [toISOString()] and [toLocaleString('ko-KR')] now *)
  clock : jsstr * jsstr
}.

Definition set_stream (v : option nat) (a : app) : app :=
  mk_app v (live a) (next_stream a) (isScanning a) (raf a) (media_pending a)
    (start_shown a) (stop_shown a) (result_shown a) (barcodeValue a)
    (usageDetails a) (manualInput a) (recentScans a) (rendered a) (stored a)
    (message a) (timers a) (next_toast a) (clipboard_pending a) (clock a).

Definition set_live (v : list nat) (a : app) : app :=
  mk_app (stream a) v (next_stream a) (isScanning a) (raf a) (media_pending
    a) (start_shown a) (stop_shown a) (result_shown a) (barcodeValue a)
    (usageDetails a) (manualInput a) (recentScans a) (rendered a) (stored a)
    (message a) (timers a) (next_toast a) (clipboard_pending a) (clock a).

Definition set_next_stream (v : nat) (a : app) : app :=
  mk_app (stream a) (live a) v (isScanning a) (raf a) (media_pending a)
    (start_shown a) (stop_shown a) (result_shown a) (barcodeValue a)
    (usageDetails a) (manualInput a) (recentScans a) (rendered a) (stored a)
    (message a) (timers a) (next_toast a) (clipboard_pending a) (clock a).

Definition set_isScanning (v : bool) (a : app) : app :=
  mk_app (stream a) (live a) (next_stream a) v (raf a) (media_pending a)
    (start_shown a) (stop_shown a) (result_shown a) (barcodeValue a)
    (usageDetails a) (manualInput a) (recentScans a) (rendered a) (stored a)
    (message a) (timers a) (next_toast a) (clipboard_pending a) (clock a).

Definition set_raf (v : nat) (a : app) : app :=
  mk_app (stream a) (live a) (next_stream a) (isScanning a) v (media_pending
    a) (start_shown a) (stop_shown a) (result_shown a) (barcodeValue a)
    (usageDetails a) (manualInput a) (recentScans a) (rendered a) (stored a)
    (message a) (timers a) (next_toast a) (clipboard_pending a) (clock a).

Definition set_media_pending (v : nat) (a : app) : app :=
  mk_app (stream a) (live a) (next_stream a) (isScanning a) (raf a) v
    (start_shown a) (stop_shown a) (result_shown a) (barcodeValue a)
    (usageDetails a) (manualInput a) (recentScans a) (rendered a) (stored a)
    (message a) (timers a) (next_toast a) (clipboard_pending a) (clock a).

Definition set_start_shown (v : bool) (a : app) : app :=
  mk_app (stream a) (live a) (next_stream a) (isScanning a) (raf a)
    (media_pending a) v (stop_shown a) (result_shown a) (barcodeValue a)
    (usageDetails a) (manualInput a) (recentScans a) (rendered a) (stored a)
    (message a) (timers a) (next_toast a) (clipboard_pending a) (clock a).

Definition set_stop_shown (v : bool) (a : app) : app :=
  mk_app (stream a) (live a) (next_stream a) (isScanning a) (raf a)
    (media_pending a) (start_shown a) v (result_shown a) (barcodeValue a)
    (usageDetails a) (manualInput a) (recentScans a) (rendered a) (stored a)
    (message a) (timers a) (next_toast a) (clipboard_pending a) (clock a).

Definition set_result_shown (v : bool) (a : app) : app :=
  mk_app (stream a) (live a) (next_stream a) (isScanning a) (raf a)
    (media_pending a) (start_shown a) (stop_shown a) v (barcodeValue a)
    (usageDetails a) (manualInput a) (recentScans a) (rendered a) (stored a)
    (message a) (timers a) (next_toast a) (clipboard_pending a) (clock a).

Definition set_barcodeValue (v : jsstr) (a : app) : app :=
  mk_app (stream a) (live a) (next_stream a) (isScanning a) (raf a)
    (media_pending a) (start_shown a) (stop_shown a) (result_shown a) v
    (usageDetails a) (manualInput a) (recentScans a) (rendered a) (stored a)
    (message a) (timers a) (next_toast a) (clipboard_pending a) (clock a).

Definition set_usageDetails (v : option usage_info) (a : app) : app :=
  mk_app (stream a) (live a) (next_stream a) (isScanning a) (raf a)
    (media_pending a) (start_shown a) (stop_shown a) (result_shown a)
    (barcodeValue a) v (manualInput a) (recentScans a) (rendered a) (stored
    a) (message a) (timers a) (next_toast a) (clipboard_pending a) (clock a).

Definition set_manualInput (v : jsstr) (a : app) : app :=
  mk_app (stream a) (live a) (next_stream a) (isScanning a) (raf a)
    (media_pending a) (start_shown a) (stop_shown a) (result_shown a)
    (barcodeValue a) (usageDetails a) v (recentScans a) (rendered a) (stored
    a) (message a) (timers a) (next_toast a) (clipboard_pending a) (clock a).

Definition set_recentScans (v : list scan_record) (a : app) : app :=
  mk_app (stream a) (live a) (next_stream a) (isScanning a) (raf a)
    (media_pending a) (start_shown a) (stop_shown a) (result_shown a)
    (barcodeValue a) (usageDetails a) (manualInput a) v (rendered a) (stored
    a) (message a) (timers a) (next_toast a) (clipboard_pending a) (clock a).

Definition set_rendered (v : list scan_record) (a : app) : app :=
  mk_app (stream a) (live a) (next_stream a) (isScanning a) (raf a)
    (media_pending a) (start_shown a) (stop_shown a) (result_shown a)
    (barcodeValue a) (usageDetails a) (manualInput a) (recentScans a) v
    (stored a) (message a) (timers a) (next_toast a) (clipboard_pending a)
    (clock a).

Definition set_stored (v : option jsstr) (a : app) : app :=
  mk_app (stream a) (live a) (next_stream a) (isScanning a) (raf a)
    (media_pending a) (start_shown a) (stop_shown a) (result_shown a)
    (barcodeValue a) (usageDetails a) (manualInput a) (recentScans a)
    (rendered a) v (message a) (timers a) (next_toast a) (clipboard_pending
    a) (clock a).

Definition set_message (v : option toast) (a : app) : app :=
  mk_app (stream a) (live a) (next_stream a) (isScanning a) (raf a)
    (media_pending a) (start_shown a) (stop_shown a) (result_shown a)
    (barcodeValue a) (usageDetails a) (manualInput a) (recentScans a)
    (rendered a) (stored a) v (timers a) (next_toast a) (clipboard_pending
    a) (clock a).

Definition set_timers (v : list nat) (a : app) : app :=
  mk_app (stream a) (live a) (next_stream a) (isScanning a) (raf a)
    (media_pending a) (start_shown a) (stop_shown a) (result_shown a)
    (barcodeValue a) (usageDetails a) (manualInput a) (recentScans a)
    (rendered a) (stored a) (message a) v (next_toast a) (clipboard_pending
    a) (clock a).

Definition set_next_toast (v : nat) (a : app) : app :=
  mk_app (stream a) (live a) (next_stream a) (isScanning a) (raf a)
    (media_pending a) (start_shown a) (stop_shown a) (result_shown a)
    (barcodeValue a) (usageDetails a) (manualInput a) (recentScans a)
    (rendered a) (stored a) (message a) (timers a) v (clipboard_pending a)
    (clock a).

Definition set_clipboard_pending (v : nat) (a : app) : app :=
  mk_app (stream a) (live a) (next_stream a) (isScanning a) (raf a)
    (media_pending a) (start_shown a) (stop_shown a) (result_shown a)
    (barcodeValue a) (usageDetails a) (manualInput a) (recentScans a)
    (rendered a) (stored a) (message a) (timers a) (next_toast a) v (clock
    a).

Definition set_clock (v : jsstr * jsstr) (a : app) : app :=
  mk_app (stream a) (live a) (next_stream a) (isScanning a) (raf a)
    (media_pending a) (start_shown a) (stop_shown a) (result_shown a)
    (barcodeValue a) (usageDetails a) (manualInput a) (recentScans a)
    (rendered a) (stored a) (message a) (timers a) (next_toast a)
    (clipboard_pending a) v.

(** ** The texts of [showMessage] *)

Definition msg_camera_on := lit "카메라가 활성화되었습니다. 바코드를 프레임 안에 맞춰주세요.".
Definition msg_camera_error := lit "카메라에 접근할 수 없습니다. 카메라 권한을 확인해주세요.".
Definition msg_stopped := lit "스캔이 중지되었습니다.".
Definition msg_invalid := lit "유효하지 않은 바코드입니다. 다시 시도해주세요.".
Definition msg_scanned (b : jsstr) :=
  lit "바코드 " ++ b ++ lit "가 성공적으로 스캔되어 자동 검색되었습니다.".
Definition msg_enter := lit "바코드 번호를 입력해주세요.".
Definition msg_min8 := lit "유효한 바코드 번호를 입력해주세요. (최소 8자리)".
Definition msg_copied := lit "바코드 번호가 클립보드에 복사되었습니다.".
Definition msg_copy_failed := lit "클립보드 복사에 실패했습니다.".

Section Handlers.
Context `{HistoryCodec}.

#[local] Abbreviation M := (st app).

(** ** Methods, in the order of the source *)

(** [showMessage] (lines 376-397): the existing [.message] element is
    removed, a new one is inserted, and a 3 s timer is armed that removes
    that element if it is still in the page. *)
Definition showMessage (text : jsstr) (type : msg_type) : M unit :=
  st_modify (fun a =>
    let id := next_toast a in
    set_next_toast (S id) (set_timers (id :: timers a)
      (set_message (Some (mk_toast id text type)) a))).

(** The [setTimeout] callback of [showMessage] (lines 392-396). *)
Definition removeMessage (id : nat) : M unit :=
  st_modify (fun a =>
    match message a with
    | Some t => if (toast_id t =? id)%nat then set_message None a else a
    | None => a
    end).

(** [stopScan] (lines 58-69): stop every track of [this.stream] and
    forget it, clear [isScanning], swap the buttons, show a message. *)
Definition stopScan : M unit :=
  st_modify (fun a =>
    match stream a with
    | Some s => set_stream None (set_live (List.filter (fun t => negb (t =? s)%nat) (live a)) a)
    | None => a
    end) ;;
  st_modify (set_isScanning false) ;;
  st_modify (set_start_shown true) ;;
  st_modify (set_stop_shown false) ;;
  showMessage msg_stopped Success.

(** [displayResult] (lines 114-124); the scrolling is not modelled. *)
Definition displayResult (barcode : jsstr) : M unit :=
  st_modify (set_barcodeValue barcode) ;;
  st_modify (set_result_shown true) ;;
  st_modify (set_usageDetails (Some (generateUsageInfo barcode))).

(** [loadRecentScans] (lines 357-369): the list shows [this.recentScans]. *)
Definition loadRecentScans : M unit :=
  st_modify (fun a => set_rendered (recentScans a) a).

(** [addToRecentScans] (lines 335-355). *)
Definition addToRecentScans (barcode : jsstr) : M unit :=
  st_modify (fun a =>
    let scanRecord := make_scan_record barcode (fst (clock a)) (snd (clock a)) in
    set_recentScans (add_recent (recentScans a) scanRecord) a) ;;
  st_modify (fun a => set_stored (Some (encode_history (recentScans a))) a) ;;
  loadRecentScans.

(** [processBarcode] (lines 93-112). *)
Definition processBarcode (barcodeData : jsstr) : M unit :=
  let cleanBarcode := clean_barcode barcodeData in
  if (length cleanBarcode <? 8)%nat then showMessage msg_invalid Error
  else
    stopScan ;;
    st_modify (set_manualInput cleanBarcode) ;;
    displayResult cleanBarcode ;;
    addToRecentScans cleanBarcode ;;
    showMessage (msg_scanned cleanBarcode) Success.

(** [scanLoop] (lines 71-91), one iteration on the frame [f]. *)
Definition scanLoop (f : frame) : M unit :=
  a ← st_get;
  if negb (isScanning a) then mret tt
  else match f with
       | Decoded data => processBarcode data
       | NotReady | NoCode => st_modify (fun a => set_raf (S (raf a)) a)
       end.

(** [startScan] (lines 37-56) up to its [await]: the request. *)
Definition startScan_request : M unit :=
  st_modify (fun a => set_media_pending (S (media_pending a)) a).

(** The rest of [startScan] once [getUserMedia] resolved with a new
    stream; [f] is the frame the synchronous [scanLoop()] call sees. *)
Definition startScan_granted (f : frame) : M unit :=
  st_modify (fun a =>
    set_stream (Some (next_stream a))
      (set_live (next_stream a :: live a) (set_next_stream (S (next_stream a)) a))) ;;
  st_modify (set_isScanning true) ;;
  st_modify (set_start_shown false) ;;
  st_modify (set_stop_shown true) ;;
  scanLoop f ;;
  showMessage msg_camera_on Success.

(** The [catch] branch of [startScan]. *)
Definition startScan_denied : M unit :=
  showMessage msg_camera_error Error.

(** [searchManualBarcode] (lines 308-324). *)
Definition searchManualBarcode : M unit :=
  a ← st_get;
  let barcode := trim (manualInput a) in
  if bool_decide (barcode = []) then showMessage msg_enter Error
  else if (length barcode <? 8)%nat then showMessage msg_min8 Error
  else
    displayResult barcode ;;
    addToRecentScans barcode ;;
    st_modify (set_manualInput []).

(** [copyBarcode] (lines 326-333): the request, then its settlement. *)
Definition copyBarcode_request : M unit :=
  st_modify (fun a => set_clipboard_pending (S (clipboard_pending a)) a).

Definition copyBarcode_settled (ok : bool) : M unit :=
  if ok then showMessage msg_copied Success else showMessage msg_copy_failed Error.

(** [selectRecentScan] (lines 371-374). *)
Definition selectRecentScan (barcode : jsstr) : M unit :=
  displayResult barcode.


(** ** Events and the step function *)

(** What the browser can deliver to the page. *)
Inductive event :=
  | ClickStart                       (** [startScanBtn] click *)
  | MediaGranted (f : frame)         (** a [getUserMedia] promise resolves *)
  | MediaDenied                      (** a [getUserMedia] promise rejects *)
  | ClickStop                        (** [stopScanBtn] click *)
  | AnimationFrame (f : frame)       (** a [requestAnimationFrame] callback runs *)
  | TypeManual (v : jsstr)           (** the user edits [manualBarcode] *)
  | ClickSearch                      (** [searchBarcodeBtn] click *)
  | KeyPress (key : jsstr)           (** a [keypress] in [manualBarcode] *)
  | ClickCopy                        (** [copyBarcodeBtn] click *)
  | ClipboardSettled (ok : bool)     (** a [writeText] promise settles *)
  | ClickRecent (i : nat)            (** click on the [i]-th recent item *)
  | TimerFired (id : nat)            (** the timer of toast [id] fires *)
  | Tick (iso locale : jsstr).       (** the clock moves on *)

(** A click on a recent item runs its [onclick] attribute (line 364) as
    [Onclick.click_outcome] reads it: the call runs [selectRecentScan]
    with the argument the browser computes; a handler that does not
    compile does nothing.  Clicks whose outcome the model does not follow
    (other code after the literal, markup that is not the template's)
    have no step. *)
Definition step (e : event) (a : app) : option app :=
  match e with
  | ClickStart =>
      if start_shown a then Some (exec startScan_request a) else None
  | MediaGranted f =>
      match media_pending a with
      | 0 => None
      | S n => Some (exec (startScan_granted f) (set_media_pending n a))
      end
  | MediaDenied =>
      match media_pending a with
      | 0 => None
      | S n => Some (exec startScan_denied (set_media_pending n a))
      end
  | ClickStop =>
      if stop_shown a then Some (exec stopScan a) else None
  | AnimationFrame f =>
      match raf a with
      | 0 => None
      | S n => Some (exec (scanLoop f) (set_raf n a))
      end
  | TypeManual v => Some (set_manualInput v a)
  | ClickSearch => Some (exec searchManualBarcode a)
  | KeyPress key =>
      if (key === lit "Enter")%js then Some (exec searchManualBarcode a) else Some a
  | ClickCopy => Some (exec copyBarcode_request a)
  | ClipboardSettled ok =>
      match clipboard_pending a with
      | 0 => None
      | S n => Some (exec (copyBarcode_settled ok) (set_clipboard_pending n a))
      end
  | ClickRecent i =>
      match rendered a !! i with
      | Some s =>
          if markup_intact (rendered a) i then
            match click_outcome s with
            | ClickCall x => Some (exec (selectRecentScan x) a)
            | ClickSyntaxError => Some a
            | ClickOtherCode | ClickUnknown => None
            end
          else None
      | None => None
      end
  | TimerFired id =>
      if bool_decide (id ∈ timers a)
      then Some (exec (removeMessage id)
                   (set_timers (List.filter (fun t => negb (t =? id)%nat) (timers a)) a))
      else None
  | Tick iso locale => Some (set_clock (iso, locale) a)
  end.

Fixpoint run (es : list event) (a : app) : option app :=
  match es with
  | [] => Some a
  | e :: es' => match step e a with Some a' => run es' a' | None => None end
  end.

(** ** Construction (lines 2-13 and 400-410) *)

Inductive init_result :=
  | InitOk (a : app)
  | InitThrows      (** [JSON.parse] throws: [new EasyFilter()] fails *)
  | InitForeign.    (** the stored value is JSON but not a scan list *)

(** [localStorage.getItem('recentScans') || '[]']: a missing item and
    the empty string both read as ['[]']. *)
Definition stored_text (v : option jsstr) : jsstr :=
  match v with
  | None | Some [] => lit "[]"
  | Some t => t
  end.

Definition initial_app (v : option jsstr) (h : list scan_record) (clk : jsstr * jsstr) : app :=
  mk_app None [] 0 false 0 0 true false false [] None [] h h v None [] 0 0 clk.

Definition init (v : option jsstr) (clk : jsstr * jsstr) : init_result :=
  match decode_history (stored_text v) with
  | Loaded h => InitOk (initial_app v h clk)
  | ParseError => InitThrows
  | Foreign => InitForeign
  end.

Inductive reachable : app -> Prop :=
  | reachable_init v clk a : init v clk = InitOk a -> reachable a
  | reachable_step a e a' : reachable a -> step e a = Some a' -> reachable a'.

(** ** Preservation of state predicates by handlers *)

Definition preserves (P : app -> Prop) (m : M unit) : Prop :=
  forall a, P a -> P (exec m a).

Lemma preserves_seq (P : app -> Prop) (m k : M unit) :
  preserves P m -> preserves P k -> preserves P (m ;; k).
Proof. intros Hm Hk a Ha. rewrite exec_seq. auto. Qed.

Lemma preserves_if (P : app -> Prop) (b : bool) (m1 m2 : M unit) :
  preserves P m1 -> preserves P m2 -> preserves P (if b then m1 else m2).
Proof. by destruct b. Qed.

Lemma preserves_get (P : app -> Prop) (k : app -> M unit) :
  (forall x, preserves P (k x)) -> preserves P (st_get ≫= k).
Proof. intros Hk a Ha. apply Hk, Ha. Qed.

Lemma preserves_ret (P : app -> Prop) : preserves P (mret tt).
Proof. intros a Ha. exact Ha. Qed.

(** The parts of the state. *)
Definition cam (a : app) := (stream a, live a, isScanning a, start_shown a, stop_shown a).
Definition toasts (a : app) := (message a, timers a, next_toast a).
Definition data (a : app) := (recentScans a, rendered a, stored a).

(** A predicate of one part is preserved by a handler that keeps that part. *)
Lemma preserves_part {B} (part : app -> B) (P : app -> Prop) (m : M unit) :
  (forall a b, part a = part b -> P a -> P b) ->
  (forall a, part (exec m a) = part a) -> preserves P m.
Proof. intros HP Hm a Ha. eapply HP; [|exact Ha]. by rewrite Hm. Qed.

Lemma showMessage_cam t ty a : cam (exec (showMessage t ty) a) = cam a.
Proof. done. Qed.
Lemma showMessage_data t ty a : data (exec (showMessage t ty) a) = data a.
Proof. done. Qed.
Lemma displayResult_cam b a : cam (exec (displayResult b) a) = cam a.
Proof. done. Qed.
Lemma displayResult_data b a : data (exec (displayResult b) a) = data a.
Proof. done. Qed.
Lemma displayResult_toasts b a : toasts (exec (displayResult b) a) = toasts a.
Proof. done. Qed.
Lemma addToRecentScans_cam b a : cam (exec (addToRecentScans b) a) = cam a.
Proof. done. Qed.
Lemma addToRecentScans_toasts b a : toasts (exec (addToRecentScans b) a) = toasts a.
Proof. done. Qed.
Lemma stopScan_data a : data (exec stopScan a) = data a.
Proof. unfold stopScan. autorewrite with easyfilter. by destruct (stream a). Qed.

#[local] Hint Resolve showMessage_cam showMessage_data displayResult_cam displayResult_data
  displayResult_toasts addToRecentScans_cam addToRecentScans_toasts stopScan_data : easyfilter.

(** ** The camera invariant *)

(** [isScanning] is set exactly when [this.stream] holds a stream, whose
    tracks are then running, and the two buttons show the scanning state. *)
Definition camera_inv (a : app) : Prop :=
  (isScanning a = true <-> is_Some (stream a)) /\
  (forall s, stream a = Some s -> s ∈ live a) /\
  start_shown a = negb (isScanning a) /\ stop_shown a = isScanning a.

Lemma camera_inv_part a b : cam a = cam b -> camera_inv a -> camera_inv b.
Proof.
  unfold cam, camera_inv. intros [= E1 E2 E3 E4 E5].
  by rewrite <- E1, <- E2, <- E3, <- E4, <- E5.
Qed.

Lemma stopScan_camera_inv a : camera_inv (exec stopScan a).
Proof.
  unfold stopScan, camera_inv. autorewrite with easyfilter. simpl.
  destruct (stream a) eqn:E; simpl; rewrite ?E; split_and!; try done;
    first [split; [done|by intros [? ?]] | by intros ? ?].
Qed.

Lemma processBarcode_camera_inv d : preserves camera_inv (processBarcode d).
Proof.
  unfold processBarcode. case_match.
  - apply (preserves_part cam); [apply camera_inv_part | apply showMessage_cam].
  - intros a _. rewrite exec_seq.
    apply (camera_inv_part (exec stopScan a)); [done|apply stopScan_camera_inv].
Qed.

Lemma scanLoop_camera_inv f : preserves camera_inv (scanLoop f).
Proof.
  intros a Ha. unfold scanLoop. rewrite exec_get. destruct (isScanning a); [|done].
  destruct f; simpl; [done|done|]. by apply processBarcode_camera_inv.
Qed.

Lemma startScan_granted_camera_inv f a : camera_inv (exec (startScan_granted f) a).
Proof.
  unfold startScan_granted. rewrite !exec_seq.
  eapply camera_inv_part; [symmetry; apply showMessage_cam|].
  apply scanLoop_camera_inv. unfold camera_inv. simpl.
  split_and!; [split; [by eexists|done] | intros s [= <-]; left | done | done].
Qed.

(** Split the conditions of [step] for one event. *)
Ltac step_inv Hst :=
  cbn beta iota delta [step] in Hst;
  repeat match type of Hst with
  | context [match ?x with _ => _ end] => destruct x eqn:?
  end; simplify_eq.

(** Unfold handlers that keep a part of the state and split their tests. *)
Ltac keep_part :=
  unfold searchManualBarcode, copyBarcode_settled, removeMessage, selectRecentScan;
  rewrite ?exec_get; unfold exec; simpl; repeat case_match; reflexivity.

(** Apart from a granted camera, a stop and an animation frame, no event
    touches the camera fields. *)
Lemma step_cam_other e a a' :
  step e a = Some a' ->
  match e with MediaGranted _ | ClickStop | AnimationFrame _ => True | _ => cam a' = cam a end.
Proof. intros Hst. destruct e; step_inv Hst; try exact I; keep_part. Qed.

Definition loop (a : app) := (cam a, raf a, media_pending a).

(** Only the camera events and the animation frames touch the polling
    loop and the pending camera requests. *)
Lemma step_loop_other e a a' :
  step e a = Some a' ->
  match e with
  | ClickStart | MediaGranted _ | MediaDenied | ClickStop | AnimationFrame _ => True
  | _ => loop a' = loop a
  end.
Proof. intros Hst. destruct e; step_inv Hst; try exact I; keep_part. Qed.

Lemma step_camera_inv e a a' : camera_inv a -> step e a = Some a' -> camera_inv a'.
Proof.
  intros Ha Hst. pose proof (step_cam_other e a a' Hst) as Hc.
  destruct e; try (eapply camera_inv_part; [symmetry; exact Hc|exact Ha]);
    step_inv Hst.
  - apply startScan_granted_camera_inv.
  - apply stopScan_camera_inv.
  - by apply scanLoop_camera_inv.
Qed.

(** Decompose a handler into the steps of its body. *)
Ltac decompose_handler :=
  repeat match goal with
  | |- preserves _ (mbind _ st_get) => apply preserves_get; intros ?x; simpl
  | |- preserves _ (mbind _ _) => apply preserves_seq
  | |- preserves _ (if _ then _ else _) => apply preserves_if
  | |- preserves _ (mret _) => apply preserves_ret
  | |- preserves _ (match ?x with _ => _ end) => destruct x
  end.

(** ** The storage invariant *)

Section Storage.
Context `{!HistoryCodecLaws}.

(** The list shows [this.recentScans], and the stored text reads back as
    [this.recentScans] when the constructor parses it. *)
Definition data_inv (a : app) : Prop :=
  rendered a = recentScans a /\ decode_history (stored_text (stored a)) = Loaded (recentScans a).

Lemma data_inv_part a b : data a = data b -> data_inv a -> data_inv b.
Proof. unfold data, data_inv. intros [= E1 E2 E3]. by rewrite <- E1, <- E2, <- E3. Qed.

Lemma addToRecentScans_data_inv c a : data_inv (exec (addToRecentScans c) a).
Proof.
  unfold data_inv. split; [done|]. simpl.
  destruct (encode_history _) eqn:E; [by apply encode_nonempty in E|].
  rewrite <- E. apply decode_encode.
Qed.

Lemma keeps_data (m : M unit) : (forall a, data (exec m a) = data a) -> preserves data_inv m.
Proof. intros Hm. apply (preserves_part data); [apply data_inv_part|apply Hm]. Qed.

Lemma establishes_data (c : jsstr) : preserves data_inv (addToRecentScans c).
Proof. intros a _. apply addToRecentScans_data_inv. Qed.

Ltac data_leaf :=
  match goal with
  | |- preserves _ (addToRecentScans _) => apply establishes_data
  | |- preserves _ stopScan => apply keeps_data, stopScan_data
  | |- preserves _ (processBarcode _) => eauto with easyfilter
  | |- preserves _ _ => apply keeps_data; intros; reflexivity
  end.

Lemma processBarcode_data_inv d : preserves data_inv (processBarcode d).
Proof. unfold processBarcode. decompose_handler; data_leaf. Qed.
#[local] Hint Resolve processBarcode_data_inv : easyfilter.

Lemma scanLoop_data_inv f : preserves data_inv (scanLoop f).
Proof.
  unfold scanLoop. decompose_handler; data_leaf.
Qed.

Lemma searchManualBarcode_data_inv : preserves data_inv searchManualBarcode.
Proof. unfold searchManualBarcode. decompose_handler; data_leaf. Qed.

Lemma startScan_granted_data_inv f : preserves data_inv (startScan_granted f).
Proof.
  unfold startScan_granted. decompose_handler; try data_leaf. apply scanLoop_data_inv.
Qed.

(** Only the events whose handlers call [addToRecentScans] touch the
    stored history. *)
Lemma step_data_other e a a' :
  step e a = Some a' ->
  match e with
  | MediaGranted _ | AnimationFrame _ | ClickSearch | KeyPress _ => True
  | _ => data a' = data a
  end.
Proof. intros Hst. destruct e; step_inv Hst; try exact I; keep_part. Qed.

Lemma step_data_inv e a a' : data_inv a -> step e a = Some a' -> data_inv a'.
Proof.
  intros Ha Hst. pose proof (step_data_other e a a' Hst) as Hd.
  destruct e; try (eapply data_inv_part; [symmetry; exact Hd|exact Ha]);
    step_inv Hst; try done.
  - apply startScan_granted_data_inv. by eapply data_inv_part; [|exact Ha].
  - apply scanLoop_data_inv. by eapply data_inv_part; [|exact Ha].
  - by apply searchManualBarcode_data_inv.
  - by apply searchManualBarcode_data_inv.
Qed.

End Storage.

(** ** The toast invariant *)

(** Every pending timer belongs to a toast already created, and the toast
    on the page is the last one created, with its timer still pending. *)
Definition toast_inv (a : app) : Prop :=
  (forall id, id ∈ timers a -> id < next_toast a)%nat /\
  (forall t, message a = Some t -> S (toast_id t) = next_toast a /\ toast_id t ∈ timers a).

Lemma toast_inv_part a b : toasts a = toasts b -> toast_inv a -> toast_inv b.
Proof. unfold toasts, toast_inv. intros [= E1 E2 E3]. by rewrite <- E1, <- E2, <- E3. Qed.

Lemma keeps_toasts (m : M unit) : (forall a, toasts (exec m a) = toasts a) -> preserves toast_inv m.
Proof. intros Hm. apply (preserves_part toasts); [apply toast_inv_part|apply Hm]. Qed.

Lemma showMessage_toast_inv t ty : preserves toast_inv (showMessage t ty).
Proof.
  intros a [Ht Hm]. split; simpl.
  - intros id Hid. apply elem_of_cons in Hid as [->|Hid]; [lia|]. specialize (Ht id Hid). lia.
  - intros t' [= <-]. simpl. split; [done|]. left.
Qed.

Ltac toast_leaf :=
  match goal with
  | |- preserves _ (showMessage _ _) => apply showMessage_toast_inv
  | |- preserves _ _ => apply keeps_toasts; intros; reflexivity
  end.

Lemma stopScan_toast_inv : preserves toast_inv stopScan.
Proof.
  unfold stopScan. decompose_handler; try toast_leaf.
  apply keeps_toasts. intros a. unfold exec. simpl. by case_match.
Qed.

Lemma processBarcode_toast_inv d : preserves toast_inv (processBarcode d).
Proof. unfold processBarcode. decompose_handler; first [apply stopScan_toast_inv | toast_leaf]. Qed.

Lemma scanLoop_toast_inv f : preserves toast_inv (scanLoop f).
Proof. unfold scanLoop. decompose_handler; first [apply processBarcode_toast_inv | toast_leaf]. Qed.

Lemma startScan_granted_toast_inv f : preserves toast_inv (startScan_granted f).
Proof. unfold startScan_granted. decompose_handler; first [apply scanLoop_toast_inv | toast_leaf]. Qed.

Lemma searchManualBarcode_toast_inv : preserves toast_inv searchManualBarcode.
Proof. unfold searchManualBarcode. decompose_handler; toast_leaf. Qed.

Lemma copyBarcode_settled_toast_inv ok : preserves toast_inv (copyBarcode_settled ok).
Proof. unfold copyBarcode_settled. decompose_handler; toast_leaf. Qed.

Lemma timer_toast_inv id a :
  toast_inv a ->
  toast_inv (exec (removeMessage id) (set_timers (List.filter (fun t => negb (t =? id)%nat) (timers a)) a)).
Proof.
  intros [Ht Hm]. unfold removeMessage, exec. simpl.
  destruct (message a) as [t|] eqn:E; simpl; [destruct (toast_id t =? id)%nat eqn:Eid|];
    js_bool; (split; simpl; [intros i Hi; apply Ht; apply list_elem_of_In in Hi;
      apply filter_In in Hi as [Hi _]; by apply list_elem_of_In|]); rewrite ?E; try done.
  intros t' [= <-]. destruct (Hm t eq_refl) as [Hn Hin]. split; [done|].
  apply list_elem_of_In, filter_In. split; [by apply list_elem_of_In|].
  by rewrite (proj2 (Nat.eqb_neq _ _) Eid).
Qed.

Lemma step_toast_inv e a a' : toast_inv a -> step e a = Some a' -> toast_inv a'.
Proof.
  intros Ha Hst. pose proof searchManualBarcode_toast_inv as Hs.
  destruct e; step_inv Hst.
  - (* ClickStart *) by eapply toast_inv_part; [|exact Ha].
  - (* MediaGranted *) apply startScan_granted_toast_inv. by eapply toast_inv_part; [|exact Ha].
  - (* MediaDenied *) apply showMessage_toast_inv. by eapply toast_inv_part; [|exact Ha].
  - (* ClickStop *) by apply stopScan_toast_inv.
  - (* AnimationFrame *) apply scanLoop_toast_inv. by eapply toast_inv_part; [|exact Ha].
  - (* TypeManual *) by eapply toast_inv_part; [|exact Ha].
  - (* ClickSearch *) by apply Hs.
  - (* KeyPress Enter *) by apply Hs.
  - (* KeyPress other *) done.
  - (* ClickCopy *) by eapply toast_inv_part; [|exact Ha].
  - (* ClipboardSettled *) apply copyBarcode_settled_toast_inv. by eapply toast_inv_part; [|exact Ha].
  - (* ClickRecent, a call *) by eapply toast_inv_part; [|exact Ha].
  - (* ClickRecent, a SyntaxError *) done.
  - (* TimerFired *) by apply timer_toast_inv.
  - (* Tick *) by eapply toast_inv_part; [|exact Ha].
Qed.

(** ** Leaked camera streams *)

(** The stream [t] is leaked: its camera is running, [this.stream] does
    not hold it, and it is not the id of a stream still to come. *)
Definition leaked (t : nat) (a : app) : Prop :=
  t ∈ live a /\ stream a <> Some t /\ (t < next_stream a)%nat.

(** The fields a leak depends on. *)
Definition camn (a : app) := (stream a, live a, next_stream a).

Lemma leaked_part t a b : camn a = camn b -> leaked t a -> leaked t b.
Proof. unfold camn, leaked. intros [= E1 E2 E3]. by rewrite <- E1, <- E2, <- E3. Qed.

Lemma keeps_camn t (m : M unit) : (forall a, camn (exec m a) = camn a) -> preserves (leaked t) m.
Proof. apply preserves_part, leaked_part. Qed.

Lemma stopScan_leaked t : preserves (leaked t) stopScan.
Proof.
  intros a (Hin & Hs & Hn). unfold stopScan. autorewrite with easyfilter. unfold leaked. simpl.
  destruct (stream a) as [s|] eqn:E; simpl; split_and!; try done.
  - apply list_elem_of_In, filter_In. split; [by apply list_elem_of_In|].
    apply negb_true_iff, Nat.eqb_neq. congruence.
  - by rewrite E.
Qed.

Lemma processBarcode_leaked t d : preserves (leaked t) (processBarcode d).
Proof.
  unfold processBarcode. decompose_handler; try (apply keeps_camn; done).
  apply stopScan_leaked.
Qed.

Lemma scanLoop_leaked t f : preserves (leaked t) (scanLoop f).
Proof.
  unfold scanLoop. decompose_handler; try (apply keeps_camn; done).
  apply processBarcode_leaked.
Qed.

Lemma startScan_granted_leaked t f : preserves (leaked t) (startScan_granted f).
Proof.
  unfold startScan_granted. decompose_handler; try (apply keeps_camn; done).
  - intros a (Hin & Hs & Hn). unfold leaked. simpl. split_and!; [by right | |lia].
    intros [= E]. lia.
  - apply scanLoop_leaked.
Qed.

Lemma step_leaked t e a a' : leaked t a -> step e a = Some a' -> leaked t a'.
Proof.
  intros Ha Hst. destruct e; step_inv Hst; try exact Ha;
    try (eapply leaked_part; [|exact Ha]; unfold camn; f_equal; keep_part).
  - by apply startScan_granted_leaked.
  - by apply stopScan_leaked.
  - by apply scanLoop_leaked.
Qed.

Lemma run_leaked t es a a' : leaked t a -> run es a = Some a' -> leaked t a'.
Proof.
  revert a. induction es as [|e es IH]; intros a Ha Hrun; simpl in Hrun; [by simplify_eq|].
  destruct (step e a) as [b|] eqn:E; [|discriminate]. eapply IH; [|exact Hrun].
  by eapply step_leaked.
Qed.

Section Reachable.
Context `{!HistoryCodecLaws}.

(** ** Reachable states *)

Definition ctl_inv (a : app) : Prop := camera_inv a /\ data_inv a /\ toast_inv a.

Lemma init_inv v clk a : init v clk = InitOk a -> ctl_inv a.
Proof.
  unfold init. destruct (decode_history (stored_text v)) eqn:E; intros Hi; simplify_eq.
  unfold ctl_inv, camera_inv, data_inv, toast_inv, initial_app; simpl.
  split_and!; try done. intros id Hid. by apply not_elem_of_nil in Hid.
Qed.

Lemma reachable_ctl_inv a : reachable a -> ctl_inv a.
Proof.
  induction 1 as [v clk a Hi|a e a' _ [Hc [Hd Ht]] Hst]; [by eapply init_inv|].
  split_and!; [by eapply step_camera_inv|by eapply step_data_inv|by eapply step_toast_inv].
Qed.

(** C11: in every reachable state [isScanning] is set exactly when
    [this.stream] holds a stream, that stream's camera is running, and
    the start and stop buttons show the scanning state. *)
Theorem reachable_camera_inv (a : app) : reachable a -> camera_inv a.
Proof. intros Hr. apply (reachable_ctl_inv a Hr). Qed.

(** C12: in every reachable state the recent list on the page shows
    [this.recentScans], and what [localStorage] holds is read back by the
    constructor as exactly [this.recentScans]. *)
Theorem reachable_data_inv (a : app) : reachable a -> data_inv a.
Proof. intros Hr. apply (reachable_ctl_inv a Hr). Qed.

(** C13: in every reachable state each pending timer belongs to a toast
    already created, and the toast on the page is the newest one, with
    its removal timer pending. *)
Theorem reachable_toast_inv (a : app) : reachable a -> toast_inv a.
Proof. intros Hr. apply (reachable_ctl_inv a Hr). Qed.

(** ** What the handlers do *)

(** Evaluate the handlers of a step whose conditions are known. *)
Ltac run_handlers :=
  unfold startScan_request, startScan_granted, startScan_denied, stopScan,
    scanLoop, processBarcode, displayResult, addToRecentScans, loadRecentScans,
    showMessage, removeMessage, searchManualBarcode, copyBarcode_request,
    copyBarcode_settled, selectRecentScan, exec, mbind, st_bind, st_get, st_modify,
    mret, st_ret; simpl.

(** C3: a frame in which [jsQR] finds a payload with at least 8 digits
    ends the scan: the stream is stopped and forgotten, the cleaned digits
    fill the text field and the result panel, the record is put first in
    the history, the history is written to storage, and the success
    message names the barcode. *)
Theorem scan_valid_code (a a' : app) (n : nat) (d : jsstr) :
  isScanning a = true -> raf a = S n -> (8 <= length (clean_barcode d))%nat ->
  step (AnimationFrame (Decoded d)) a = Some a' ->
  let c := clean_barcode d in
  isScanning a' = false /\ stream a' = None /\ raf a' = n /\
  (forall s, stream a = Some s -> s ∉ live a') /\
  barcodeValue a' = c /\ manualInput a' = c /\
  usageDetails a' = Some (generateUsageInfo c) /\
  recentScans a' = add_recent (recentScans a) (make_scan_record c (fst (clock a)) (snd (clock a))) /\
  stored a' = Some (encode_history (recentScans a')) /\
  option_map toast_text (message a') = Some (msg_scanned c).
Proof.
  intros Hs Hr Hl Hst. cbn beta iota delta [step] in Hst. rewrite Hr in Hst.
  injection Hst as <-. run_handlers. rewrite Hs. simpl.
  destruct (Nat.ltb_spec (length (clean_barcode d)) 8) as [Hlt|_]; [lia|]. simpl.
  destruct (stream a) as [s|] eqn:Es; simpl; split_and!; try done.
  intros s' [= <-] Hin. apply list_elem_of_In, filter_In in Hin as [_ Hin].
  by rewrite Nat.eqb_refl in Hin.
Qed.

(** C4: the defect of [scanLoop] and [processBarcode]: a frame whose
    payload has fewer than 8 digits shows the error message and returns
    without requesting another animation frame, while [isScanning], the
    stream and its running camera are kept. *)
Theorem scan_invalid_code (a a' : app) (n : nat) (d : jsstr) :
  isScanning a = true -> raf a = S n -> (length (clean_barcode d) < 8)%nat ->
  step (AnimationFrame (Decoded d)) a = Some a' ->
  isScanning a' = true /\ raf a' = n /\ cam a' = cam a /\ data a' = data a /\
  option_map toast_text (message a') = Some msg_invalid.
Proof.
  intros Hs Hr Hl Hst. cbn beta iota delta [step] in Hst. rewrite Hr in Hst.
  injection Hst as <-. run_handlers. rewrite Hs. simpl.
  destruct (Nat.ltb_spec (length (clean_barcode d)) 8) as [_|Hge]; [|lia].
  simpl. by rewrite Hs.
Qed.

(** The scanner is stalled: it scans, but no frame callback and no camera
    request is pending. *)
Definition stalled (a : app) : Prop :=
  isScanning a = true /\ raf a = 0%nat /\ media_pending a = 0%nat.

Lemma stalled_loop a a' : loop a' = loop a -> stalled a -> stalled a'.
Proof. unfold loop, cam, stalled. intros [= _ _ E _ _ Er Em]. by rewrite E, Er, Em. Qed.

(** C5: a stalled scanner stays stalled, with the same camera stream
    running, under every event but a click on the stop button: no frame
    is ever decoded again (spec 4.3 says the loop runs until a valid
    code appears or the user stops it). *)
Theorem stalled_until_stop (a a' : app) (e : event) :
  camera_inv a -> stalled a -> e <> ClickStop -> step e a = Some a' ->
  stalled a' /\ cam a' = cam a.
Proof.
  intros (_ & _ & Hstart & _) Hst0 He Hst. pose proof Hst0 as (Hs & Hr & Hm).
  pose proof (step_loop_other e a a' Hst) as Hl.
  destruct e; try (split; [by eapply stalled_loop | unfold loop in Hl; congruence]);
    cbn beta iota delta [step] in Hst; rewrite ?Hr, ?Hm, ?Hstart, ?Hs in Hst;
    simpl in Hst; try discriminate.
Qed.

(** After [stopScan] the pending frame callbacks do nothing but end:
    the loop is cancelled through the [isScanning] flag. *)
Theorem stop_cancels_loop (a a' : app) (f : frame) :
  isScanning a = false -> step (AnimationFrame f) a = Some a' ->
  a' = set_raf (pred (raf a)) a.
Proof.
  intros Hs Hst. cbn beta iota delta [step] in Hst.
  destruct (raf a) as [|n]; [discriminate|]. injection Hst as <-.
  run_handlers. by rewrite Hs.
Qed.

(** C14: a click on the stop button stops the tracks of [this.stream],
    forgets it, clears [isScanning] and says so; the history is not
    touched. *)
Theorem stopScan_releases (a a' : app) :
  step ClickStop a = Some a' ->
  stream a' = None /\ isScanning a' = false /\
  (forall s, stream a = Some s -> s ∉ live a') /\
  option_map toast_text (message a') = Some msg_stopped /\ data a' = data a.
Proof.
  intros Hst. cbn beta iota delta [step] in Hst.
  destruct (stop_shown a); [|discriminate]. injection Hst as <-. run_handlers.
  destruct (stream a) as [s|] eqn:Es; simpl; split_and!; try done.
  intros s' [= <-] Hin. apply list_elem_of_In, filter_In in Hin as [_ Hin].
  by rewrite Nat.eqb_refl in Hin.
Qed.

(** C29: the manual search with at least 8 code units after [trim] shows
    that text and its usage information, records it first in the history,
    writes the history to storage and clears the field; no message is
    shown and the camera is not touched.  The text is not cleaned: unlike
    a scanned payload it may hold any character. *)
Theorem manual_search_valid (a a' : app) :
  let b := trim (manualInput a) in
  b <> [] -> (8 <= length b)%nat -> step ClickSearch a = Some a' ->
  barcodeValue a' = b /\ usageDetails a' = Some (generateUsageInfo b) /\
  recentScans a' = add_recent (recentScans a) (make_scan_record b (fst (clock a)) (snd (clock a))) /\
  stored a' = Some (encode_history (recentScans a')) /\
  manualInput a' = [] /\ cam a' = cam a /\ toasts a' = toasts a.
Proof.
  intros b Hne Hl Hst. injection Hst as <-. run_handlers. fold b.
  rewrite bool_decide_eq_false_2 by done.
  destruct (Nat.ltb_spec (length b) 8); [lia|]. done.
Qed.

(** C31: an empty or short manual entry only shows its error message. *)
Theorem manual_search_rejects (a a' : app) :
  let b := trim (manualInput a) in
  (b = [] \/ length b < 8)%nat -> step ClickSearch a = Some a' ->
  data a' = data a /\ cam a' = cam a /\ barcodeValue a' = barcodeValue a /\
  manualInput a' = manualInput a /\
  option_map toast_text (message a') = Some (if bool_decide (b = []) then msg_enter else msg_min8).
Proof.
  intros b Hb Hst. injection Hst as <-. run_handlers. fold b.
  case_bool_decide; [done|]. destruct Hb as [Hb|Hb]; [done|].
  by destruct (Nat.ltb_spec (length b) 8); [|lia].
Qed.


(** ** Reachable states: restart, toasts and the defects *)


(** C39: the toast on the page is removed by its own timer, which is
    pending, and by no other timer. *)
Theorem toast_removed_by_own_timer (a : app) (t : toast) :
  reachable a -> message a = Some t ->
  (exists a', step (TimerFired (toast_id t)) a = Some a' /\ message a' = None) /\
  (forall id a', id <> toast_id t -> step (TimerFired id) a = Some a' -> message a' = Some t).
Proof.
  intros Hr Hm. destruct (reachable_ctl_inv a Hr) as (_ & _ & [_ Ht]).
  destruct (Ht t Hm) as [_ Hin]. split.
  - cbn beta iota delta [step]. rewrite bool_decide_eq_true_2 by done.
    eexists. split; [reflexivity|]. run_handlers. rewrite Hm. simpl. by rewrite Nat.eqb_refl.
  - intros id a' Hne Hst. step_inv Hst. run_handlers. rewrite Hm. simpl.
    destruct (Nat.eqb_spec (toast_id t) id); [congruence|]. simpl. by rewrite Hm.
Qed.

Lemma init_empty (clk : jsstr * jsstr) : init None clk = InitOk (initial_app None [] clk).
Proof. unfold init. simpl. by rewrite decode_empty. Qed.

Lemma run_reachable (es : list event) (a a' : app) :
  reachable a -> run es a = Some a' -> reachable a'.
Proof.
  revert a. induction es as [|e es IH]; intros a Ha Hrun; simpl in Hrun; [by simplify_eq|].
  destruct (step e a) as [b|] eqn:E; [|discriminate]. eapply IH; [|exact Hrun].
  by eapply reachable_step.
Qed.

Lemma run_from_empty (es : list event) (clk : jsstr * jsstr) (a : app) :
  run es (initial_app None [] clk) = Some a -> reachable a.
Proof. apply run_reachable. eapply reachable_init, init_empty. Qed.

(** Run a trace from the empty page and name its final state. *)
Ltac reach_by es clk :=
  let a := fresh "a" in let Ha := fresh "Ha" in
  destruct (run es (initial_app None [] clk)) as [a|] eqn:Ha;
  [|vm_compute in Ha; discriminate];
  exists a; split; [exact (run_from_empty _ _ _ Ha)|];
  vm_compute in Ha; injection Ha as <-.

(** C6: a stalled scanner is reachable: after one empty frame, a QR code
    with fewer than 8 digits leaves the camera running with no frame
    callback pending. *)
Theorem stalled_reachable (clk : jsstr * jsstr) :
  exists a, reachable a /\ stalled a /\ is_Some (stream a).
Proof.
  reach_by [ClickStart; MediaGranted NotReady; AnimationFrame (Decoded (lit "abc"))] clk.
  split; [done|]. by eexists.
Qed.


(** C30: the manual search does not keep digits only (spec 4.1 says the
    input is normalised to digits): typing [ABCDEFGH] and clicking search
    shows it as a UPC/EAN-8 product and records it in the history and in
    [localStorage]. *)
Theorem manual_search_accepts_letters (clk : jsstr * jsstr) :
  exists a, reachable a /\ barcodeValue a = lit "ABCDEFGH" /\
    usageDetails a = Some (ProductUsage EAN8) /\
    map barcode (recentScans a) = [lit "ABCDEFGH"] /\ is_Some (stored a).
Proof.
  reach_by [TypeManual (lit "ABCDEFGH"); ClickSearch] clk.
  split_and!; by try eexists.
Qed.

(** C19: script injection through the recent list: a manual entry whose
    text closes the string literal is recorded, the [onclick] attribute
    of its item becomes the program
    [easyFilter.selectRecentScan('88012345'); alert(1); ('')], and the
    literal of the handler ends inside the barcode, so a click runs the
    code that follows it. *)
Theorem onclick_injection_reachable (clk : jsstr * jsstr) :
  exists a, reachable a /\ exists s, s ∈ rendered a /\
    (exists rest, onclick_attribute (recent_item_html s) =
       AttrValue (lit "easyFilter.selectRecentScan('88012345'); alert(1); ('')") rest) /\
    click_outcome s = ClickOtherCode.
Proof.
  reach_by [TypeManual (lit "88012345'); alert(1); ('"); ClickSearch] clk.
  eexists. split; [constructor|]. split; [eexists|]; vm_compute; reflexivity.
Qed.

(** C22: a recorded barcode is not always what its item shows: the
    manual entry [\x38801234567890] is recorded as typed, and a click on
    its item shows [8801234567890], a domestic product, because the
    [onclick] attribute reads the barcode as the body of a JavaScript
    string literal (spec 4.2: [select] displays the recorded barcode). *)
Theorem click_shows_other_barcode (clk : jsstr * jsstr) :
  exists a, reachable a /\ map barcode (recentScans a) = [lit "\x38801234567890"] /\
    exists a', step (ClickRecent 0) a = Some a' /\
      barcodeValue a' = lit "8801234567890" /\ usageDetails a' = Some (ProductUsage Domestic).
Proof.
  reach_by [TypeManual (lit "\x38801234567890"); ClickSearch] clk.
  split; [reflexivity|]. eexists. split; [vm_compute; reflexivity|]. split; reflexivity.
Qed.

(** C23: a recorded barcode that ends in a backslash makes its item
    dead: the backslash escapes the quote the template writes after the
    barcode, the handler is a SyntaxError, and a click changes nothing. *)
Theorem click_backslash_dead (a : app) (i : nat) (s : scan_record) (p x : jsstr) :
  rendered a !! i = Some s -> markup_intact (rendered a) i = true ->
  barcode s = p ++ [92%N] -> (34%N ∉ p) -> amp_free p = true ->
  string_chars None (attr_chars p ++ [39%N]) = Some (x, []) ->
  step (ClickRecent i) a = Some a.
Proof.
  intros Hi Hm Hb H34 Hamp Hx. cbn beta iota delta [step]. rewrite Hi, Hm.
  erewrite click_backslash_syntax_error; [done|done|done|done|].
  by apply string_chars_sound.
Qed.

(** C16: the leak is permanent: after the double click on the start
    button and a stop, the page shows no scan and holds no stream, and
    no sequence of events ever stops the camera again. *)
Theorem camera_never_released (clk : jsstr * jsstr) :
  exists a, reachable a /\ isScanning a = false /\ stream a = None /\
    forall es a', run es a = Some a' -> live a' <> [].
Proof.
  reach_by [ClickStart; ClickStart; MediaGranted NotReady; MediaGranted NotReady; ClickStop] clk.
  split_and!; [done|done|]. intros es a' Hrun Hnil.
  assert (Hl : leaked 0 a').
  { eapply run_leaked; [|exact Hrun]. apply (bool_decide_unpack _). vm_compute. reflexivity. }
  destruct Hl as [Hin _]. rewrite Hnil in Hin. by apply not_elem_of_nil in Hin.
Qed.

(** C17: the user can always stop: from every reachable state some
    sequence of events (a click on the visible stop button, or none)
    leads to a state that does not scan and holds no stream. *)
Theorem stop_always_possible (a : app) :
  reachable a ->
  exists es a', run es a = Some a' /\ isScanning a' = false /\ stream a' = None.
Proof.
  intros Hr. destruct (reachable_ctl_inv a Hr) as ((Hs & _ & _ & Hstop) & _ & _).
  destruct (isScanning a) eqn:E.
  - exists [ClickStop], (exec stopScan a). cbn [run step]. rewrite Hstop.
    split; [done|]. unfold stopScan. autorewrite with easyfilter.
    destruct (stream a) eqn:Es; simpl; rewrite ?Es; split; done.
  - exists [], a. split_and!; [done|done|].
    destruct (stream a) eqn:Es; [|done]. exfalso.
    assert (false = true) by (apply Hs; by eexists). congruence.
Qed.


End Reachable.

End Handlers.

(** ** Witnesses, on the JSON codec of [Json] *)

Import Json.

Definition page0 : app := initial_app None [] ([], []).

(** The page after the events [es], from the empty page. *)
Definition after (es : list event) : app :=
  match run es page0 with Some a => a | None => page0 end.

Definition scanning : app := after [ClickStart; MediaGranted NotReady].
Definition stopped : app := after [ClickStart; MediaGranted NotReady; ClickStop].
Definition searched : app := after [TypeManual (lit "8801234567890"); ClickSearch].
Definition stalled_page : app := exec (scanLoop (Decoded (lit "abc"))) (set_raf 0 scanning).

Lemma reachable_after es : run es page0 = Some (after es) -> reachable (after es).
Proof. apply run_from_empty. Qed.

Lemma reachable_camera_inv_witness : camera_inv scanning.
Proof. apply reachable_camera_inv, reachable_after. vm_compute. reflexivity. Defined.

Lemma reachable_data_inv_witness : data_inv searched.
Proof. apply reachable_data_inv, reachable_after. vm_compute. reflexivity. Defined.

Lemma reachable_toast_inv_witness : toast_inv scanning.
Proof. apply reachable_toast_inv, reachable_after. vm_compute. reflexivity. Defined.

Lemma scan_valid_code_witness :
  barcodeValue (exec (scanLoop (Decoded (lit "8809841630962"))) (set_raf 0 scanning)) =
  lit "8809841630962".
Proof.
  edestruct (scan_valid_code scanning
    (exec (scanLoop (Decoded (lit "8809841630962"))) (set_raf 0 scanning)) 0 (lit "8809841630962")) as (_ & _ & _ & _ & Hb & _);
    [vm_compute; reflexivity|vm_compute; reflexivity|vm_compute; lia|vm_compute; reflexivity|].
  exact Hb.
Defined.

Lemma scan_invalid_code_witness : isScanning stalled_page = true /\ raf stalled_page = 0%nat.
Proof.
  edestruct (scan_invalid_code scanning stalled_page 0 (lit "abc")) as (Hs & Hr & _);
    [vm_compute; reflexivity|vm_compute; reflexivity|vm_compute; lia|vm_compute; reflexivity|].
  split; assumption.
Defined.

Lemma stalled_until_stop_witness :
  stalled (set_manualInput (lit "1") stalled_page) /\
  cam (set_manualInput (lit "1") stalled_page) = cam stalled_page.
Proof.
  apply (stalled_until_stop stalled_page (set_manualInput (lit "1") stalled_page)
    (TypeManual (lit "1")));
    [|vm_compute; split_and!; reflexivity|discriminate|vm_compute; reflexivity].
  vm_compute. split_and!; try reflexivity.
  - intros _. by eexists.
  - intros s [= <-]. left.
Defined.

Lemma stop_cancels_loop_witness :
  exec (scanLoop NoCode) (set_raf 0 stopped) = set_raf (pred (raf stopped)) stopped.
Proof. apply (stop_cancels_loop stopped _ NoCode); vm_compute; reflexivity. Defined.

Lemma stopScan_releases_witness : stream (exec stopScan scanning) = None.
Proof. apply (stopScan_releases scanning). vm_compute. reflexivity. Defined.

Lemma manual_search_valid_witness :
  barcodeValue (exec searchManualBarcode (set_manualInput (lit " 8801234567890 ") page0)) =
  lit "8801234567890".
Proof.
  edestruct (manual_search_valid (set_manualInput (lit " 8801234567890 ") page0)
    (exec searchManualBarcode (set_manualInput (lit " 8801234567890 ") page0))) as [Hb _];
    [vm_compute; congruence|vm_compute; lia|vm_compute; reflexivity|].
  rewrite Hb. vm_compute. reflexivity.
Defined.

Lemma manual_search_rejects_witness :
  data (exec searchManualBarcode (set_manualInput (lit "123") page0)) =
  data (set_manualInput (lit "123") page0).
Proof.
  apply (manual_search_rejects (set_manualInput (lit "123") page0)
    (exec searchManualBarcode (set_manualInput (lit "123") page0)));
    [right; vm_compute; lia|vm_compute; reflexivity].
Defined.

Definition selected : app := exec (selectRecentScan (lit "8801234567890")) searched.
Definition searched_item : scan_record := mk_scan (lit "8801234567890") [] [].



Lemma toast_removed_by_own_timer_witness :
  exists a', step (TimerFired 0) scanning = Some a' /\ message a' = None.
Proof.
  apply (toast_removed_by_own_timer scanning (mk_toast 0 msg_camera_on Success));
    [apply reachable_after|]; vm_compute; reflexivity.
Defined.

Lemma stalled_reachable_witness : exists a, reachable a /\ stalled a /\ is_Some (stream a).
Proof. exact (stalled_reachable ([], [])). Defined.



Lemma onclick_injection_reachable_witness :
  exists a, reachable a /\ exists s, s ∈ rendered a /\
    (exists rest, onclick_attribute (recent_item_html s) =
       AttrValue (lit "easyFilter.selectRecentScan('88012345'); alert(1); ('')") rest) /\
    click_outcome s = ClickOtherCode.
Proof. exact (onclick_injection_reachable ([], [])). Defined.

Lemma click_shows_other_barcode_witness :
  exists a, reachable a /\ map barcode (recentScans a) = [lit "\x38801234567890"] /\
    exists a', step (ClickRecent 0) a = Some a' /\
      barcodeValue a' = lit "8801234567890" /\ usageDetails a' = Some (ProductUsage Domestic).
Proof. exact (click_shows_other_barcode ([], [])). Defined.

(** The page after the manual search of [88012345\]. *)
Definition backslash_page : app :=
  match run [TypeManual (lit "88012345\"); ClickSearch] (initial_app None [] ([], [])) with
  | Some a => a
  | None => initial_app None [] ([], [])
  end.

Lemma click_backslash_dead_witness :
  step (ClickRecent 0) backslash_page = Some backslash_page.
Proof.
  apply (click_backslash_dead backslash_page 0 (mk_scan (lit "88012345\") [] []) (lit "88012345")
           (lit "88012345")).
  - vm_compute. reflexivity.
  - vm_compute. reflexivity.
  - vm_compute. reflexivity.
  - apply (bool_decide_unpack _). vm_compute. reflexivity.
  - vm_compute. reflexivity.
  - vm_compute. reflexivity.
Defined.

Lemma camera_never_released_witness :
  exists a, reachable a /\ isScanning a = false /\ stream a = None /\
    forall es a', run es a = Some a' -> live a' <> [].
Proof. exact (camera_never_released ([], [])). Defined.

Lemma stop_always_possible_witness :
  exists es a', run es scanning = Some a' /\ isScanning a' = false /\ stream a' = None.
Proof. apply stop_always_possible, reachable_after. vm_compute. reflexivity. Defined.

Lemma manual_search_accepts_letters_witness :
  exists a, reachable a /\ barcodeValue a = lit "ABCDEFGH" /\
    usageDetails a = Some (ProductUsage EAN8) /\
    map barcode (recentScans a) = [lit "ABCDEFGH"] /\ is_Some (stored a).
Proof. exact (manual_search_accepts_letters ([], [])). Defined.

End Controller.
