(* ===== verification/Bootstrap.v ===== *)
(** * Start-up of the page (src/script.js, lines 400-409)

    The script declares [let easyFilter;], registers a [DOMContentLoaded]
    listener that runs [easyFilter = new EasyFilter()], sets
    [window.easyFilter = null], and registers a second listener that runs
    [window.easyFilter = easyFilter].  The browser runs the listeners of
    an event in the order they were registered, and an exception thrown
    by one listener is reported without stopping the next.

    [globals] holds the two bindings and the count of uncaught
    exceptions; [dom_content_loaded] runs a list of listeners in order.
    The [onclick] attributes of the recent list name [easyFilter], which
    resolves to the [let] binding ([handler_easyFilter]), not to the
    property of [window].
    The constructor is [Controller.init]: it either builds the page, or
    throws when [JSON.parse] rejects the stored history, or meets JSON
    that is not a scan list, whose further fate ([loadRecentScans] on a
    non-array) is not followed and is recorded as [Unknown]. *)

From S2P Require Import Prelude History Json Controller.

Module Bootstrap.
Import History Json Controller.

(** ** Data *)

(** A JavaScript value of the two bindings. *)
Inductive value :=
  | Undefined
  | Null
  | Object (a : app)
  | Unknown.

(** The two [DOMContentLoaded] listeners, by the line that registers them. *)
Inductive listener :=
  | ConstructApp   (** line 402 *)
  | PublishApp.    (** line 408 *)

Record globals := mk_globals {
  easyFilter : value;           (** [let easyFilter] of line 401 *)
  window_easyFilter : value;    (** [window.easyFilter] *)
  uncaught : nat                (** exceptions reported to the console *)
}.

(** Lines 401-408 at load time: [easyFilter] is undefined, the property
    is [null], and the listeners are registered in this order. *)
Definition script_globals : globals := mk_globals Undefined Null 0.
Definition script_listeners : list listener := [ConstructApp; PublishApp].

Section Start.
Context `{HistoryCodec}.

(** One listener, for the stored item [v] and the clock [clk]. *)
Definition run_listener (v : option jsstr) (clk : jsstr * jsstr)
    (g : globals) (l : listener) : globals :=
  match l with
  | ConstructApp =>
      match init v clk with
      | InitOk a => mk_globals (Object a) (window_easyFilter g) (uncaught g)
      | InitThrows => mk_globals (easyFilter g) (window_easyFilter g) (S (uncaught g))
      | InitForeign => mk_globals Unknown (window_easyFilter g) (uncaught g)
      end
  | PublishApp => mk_globals (easyFilter g) (easyFilter g) (uncaught g)
  end.

(** The [DOMContentLoaded] event: the listeners run in order. *)
Definition dom_content_loaded (v : option jsstr) (clk : jsstr * jsstr)
    (ls : list listener) (g : globals) : globals :=
  fold_left (run_listener v clk) ls g.

(** The value the identifier [easyFilter] denotes in the [onclick]
    attributes of the recent list (line 364): an inline handler looks a
    name up on its element, then on the document, then in the global
    environment, whose declarative part (the [let] of line 401) is
    searched before the properties of [window].  Neither the element nor
    the document has a property of that name. *)
Definition handler_easyFilter (g : globals) : value := easyFilter g.

(** ** Theorems *)

(** C26: when the stored history reads back, both bindings hold the same
    new controller, whose state is reachable, and nothing is thrown. *)
Theorem bootstrap_ok (v : option jsstr) (clk : jsstr * jsstr) (a : app) :
  init v clk = InitOk a ->
  dom_content_loaded v clk script_listeners script_globals = mk_globals (Object a) (Object a) 0 /\
  reachable a.
Proof.
  intros Hi. split; [|by eapply reachable_init].
  unfold dom_content_loaded, script_listeners. simpl. by rewrite Hi.
Qed.

(** C27: when [JSON.parse] rejects the stored item, the constructor's
    exception is reported, no controller exists, and the second listener
    replaces [null] by [undefined]: every button and every [onclick]
    of the page is dead (spec 4.2 says the load must not raise). *)
Theorem bootstrap_corrupt (v : option jsstr) (clk : jsstr * jsstr) :
  init v clk = InitThrows ->
  dom_content_loaded v clk script_listeners script_globals = mk_globals Undefined Undefined 1.
Proof. intros Hi. unfold dom_content_loaded, script_listeners. simpl. by rewrite Hi. Qed.


End Start.

(** ** Witnesses, on the JSON codec *)

Lemma bootstrap_ok_witness :
  dom_content_loaded None ([], []) script_listeners script_globals =
    mk_globals (Object (initial_app None [] ([], []))) (Object (initial_app None [] ([], []))) 0 /\
  reachable (initial_app None [] ([], [])).
Proof. apply bootstrap_ok. vm_compute. reflexivity. Defined.

Lemma bootstrap_corrupt_witness :
  dom_content_loaded (Some (lit "[{")) ([], []) script_listeners script_globals =
    mk_globals Undefined Undefined 1.
Proof. apply bootstrap_corrupt. vm_compute. reflexivity. Defined.


End Bootstrap.
